(** * galaxy: the vlan topology driver and the CNI request dispatcher

    A shallow embedding of the two Go source files of the repository,

    - the [vlan] package ([VlanDriver]: [Init], [CreateBridgeAndVlanDevice],
      [BridgeNameForVlan], [MaybeCreateVlanDevice], [getOrCreateVlanDevice],
      [getVlanMaster], [getVlanIfExist], ...), module [Vlan] below;
    - [pkg/galaxy/server.go] ([requestFunc], [cmdAdd], [cmdDel],
      [setupPortMapping], [cleanupPortMapping]), module [Galaxy] below,
      and its HTTP side ([startServer], [installHandlers], [cni]), module
      [Server];

    over an executable model of what the code talks to: the kernel behind
    the netlink library (module [Netlink]) and the port store, the delegate
    and the port-mapping handler behind the dispatcher.  Every call that
    leaves the program is appended to a log and can be made to fail by a
    fault plan, so that orderings ("before", "no call is issued") and
    failures injected at a given step are statements about values. *)

From Stdlib Require Import ZArith NArith List String Ascii Bool Lia.
From Stdlib Require Import DecimalString.
From stdpp Require Import base option list gmap strings.
Import ListNotations.

Local Open Scope string_scope.
Local Open Scope Z_scope.

(* ===================================================================== *)
(** * Go values: errors and formatting *)
(* ===================================================================== *)

Module Go.

(** [syscall.Errno] values the model uses, with the text of their
    [Error()] method. *)
Inductive Errno := EPERM | ENOENT | EIO | EEXIST | ENODEV | EINVAL | EADDRNOTAVAIL.

Definition Errno_Error (n : Errno) : string :=
  match n with
  | EPERM => "operation not permitted"
  | ENOENT => "no such file or directory"
  | EIO => "input/output error"
  | EEXIST => "file exists"
  | ENODEV => "no such device"
  | EINVAL => "invalid argument"
  | EADDRNOTAVAIL => "cannot assign requested address"
  end.

(** A Go [error] is a dynamic type with an [Error()] method.  Three
    dynamic types occur: a bare errno, an [*os.PathError] and the string
    error built by [fmt.Errorf]. *)
Inductive error :=
| SyscallErrno (n : Errno)
| PathError (op path : string) (n : Errno)
| errorString (s : string).

Definition Error (e : error) : string :=
  match e with
  | SyscallErrno n => Errno_Error n
  | PathError op path n => op ++ " " ++ path ++ ": " ++ Errno_Error n
  | errorString s => s
  end.

(** [fmt.Errorf] with the format already applied to its arguments. *)
Definition Errorf (s : string) : error := errorString s.

(** [os.IsNotExist]: looks at the dynamic type, not at the text. *)
Definition os_IsNotExist (e : error) : bool :=
  match e with
  | SyscallErrno ENOENT | PathError _ _ ENOENT => true
  | _ => false
  end.

(** [strings.Contains s sub]. *)
Definition strings_Contains (s sub : string) : bool :=
  match String.index 0 sub s with
  | Some _ => true
  | None => false
  end.

(** The verb [%d] on an unsigned or a signed integer. *)
Definition fmt_uint (n : N) : string := NilZero.string_of_uint (N.to_uint n).
Definition fmt_int (z : Z) : string := NilZero.string_of_int (Z.to_int z).

(** The result of a call [(T, error)] that follows the convention
    "value or error". *)
Inductive res (A : Type) :=
| Ok (a : A)
| Err (e : error).
Arguments Ok {A} a.
Arguments Err {A} e.

#[global] Instance Errno_eq_dec : EqDecision Errno.
Proof. solve_decision. Defined.
#[global] Instance error_eq_dec : EqDecision error.
Proof. solve_decision. Defined.

End Go.
Import Go.

(* ===================================================================== *)
(** * State passing *)
(* ===================================================================== *)

(** A Go function that reads and changes the world outside the program is
    a function from the state of that world to its result and the new
    state. *)
Definition ST (S A : Type) : Type := S -> A * S.
Definition ret {S A} (a : A) : ST S A := fun s => (a, s).
Definition bind {S A B} (m : ST S A) (f : A -> ST S B) : ST S B :=
  fun s => let (a, s') := m s in f a s'.

Notation "x <- m ;; f" := (bind m (fun x => f))
  (at level 100, m at next level, right associativity).
Notation "'let*' pat := m 'in' f" := (bind m (fun x => match x with pat => f end))
  (at level 100, pat pattern, m at next level, right associativity).

(* ===================================================================== *)
(** * package net: IP addresses *)
(* ===================================================================== *)

Module Net.

(** [net.IP] is a byte slice; a byte is a [Z] in [0, 256). *)
Definition IP := list Z.

Definition v4InV6Prefix : list Z := [0; 0; 0; 0; 0; 0; 0; 0; 0; 0; 255; 255].

(** [IP.To4]: the 4-byte form, or nil ([None]) when the address is not an
    IPv4 address. *)
Definition To4 (ip : IP) : option IP :=
  match ip with
  | [a; b; c; d] => Some [a; b; c; d]
  | _ =>
      if bool_decide (length ip = 16%nat) && bool_decide (take 12 ip = v4InV6Prefix)
      then Some (drop 12 ip)
      else None
  end.

Definition IPv6loopback : IP := [0; 0; 0; 0; 0; 0; 0; 0; 0; 0; 0; 0; 0; 0; 0; 1].

(** [IP.IsLoopback]. *)
Definition IsLoopback (ip : IP) : bool :=
  match To4 ip with
  | Some (a :: _) => bool_decide (a = 127)
  | Some [] => false
  | None => bool_decide (ip = IPv6loopback)
  end.

(** [IP.String] on the forms the model prints: dotted decimal for an IPv4
    address, the nil marker for the empty slice.  Other lengths print as
    Go's fallback marker. *)
Definition IP_String (ip : IP) : string :=
  match ip with
  | [] => "<nil>"
  | _ =>
      match To4 ip with
      | Some [a; b; c; d] =>
          fmt_int a ++ "." ++ fmt_int b ++ "." ++ fmt_int c ++ "." ++ fmt_int d
      | _ => "?"
      end
  end.

(** [net.IPNet] with the mask kept as its prefix length. *)
Record IPNet := { IP_ : IP; Ones : Z }.

Definition IPNet_String (n : IPNet) : string :=
  IP_String (IP_ n) ++ "/" ++ fmt_int (Ones n).

#[global] Instance IPNet_eq_dec : EqDecision IPNet.
Proof. solve_decision. Defined.

End Net.
Import Net.

(* ===================================================================== *)
(** * The netlink library and the kernel behind it *)
(* ===================================================================== *)

Module Netlink.

(** ** Data the library hands out *)

(** [netlink.LinkAttrs], with the up flag of [Flags] as a boolean. *)
Record LinkAttrs := {
  Index : Z;
  Name : string;
  HardwareAddr : list Z;
  MasterIndex : Z;
  ParentIndex : Z;
  Up : bool
}.

(** The dynamic type behind the [netlink.Link] interface: [*Device],
    [*Bridge], [*Vlan] (which adds [VlanId]) or [*GenericLink] (which
    carries its kind as a string). *)
Inductive LinkObj :=
| IsDevice
| IsBridge
| IsVlan (VlanId : Z)
| IsGeneric (LinkType : string).

Record Link := { Attrs : LinkAttrs; Obj : LinkObj }.

(** [link.Type()]. *)
Definition Type_ (l : Link) : string :=
  match Obj l with
  | IsDevice => "device"
  | IsBridge => "bridge"
  | IsVlan _ => "vlan"
  | IsGeneric t => t
  end.

(** The verb [%T] on a link. *)
Definition fmt_T (l : Link) : string :=
  match Obj l with
  | IsDevice => "*netlink.Device"
  | IsBridge => "*netlink.Bridge"
  | IsVlan _ => "*netlink.Vlan"
  | IsGeneric _ => "*netlink.GenericLink"
  end.

(** [netlink.Addr]: the network and the interface label. *)
Record Addr := { IPNet_ : IPNet; Label : string }.

Definition Addr_String (a : Addr) : string :=
  match Label a with
  | "" => IPNet_String (IPNet_ a)
  | l => IPNet_String (IPNet_ a) ++ " " ++ l
  end.

(** [netlink.Route].  [Init] copies [Gw], [Dst], [Src] and [Scope]; the
    other fields stand for what a route carries besides. *)
Record Route := {
  LinkIndex : Z;
  Scope : Z;
  Dst : option IPNet;
  Src : IP;
  Gw : IP;
  Protocol : Z;
  Priority : Z;
  Table : Z
}.

(** [Route.String]: the elements [Ifindex], [Dst], [Src], [Gw], [Flags]
    and [Table], joined by spaces.  The record has no flags: the one route
    the code prints is the one [Init] builds from [LinkIndex], [Gw], [Dst],
    [Src] and [Scope], whose [Flags] are zero, and [ListFlags] of zero
    prints as the empty list. *)
Definition Route_String (r : Route) : string :=
  "{Ifindex: " ++ fmt_int (LinkIndex r) ++ " Dst: "
    ++ match Dst r with Some n => IPNet_String n | None => "<nil>" end
    ++ " Src: " ++ IP_String (Src r) ++ " Gw: " ++ IP_String (Gw r)
    ++ " Flags: []"
    ++ " Table: " ++ fmt_int (Table r) ++ "}".

#[global] Instance LinkAttrs_eq_dec : EqDecision LinkAttrs.
Proof. solve_decision. Defined.
#[global] Instance LinkObj_eq_dec : EqDecision LinkObj.
Proof. solve_decision. Defined.
#[global] Instance Link_eq_dec : EqDecision Link.
Proof. solve_decision. Defined.
#[global] Instance Addr_eq_dec : EqDecision Addr.
Proof. solve_decision. Defined.
#[global] Instance Route_eq_dec : EqDecision Route.
Proof. solve_decision. Defined.

(** ** Calls that leave the program *)

(** One constructor per library (or [utils]) function the driver calls;
    a link argument is recorded by its index. *)
Inductive Call :=
| CLinkByName (name : string)
| CLinkByIndex (index : Z)
| CLinkList
| CLinkAdd (l : Link)
| CLinkSetUp (index : Z)
| CLinkSetMaster (index : Z) (master : string)
| CAddrList (index : Z)
| CAddrDel (index : Z) (a : Addr)
| CAddrAdd (index : Z) (a : Addr)
| CRouteList (index : Z)
| CRouteAdd (r : Route)
| CCreateBridgeDevice (name : string) (mac : list Z)
| CUnSetArpIgnore (dev : string)
| CSetProxyArp (dev : string)
| CEnableNonlocalBind.

#[global] Instance Call_eq_dec : EqDecision Call.
Proof. solve_decision. Defined.

(** A call that changes kernel state when it succeeds. *)
Definition mutating (c : Call) : bool :=
  match c with
  | CLinkByName _ | CLinkByIndex _ | CLinkList | CAddrList _ | CRouteList _ => false
  | _ => true
  end.

(** A call that creates an interface when it succeeds. *)
Definition creating (c : Call) : bool :=
  match c with
  | CLinkAdd _ | CCreateBridgeDevice _ _ => true
  | _ => false
  end.

(** ** The kernel *)

(** The interface table (in the order [LinkList] reports it), the IPv4
    addresses per interface index, the IPv4 routes, the sysctl table; the
    log of calls made so far; and the fault plan: the call made when the
    log has length [n] fails with [e] when [fault n = Some e], without
    touching the kernel. *)
Record Kernel := {
  links : list Link;
  addrs : list (Z * Addr);
  routes : list Route;
  sysctl : gmap string string;
  log : list Call;
  fault : nat -> option error
}.

Definition set_links (ls : list Link) (k : Kernel) : Kernel :=
  {| links := ls; addrs := addrs k; routes := routes k; sysctl := sysctl k;
     log := log k; fault := fault k |}.
Definition set_addrs (xs : list (Z * Addr)) (k : Kernel) : Kernel :=
  {| links := links k; addrs := xs; routes := routes k; sysctl := sysctl k;
     log := log k; fault := fault k |}.
Definition set_routes (rs : list Route) (k : Kernel) : Kernel :=
  {| links := links k; addrs := addrs k; routes := rs; sysctl := sysctl k;
     log := log k; fault := fault k |}.
Definition set_sysctl (s : gmap string string) (k : Kernel) : Kernel :=
  {| links := links k; addrs := addrs k; routes := routes k; sysctl := s;
     log := log k; fault := fault k |}.
Definition logged (c : Call) (k : Kernel) : Kernel :=
  {| links := links k; addrs := addrs k; routes := routes k; sysctl := sysctl k;
     log := log k ++ [c]; fault := fault k |}.

(** The kernel objects two states agree on, whatever was logged. *)
Definition same_objects (k k' : Kernel) : Prop :=
  links k' = links k /\ addrs k' = addrs k /\ routes k' = routes k
  /\ sysctl k' = sysctl k.

(** ** The state monad of a program that talks to the kernel *)

Definition M (A : Type) : Type := ST Kernel A.

(** A call: log it, then fail as the fault plan says or let the kernel
    answer. *)
Definition invoke {A} (c : Call) (sem : Kernel -> res A * Kernel) : M (res A) :=
  fun k =>
    match fault k (length (log k)) with
    | Some e => (Err e, logged c k)
    | None => sem (logged c k)
    end.

(** The [error] result of a call that returns nothing else. *)
Definition errOf (r : res unit) : option error :=
  match r with
  | Ok _ => None
  | Err e => Some e
  end.

Definition invoke_ (c : Call) (sem : Kernel -> res unit * Kernel) : M (option error) :=
  bind (invoke c sem) (fun r => ret (errOf r)).

(** ** What the kernel answers *)

Definition hasName (name : string) (l : Link) : bool :=
  bool_decide (Name (Attrs l) = name).
Definition hasIndex (index : Z) (l : Link) : bool :=
  bool_decide (Index (Attrs l) = index).

Definition byName (name : string) (ls : list Link) : option Link :=
  find (hasName name) ls.
Definition byIndex (index : Z) (ls : list Link) : option Link :=
  find (hasIndex index) ls.

Definition LinkNotFound : error := errorString "Link not found".

Definition LinkByName (name : string) : M (res Link) :=
  invoke (CLinkByName name) (fun k =>
    match byName name (links k) with
    | Some l => (Ok l, k)
    | None => (Err LinkNotFound, k)
    end).

Definition LinkByIndex (index : Z) : M (res Link) :=
  invoke (CLinkByIndex index) (fun k =>
    match byIndex index (links k) with
    | Some l => (Ok l, k)
    | None => (Err LinkNotFound, k)
    end).

Definition LinkList : M (res (list Link)) :=
  invoke CLinkList (fun k => (Ok (links k), k)).

(** The index the kernel gives to a new interface. *)
Definition freshIndex (ls : list Link) : Z :=
  1 + fold_right Z.max 0 (map (fun l => Index (Attrs l)) ls).

(** A new interface: the kernel assigns the index; it starts down and
    without a master. *)
Definition created (ls : list Link) (l : Link) : Link :=
  {| Attrs := {| Index := freshIndex ls; Name := Name (Attrs l);
                 HardwareAddr := HardwareAddr (Attrs l); MasterIndex := 0;
                 ParentIndex := ParentIndex (Attrs l); Up := false |};
     Obj := Obj l |}.

Definition addLink (l : Link) (k : Kernel) : res unit * Kernel :=
  match byName (Name (Attrs l)) (links k) with
  | Some _ => (Err (SyscallErrno EEXIST), k)
  | None => (Ok tt, set_links (links k ++ [created (links k) l]) k)
  end.

Definition LinkAdd (l : Link) : M (option error) :=
  invoke_ (CLinkAdd l) (addLink l).

Definition setUp (l : Link) : Link :=
  {| Attrs := {| Index := Index (Attrs l); Name := Name (Attrs l);
                 HardwareAddr := HardwareAddr (Attrs l);
                 MasterIndex := MasterIndex (Attrs l);
                 ParentIndex := ParentIndex (Attrs l); Up := true |};
     Obj := Obj l |}.

Definition setMaster (m : Z) (l : Link) : Link :=
  {| Attrs := {| Index := Index (Attrs l); Name := Name (Attrs l);
                 HardwareAddr := HardwareAddr (Attrs l);
                 MasterIndex := m;
                 ParentIndex := ParentIndex (Attrs l); Up := Up (Attrs l) |};
     Obj := Obj l |}.

(** Apply [f] to the interfaces of the given index. *)
Definition onIndex (index : Z) (f : Link -> Link) (ls : list Link) : list Link :=
  map (fun l => if hasIndex index l then f l else l) ls.

Definition LinkSetUp (l : Link) : M (option error) :=
  let index := Index (Attrs l) in
  invoke_ (CLinkSetUp index) (fun k =>
    match byIndex index (links k) with
    | Some _ => (Ok tt, set_links (onIndex index setUp (links k)) k)
    | None => (Err (SyscallErrno ENODEV), k)
    end).

(** [LinkSetMaster link (&Bridge{Name: master})]: the library resolves
    the master by its name. *)
Definition LinkSetMaster (l : Link) (master : string) : M (option error) :=
  let index := Index (Attrs l) in
  invoke_ (CLinkSetMaster index master) (fun k =>
    match byName master (links k), byIndex index (links k) with
    | Some m, Some _ =>
        (Ok tt, set_links (onIndex index (setMaster (Index (Attrs m))) (links k)) k)
    | None, _ => (Err LinkNotFound, k)
    | _, None => (Err (SyscallErrno ENODEV), k)
    end).

Definition onLink (index : Z) (x : Z * Addr) : bool := bool_decide (x.1 = index).
Definition sameNet (index : Z) (a : Addr) (x : Z * Addr) : bool :=
  bool_decide (x.1 = index) && bool_decide (IPNet_ x.2 = IPNet_ a).

Definition addrsOf (index : Z) (k : Kernel) : list Addr :=
  map snd (filter (fun x => onLink index x = true) (addrs k)).

Definition AddrList (l : Link) : M (res (list Addr)) :=
  let index := Index (Attrs l) in
  invoke (CAddrList index) (fun k => (Ok (addrsOf index k), k)).

(** Deleting an address: the kernel identifies it by interface and
    network.  With the last address of an interface its routes go too. *)
Definition delAddr (index : Z) (a : Addr) (k : Kernel) : res unit * Kernel :=
  if existsb (sameNet index a) (addrs k) then
    let rest := filter (fun x => sameNet index a x = false) (addrs k) in
    let k1 := set_addrs rest k in
    if existsb (onLink index) rest then (Ok tt, k1)
    else (Ok tt, set_routes (filter (fun r => bool_decide (LinkIndex r <> index)) (routes k)) k1)
  else (Err (SyscallErrno EADDRNOTAVAIL), k).

Definition AddrDel (l : Link) (a : Addr) : M (option error) :=
  let index := Index (Attrs l) in
  invoke_ (CAddrDel index a) (delAddr index a).

Definition addAddr (index : Z) (a : Addr) (k : Kernel) : res unit * Kernel :=
  if existsb (sameNet index a) (addrs k) then (Err (SyscallErrno EEXIST), k)
  else (Ok tt, set_addrs (addrs k ++ [(index, a)]) k).

Definition AddrAdd (l : Link) (a : Addr) : M (option error) :=
  let index := Index (Attrs l) in
  invoke_ (CAddrAdd index a) (addAddr index a).

Definition routesOf (index : Z) (k : Kernel) : list Route :=
  filter (fun r => LinkIndex r = index) (routes k).

Definition RouteList (l : Link) : M (res (list Route)) :=
  let index := Index (Attrs l) in
  invoke (CRouteList index) (fun k => (Ok (routesOf index k), k)).

(** Adding a route: a route to the same destination in the same table
    (table 0 stands for the main table, 254) with the same priority is
    already there. *)
Definition tableOf (r : Route) : Z := if bool_decide (Table r = 0) then 254 else Table r.

Definition sameKey (r r' : Route) : bool :=
  bool_decide (Dst r' = Dst r) && bool_decide (tableOf r' = tableOf r)
  && bool_decide (Priority r' = Priority r).

Definition addRoute (r : Route) (k : Kernel) : res unit * Kernel :=
  if existsb (sameKey r) (routes k) then (Err (SyscallErrno EEXIST), k)
  else (Ok tt, set_routes (routes k ++ [r]) k).

Definition RouteAdd (r : Route) : M (option error) :=
  invoke_ (CRouteAdd r) (addRoute r).

End Netlink.
Import Netlink.

(* ===================================================================== *)
(** * Repository helpers the driver imports *)
(* ===================================================================== *)

Module Utils.

(** Modelled from the spec: [utils.CreateBridgeDevice] is not among the
    sources.  The spec has it create the bridge of the given name,
    "reusing its hardware address only when newly created with a
    caller-supplied MAC": one kernel call that adds a bridge interface
    carrying [mac]. *)
Definition CreateBridgeDevice (bridgeName : string) (mac : list Z) : M (option error) :=
  invoke_ (CCreateBridgeDevice bridgeName mac)
    (addLink {| Attrs := {| Index := 0; Name := bridgeName; HardwareAddr := mac;
                            MasterIndex := 0; ParentIndex := 0; Up := false |};
                Obj := IsBridge |}).

Definition sysctlSet (key value : string) (k : Kernel) : res unit * Kernel :=
  (Ok tt, set_sysctl (<[key := value]> (sysctl k)) k).

(** Modelled from the spec: [utils.UnSetArpIgnore] is not among the
    sources; "disable ARP-ignore" on the named scope. *)
Definition UnSetArpIgnore (dev : string) : M (option error) :=
  invoke_ (CUnSetArpIgnore dev)
    (sysctlSet ("net.ipv4.conf." ++ dev ++ ".arp_ignore") "0").

(** Modelled from the spec: [utils.SetProxyArp] is not among the sources;
    "enable proxy-ARP on the device". *)
Definition SetProxyArp (dev : string) : M (option error) :=
  invoke_ (CSetProxyArp dev)
    (sysctlSet ("net.ipv4.conf." ++ dev ++ ".proxy_arp") "1").

(** Modelled from the spec: [utils.EnableNonlocalBind] is not among the
    sources; "enable non-local bind". *)
Definition EnableNonlocalBind : M (option error) :=
  invoke_ CEnableNonlocalBind (sysctlSet "net.ipv4.ip_nonlocal_bind" "1").

(** Modelled from the spec: [network.FilterLoopbackAddr] is not among the
    sources; it keeps the "non-loopback IPv4 addresses", in order. *)
Definition FilterLoopbackAddr (xs : list Addr) : list Addr :=
  filter (fun a => IsLoopback (IP_ (IPNet_ a)) = false) xs.

End Utils.
Import Utils.

(* ===================================================================== *)
(** * package vlan *)
(* ===================================================================== *)

Module Vlan.

Definition VlanPrefix : string := "vlan".
Definition BridgePrefix : string := "docker".
Definition DefaultBridge : string := "docker".

(** [NetConf]: the fields of the driver's own configuration (the embedded
    [types.NetConf] is not read by the driver).  [DisableDefaultBridge] is
    a [*bool]: unset, false or true. *)
Record NetConf := {
  Device : string;
  Switch : string;
  DisableDefaultBridge : option bool;
  DefaultBridgeName : string;
  BridgeNamePrefix : string;
  VlanNamePrefix : string
}.

(** [VlanDriver]: the embedded [*NetConf] and the two indices.  The
    embedded mutex serialises goroutines; a run of one method, which is
    what is modelled here, takes and releases it without effect. *)
Record VlanDriver := {
  conf : NetConf;
  vlanParentIndex : Z;
  DeviceIndex : Z
}.

Definition set_conf (c : NetConf) (d : VlanDriver) : VlanDriver :=
  {| conf := c; vlanParentIndex := vlanParentIndex d; DeviceIndex := DeviceIndex d |}.
Definition set_vlanParentIndex (i : Z) (d : VlanDriver) : VlanDriver :=
  {| conf := conf d; vlanParentIndex := i; DeviceIndex := DeviceIndex d |}.
Definition set_DeviceIndex (i : Z) (d : VlanDriver) : VlanDriver :=
  {| conf := conf d; vlanParentIndex := vlanParentIndex d; DeviceIndex := i |}.

(** [LoadConf], on the outcome of [json.Unmarshal]. *)
Definition LoadConf (d : VlanDriver) (unmarshal : res NetConf)
  : res NetConf * VlanDriver :=
  match unmarshal with
  | Err e => (Err (Errorf ("failed to load netconf: " ++ Error e)), d)
  | Ok c =>
      let c := {| Device := Device c; Switch := Switch c;
                  DisableDefaultBridge := DisableDefaultBridge c;
                  DefaultBridgeName :=
                    if bool_decide (DefaultBridgeName c = "") then DefaultBridge
                    else DefaultBridgeName c;
                  BridgeNamePrefix :=
                    if bool_decide (BridgeNamePrefix c = "") then BridgePrefix
                    else BridgeNamePrefix c;
                  VlanNamePrefix :=
                    if bool_decide (VlanNamePrefix c = "") then VlanPrefix
                    else VlanNamePrefix c |} in
      (Ok c, set_conf c d)
  end.

Definition MacVlanMode (d : VlanDriver) : bool := bool_decide (Switch (conf d) = "macvlan").
Definition IPVlanMode (d : VlanDriver) : bool := bool_decide (Switch (conf d) = "ipvlan").
Definition PureMode (d : VlanDriver) : bool := bool_decide (Switch (conf d) = "pure").

(** ** getOrCreateDevice, getOrCreateBridge *)

Definition getOrCreateDevice (name : string) (createDevice : string -> M (option error))
  : M (res Link) :=
  r <- LinkByName name ;;
  match r with
  | Ok device => ret (Ok device)
  | Err _ =>
      e <- createDevice name ;;
      match e with
      | Some e => ret (Err (Errorf ("Failed to add " ++ name ++ ": " ++ Error e)))
      | None =>
          r <- LinkByName name ;;
          match r with
          | Err e => ret (Err (Errorf ("Failed to get " ++ name ++ ": " ++ Error e)))
          | Ok device => ret (Ok device)
          end
      end
  end.

Definition getOrCreateBridge (bridgeName : string) (mac : list Z) : M (res Link) :=
  getOrCreateDevice bridgeName (fun _ =>
    e <- CreateBridgeDevice bridgeName mac ;;
    match e with
    | Some e => ret (Some (Errorf ("Failed to add bridge device " ++ bridgeName ++ ": " ++ Error e)))
    | None => ret None
    end).

(** ** BridgeNameForVlan *)

Definition BridgeNameForVlan (d : VlanDriver) (vlanId : N) : string :=
  if bool_decide (vlanId = 0%N) && PureMode d then ""
  else
    let bridgeName := DefaultBridgeName (conf d) in
    let bridgeName :=
      if bool_decide (vlanId <> 0%N) then BridgeNamePrefix (conf d) ++ fmt_uint vlanId
      else bridgeName in
    bridgeName.

(** ** getVlanIfExist, getVlanMaster, getOrCreateVlanDevice *)

(** The loop of [getVlanIfExist] over the interfaces [LinkList] gave. *)
Fixpoint scanVlan (vlanParentIndex : Z) (vlanId : N) (ls : list Link)
  : option Link * option error :=
  match ls with
  | [] => (None, None)
  | link :: rest =>
      if bool_decide (Type_ link = "vlan") then
        match Obj link with
        | IsVlan id =>
            if bool_decide (id = Z.of_N vlanId)
               && bool_decide (ParentIndex (Attrs link) = vlanParentIndex)
            then (Some link, None)
            else scanVlan vlanParentIndex vlanId rest
        | _ => (None, Some (Errorf ("vlan device type case error: " ++ fmt_T link)))
        end
      else scanVlan vlanParentIndex vlanId rest
  end.

Definition getVlanIfExist (d : VlanDriver) (vlanId : N) : M (option Link * option error) :=
  r <- LinkList ;;
  match r with
  | Err e => ret (None, Some e)
  | Ok ls => ret (scanVlan (vlanParentIndex d) vlanId ls)
  end.

Definition getVlanMaster (link : Link) : M (option Link * option error) :=
  match Obj link with
  | IsVlan _ =>
      if bool_decide (MasterIndex (Attrs link) <= 0) then ret (None, None)
      else
        r <- LinkByIndex (MasterIndex (Attrs link)) ;;
        match r with
        | Err e => ret (None, Some e)
        | Ok m =>
            if bool_decide (Type_ m = "bridge") then ret (Some m, None)
            else ret (None, None)
        end
  | _ => ret (None, Some (Errorf "not a vlan device"))
  end.

Definition getOrCreateVlanDevice (d : VlanDriver) (vlanId : N)
  : M (option Link * option error * VlanDriver) :=
  let* (link, err) := getVlanIfExist d vlanId in
  match link, err with
  | Some l, _ => ret (link, err, set_DeviceIndex (Index (Attrs l)) d)
  | None, Some _ => ret (link, err, d)
  | None, None =>
      let vlanIfName := VlanNamePrefix (conf d) ++ fmt_uint vlanId in
      r <- getOrCreateDevice vlanIfName (fun _ =>
             let vlanIf := {| Attrs := {| Index := 0; Name := vlanIfName;
                                          HardwareAddr := []; MasterIndex := 0;
                                          ParentIndex := vlanParentIndex d;
                                          Up := false |};
                              Obj := IsVlan (Z.of_N vlanId) |} in
             e <- LinkAdd vlanIf ;;
             match e with
             | Some e => ret (Some (Errorf ("Failed to add vlan device " ++ vlanIfName
                                              ++ ": " ++ Error e)))
             | None => ret None
             end) ;;
      match r with
      | Err e => ret (None, Some e, d)
      | Ok vlan =>
          e <- LinkSetUp vlan ;;
          match e with
          | Some e => ret (None, Some (Errorf ("Failed to set up vlan device " ++ vlanIfName
                                                 ++ ": " ++ Error e)), d)
          | None => ret (Some vlan, None, set_DeviceIndex (Index (Attrs vlan)) d)
          end
      end
  end.

(** ** MaybeCreateVlanDevice, CreateBridgeAndVlanDevice *)

Definition MaybeCreateVlanDevice (d : VlanDriver) (vlanId : N)
  : M (option error * VlanDriver) :=
  if bool_decide (vlanId = 0%N) then ret (None, d)
  else
    let* (_, err, d) := getOrCreateVlanDevice d vlanId in
    ret (err, d).

Definition CreateBridgeAndVlanDevice (d : VlanDriver) (vlanId : N)
  : M (string * option error * VlanDriver) :=
  if bool_decide (vlanId = 0%N) then ret (BridgeNameForVlan d vlanId, None, d)
  else
    let* (vlan, err, d) := getOrCreateVlanDevice d vlanId in
    match err, vlan with
    | Some e, _ => ret ("", Some e, d)
    | None, None =>
        (* unreachable: without an error getOrCreateVlanDevice returns a
           link; the nil interface makes getVlanMaster's assertion fail *)
        ret ("", Some (Errorf "not a vlan device"), d)
    | None, Some vlan =>
        let* (master, err) := getVlanMaster vlan in
        match err, master with
        | Some e, _ => ret ("", Some e, d)
        | None, Some m => ret (Name (Attrs m), None, d)
        | None, None =>
            let bridgeIfName := BridgeNamePrefix (conf d) ++ fmt_uint vlanId in
            r <- getOrCreateBridge bridgeIfName [] ;;
            match r with
            | Err e => ret ("", Some e, d)
            | Ok bridge =>
                e <- (if bool_decide (MasterIndex (Attrs vlan) <> Index (Attrs bridge))
                      then
                        e <- LinkSetMaster vlan bridgeIfName ;;
                        match e with
                        | Some e =>
                            ret (Some (Errorf ("Failed to add vlan device "
                                                 ++ Name (Attrs vlan) ++ " to bridge device "
                                                 ++ bridgeIfName ++ ": " ++ Error e)))
                        | None => ret None
                        end
                      else ret None) ;;
                match e with
                | Some e => ret ("", Some e, d)
                | None =>
                    e <- LinkSetUp bridge ;;
                    match e with
                    | Some e => ret ("", Some (Errorf ("Failed to set up bridge device "
                                                        ++ bridgeIfName ++ ": " ++ Error e)), d)
                    | None =>
                        if PureMode d then
                          e <- SetProxyArp bridgeIfName ;;
                          match e with
                          | Some e => ret ("", Some e, d)
                          | None => ret (bridgeIfName, None, d)
                          end
                        else ret (bridgeIfName, None, d)
                    end
                end
            end
        end
    end.

(** ** Init *)

(** The scope of the variable of a [for] statement, which decides what a
    closure made in the loop body sees when it runs later.  Before Go 1.22
    there is one variable per loop, shared by all iterations and by every
    closure made in the body; from Go 1.22 on, in modules that declare that
    version, each iteration has its own.  The sources are written against
    the CNI library whose [types.Result] still has the field [IP4], years
    before Go 1.22: [PerLoop] is the language this code was written in
    and is built with, and [PerIteration] is kept for comparison. *)
Inductive LoopVar := PerLoop | PerIteration.

(** The variables of the address branch of [Init] that its deferred
    closures close over: [err], the loop variable [i] of
    [for i := range filteredAddr], and the slice [filteredAddr], whose
    elements the loop body updates in place. *)
Record Frame := {
  err : option error;
  i : nat;
  filteredAddr : list Addr
}.

Definition set_err (e : option error) (fr : Frame) : Frame :=
  {| err := e; i := i fr; filteredAddr := filteredAddr fr |}.
Definition set_i (j : nat) (fr : Frame) : Frame :=
  {| err := err fr; i := j; filteredAddr := filteredAddr fr |}.
Definition set_filteredAddr (xs : list Addr) (fr : Frame) : Frame :=
  {| err := err fr; i := i fr; filteredAddr := xs |}.

(** [xs[j]].  Out of range Go panics; every index below comes from
    [range] over the same slice, whose length never changes
    ([range_in_bounds]). *)
Definition elem (xs : list Addr) (j : nat) : Addr :=
  default {| IPNet_ := {| IP_ := []; Ones := 0 |}; Label := "" |} (xs !! j).

(** The two [defer] statements: the closure that adds the snapshotted
    routes back, and the closure that adds [filteredAddr[i]] back to the
    device, registered by iteration [own]. *)
Inductive Deferred :=
| deferRoutes (rs : list Route)
| deferAddr (device : Link) (own : nat).

Fixpoint addRoutesBack (rs : list Route) : M unit :=
  match rs with
  | [] => ret tt
  | r :: rest => _ <- RouteAdd r ;; addRoutesBack rest
  end.

(** The index the closure of iteration [own] reads from [i] when it
    runs. *)
Definition seen (lv : LoopVar) (fr : Frame) (own : nat) : nat :=
  match lv with
  | PerLoop => i fr
  | PerIteration => own
  end.

(** Running one deferred closure: both test [err != nil] first, and both
    drop the error of what they call. *)
Definition runDeferred (lv : LoopVar) (fr : Frame) (c : Deferred) : M unit :=
  match err fr with
  | None => ret tt
  | Some _ =>
      match c with
      | deferRoutes rs => addRoutesBack rs
      | deferAddr device own =>
          _ <- AddrAdd device (elem (filteredAddr fr) (seen lv fr own)) ;; ret tt
      end
  end.

(** Deferred calls run last-in first-out; the list is the stack, most
    recent first. *)
Fixpoint runDefers (lv : LoopVar) (fr : Frame) (ds : list Deferred) : M unit :=
  match ds with
  | [] => ret tt
  | c :: rest => _ <- runDeferred lv fr c ;; runDefers lv fr rest
  end.

Definition clearLabel (a : Addr) : Addr := {| IPNet_ := IPNet_ a; Label := "" |}.

(** [for i := range filteredAddr { ... }] over the indices still to do.
    The first component of the result is [Some e] when the body returned
    [e] from [Init], [None] when the loop ran to its end. *)
Fixpoint addrLoop (d : VlanDriver) (device bri : Link) (idx : list nat)
         (fr : Frame) (ds : list Deferred)
  : M (option error * Frame * list Deferred) :=
  match idx with
  | [] => ret (None, fr, ds)
  | j :: rest =>
      let fr := set_i j fr in
      e <- AddrDel device (elem (filteredAddr fr) j) ;;
      let fr := set_err e fr in
      match e with
      | Some e =>
          ret (Some (Errorf ("Failed to remove v4address from device "
                               ++ Device (conf d) ++ ": " ++ Error e)), fr, ds)
      | None =>
          let ds := deferAddr device j :: ds in
          let fr := set_filteredAddr
                      (<[j := clearLabel (elem (filteredAddr fr) j)]> (filteredAddr fr)) fr in
          e <- AddrAdd bri (elem (filteredAddr fr) j) ;;
          let fr := set_err e fr in
          match e with
          | Some e =>
              if negb (strings_Contains (Error e) "file exists") then
                ret (Some (Errorf ("Failed to add v4address to bridge device "
                                     ++ DefaultBridgeName (conf d) ++ ": " ++ Error e
                                     ++ ", address " ++ Addr_String (elem (filteredAddr fr) j))),
                     fr, ds)
              else addrLoop d device bri rest (set_err None fr) ds
          | None => addrLoop d device bri rest fr ds
          end
      end
  end.

Definition newRoute (bri : Link) (r : Route) : Route :=
  {| LinkIndex := Index (Attrs bri); Scope := Scope r; Dst := Dst r; Src := Src r;
     Gw := Gw r; Protocol := 0; Priority := 0; Table := 0 |}.

(** [for i := range rs { ... }]: a loop variable of its own. *)
Fixpoint routeLoop (bri : Link) (rs : list Route) (fr : Frame)
  : M (option error * Frame) :=
  match rs with
  | [] => ret (None, fr)
  | r :: rest =>
      e <- RouteAdd (newRoute bri r) ;;
      let fr := set_err e fr in
      match e with
      | Some e =>
          if negb (strings_Contains (Error e) "file exists") then
            ret (Some (Errorf ("failed to add route " ++ Route_String (newRoute bri r))), fr)
          else routeLoop bri rest (set_err None fr)
      | None => routeLoop bri rest fr
      end
  end.

(** The statements of the address branch after the first [defer], up to
    the [return] that ends them: the value returned, and the frame and
    the stack of deferred closures at that point. *)
Definition moveToBridge (d : VlanDriver) (device bri : Link) (rs : list Route)
           (addrs : list Addr)
  : M (option error * Frame * list Deferred) :=
  let fr := {| err := None; i := 0; filteredAddr := addrs |} in
  let ds := [deferRoutes rs] in
  let* (r, fr, ds) := addrLoop d device bri (seq 0 (length addrs)) fr ds in
  match r with
  | Some e => ret (Some e, fr, ds)
  | None =>
      e <- LinkSetMaster device (DefaultBridgeName (conf d)) ;;
      let fr := set_err e fr in
      match e with
      | Some e =>
          ret (Some (Errorf ("Failed to add device " ++ Device (conf d)
                               ++ " to bridge device " ++ DefaultBridgeName (conf d)
                               ++ ": " ++ Error e)), fr, ds)
      | None =>
          let* (r, fr) := routeLoop bri rs fr in
          ret (r, fr, ds)
      end
  end.

(** The [else] branch of [Init]: the device carries addresses. *)
Definition migrate (lv : LoopVar) (d : VlanDriver) (device : Link) (addrs : list Addr)
  : M (option error) :=
  r <- getOrCreateBridge (DefaultBridgeName (conf d)) (HardwareAddr (Attrs device)) ;;
  match r with
  | Err e => ret (Some e)
  | Ok bri =>
      e <- LinkSetUp bri ;;
      match e with
      | Some e => ret (Some (Errorf ("Failed to set up bridge device "
                                       ++ DefaultBridgeName (conf d) ++ ": " ++ Error e)))
      | None =>
          r <- RouteList device ;;
          match r with
          | Err _ => ret (Some (Errorf ("Failed to list route of device "
                                          ++ Name (Attrs device))))
          | Ok rs =>
              let* (r, fr, ds) := moveToBridge d device bri rs addrs in
              _ <- runDefers lv fr ds ;;
              ret r
          end
      end
  end.

(** The [if] branch: no address, the device has to be a port of the
    default bridge already. *)
Definition checkEnslaved (d : VlanDriver) (device : Link) : M (option error) :=
  r <- LinkByName (DefaultBridgeName (conf d)) ;;
  match r with
  | Err e => ret (Some (Errorf ("Error getting bri device " ++ DefaultBridgeName (conf d)
                                  ++ ": " ++ Error e)))
  | Ok bri =>
      if bool_decide (Index (Attrs bri) <> MasterIndex (Attrs device)) then
        ret (Some (Errorf ("No available address found on device " ++ Device (conf d))))
      else ret None
  end.

Definition pureSetup (d : VlanDriver) : M (option error) :=
  e <- UnSetArpIgnore "all" ;;
  match e with
  | Some e => ret (Some e)
  | None =>
      e <- UnSetArpIgnore (Device (conf d)) ;;
      match e with
      | Some e => ret (Some e)
      | None =>
          e <- SetProxyArp (Device (conf d)) ;;
          match e with
          | Some e => ret (Some e)
          | None => EnableNonlocalBind
          end
      end
  end.

Definition Init (lv : LoopVar) (d : VlanDriver) : M (option error * VlanDriver) :=
  r <- LinkByName (Device (conf d)) ;;
  match r with
  | Err e =>
      ret (Some (Errorf ("Error getting device " ++ Device (conf d) ++ ": " ++ Error e)), d)
  | Ok device =>
      let d := set_DeviceIndex (Index (Attrs device)) d in
      let d := set_vlanParentIndex (Index (Attrs device)) d in
      let d := if bool_decide (Type_ device = "vlan")
               then set_vlanParentIndex (ParentIndex (Attrs device)) d
               else d in
      if MacVlanMode d || IPVlanMode d then ret (None, d)
      else if PureMode d then
        e <- pureSetup d ;; ret (e, d)
      else if bool_decide (DisableDefaultBridge (conf d) = Some true) then ret (None, d)
      else
        r <- AddrList device ;;
        match r with
        | Err e => ret (Some (Errorf ("Errror getting ipv4 address " ++ Error e)), d)
        | Ok v4Addr =>
            let filteredAddr := FilterLoopbackAddr v4Addr in
            if bool_decide (length filteredAddr = 0%nat) then
              e <- checkEnslaved d device ;; ret (e, d)
            else
              e <- migrate lv d device filteredAddr ;; ret (e, d)
        end
  end.

End Vlan.

(* ===================================================================== *)
(** * package galaxy: the request dispatcher (server.go) *)
(* ===================================================================== *)

Module Galaxy.

(** ** Data *)

(** [types.IPConfig] and [types.Result] of the CNI library: [IP4] and
    [IP6] are pointers. *)
Record IPConfig := { IP : IPNet; Gateway : Net.IP }.
Record Result := { IP4 : option IPConfig; IP6 : option IPConfig }.

(** Modelled from the spec: the type [k8s.Port] is not among the sources;
    a port mapping is a "(host port, pod port, protocol, pod IP)"
    tuple. *)
Record Port := {
  HostPort : Z;
  ContainerPort : Z;
  Proto : string;
  PodIP : string
}.

Definition set_PodIP (ip : string) (p : Port) : Port :=
  {| HostPort := HostPort p; ContainerPort := ContainerPort p; Proto := Proto p;
     PodIP := ip |}.

(** Modelled from the spec: the type [galaxyapi.PodRequest] is not among
    the sources; "command, container ID, network-namespace path, raw
    port-spec string, delegate-specific arguments". *)
Record CmdArgs := { StdinData : string; Args : string }.
Record PodRequest := {
  Command : string;
  ContainerID : string;
  Netns : string;
  Ports : string;
  Cmd : CmdArgs
}.

Definition set_StdinData (data : string) (req : PodRequest) : PodRequest :=
  {| Command := Command req; ContainerID := ContainerID req; Netns := Netns req;
     Ports := Ports req;
     Cmd := {| StdinData := data; Args := Args (Cmd req) |} |}.

(** Modelled from the spec: the constants of [cniutil] are not among the
    sources; the commands are "ADD" and "DEL". *)
Definition COMMAND_ADD : string := "ADD".
Definition COMMAND_DEL : string := "DEL".

(** The receiver [*Galaxy] with the fields the handlers read, and the
    process flags [flagMaster] and the node IP next to them. *)
Record Galaxy := {
  flannelConf : string;
  netConf : string;
  flagMaster : string;
  nodeIP : string
}.

#[global] Instance IPConfig_eq_dec : EqDecision IPConfig.
Proof. solve_decision. Defined.
#[global] Instance Result_eq_dec : EqDecision Result.
Proof. solve_decision. Defined.
#[global] Instance Port_eq_dec : EqDecision Port.
Proof. solve_decision. Defined.
#[global] Instance CmdArgs_eq_dec : EqDecision CmdArgs.
Proof. solve_decision. Defined.
#[global] Instance PodRequest_eq_dec : EqDecision PodRequest.
Proof. solve_decision. Defined.

(** ** What the dispatcher talks to *)

Inductive Ext :=
| XDisableIPv6 (path : string)
| XFlannelCmdAdd (args : CmdArgs)
| XRemoteCmdAdd (req : PodRequest) (master node conf : string)
| XFlannelCmdDel (args : CmdArgs)
| XRemoteCmdDel (req : PodRequest) (conf : string)
| XSavePort (containerID data : string)
| XConsumePort (containerID : string)
| XSetupPortMapping (dev : string) (ports : list Port)
| XCleanPortMapping (dev : string) (ports : list Port).

(** A call that does port-mapping work. *)
Definition portWork (c : Ext) : bool :=
  match c with
  | XSavePort _ _ | XConsumePort _ | XSetupPortMapping _ _ | XCleanPortMapping _ _ => true
  | _ => false
  end.

(** The port store (container ID to raw port spec), the port mappings
    installed on the host, the log of calls, what the delegate's [CmdAdd]
    returns when it is the call number [n], and the fault plan of the
    other calls (as for the kernel). *)
Record World := {
  store : gmap string string;
  installed : list Port;
  wlog : list Ext;
  delegate : nat -> option Result * option error;
  wfault : nat -> option error
}.

Definition set_store (m : gmap string string) (w : World) : World :=
  {| store := m; installed := installed w; wlog := wlog w; delegate := delegate w;
     wfault := wfault w |}.
Definition set_installed (ps : list Port) (w : World) : World :=
  {| store := store w; installed := ps; wlog := wlog w; delegate := delegate w;
     wfault := wfault w |}.
Definition wlogged (c : Ext) (w : World) : World :=
  {| store := store w; installed := installed w; wlog := wlog w ++ [c];
     delegate := delegate w; wfault := wfault w |}.

Definition W (A : Type) : Type := ST World A.

Definition call {A} (c : Ext) (sem : World -> res A * World) : W (res A) :=
  fun w =>
    match wfault w (length (wlog w)) with
    | Some e => (Err e, wlogged c w)
    | None => sem (wlogged c w)
    end.

Definition call_ (c : Ext) (sem : World -> res unit * World) : W (option error) :=
  r <- call c sem ;; ret (errOf r).

(** The delegate is a black box: [Add(request) -> (allocationResult,
    error)], [Del(request) -> error]. *)
Definition delegateAdd (c : Ext) : W (option Result * option error) :=
  fun w => (delegate w (length (wlog w)), wlogged c w).

Definition flannel_CmdAdd (args : CmdArgs) : W (option Result * option error) :=
  delegateAdd (XFlannelCmdAdd args).
Definition remote_CmdAdd (req : PodRequest) (master node conf : string)
  : W (option Result * option error) :=
  delegateAdd (XRemoteCmdAdd req master node conf).
Definition flannel_CmdDel (args : CmdArgs) : W (option error) :=
  call_ (XFlannelCmdDel args) (fun w => (Ok tt, w)).
Definition remote_CmdDel (req : PodRequest) (conf : string) : W (option error) :=
  call_ (XRemoteCmdDel req conf) (fun w => (Ok tt, w)).

(** [disableIPv6]: runs the helper binary on the namespace path. *)
Definition disableIPv6 (path : string) : W (option error) :=
  e <- call_ (XDisableIPv6 path) (fun w => (Ok tt, w)) ;;
  match e with
  | Some e => ret (Some (Errorf ("reexec to set IPv6 failed: " ++ Error e)))
  | None => ret None
  end.

Section Dispatcher.

(** The pure data transforms the dispatcher is handed: the port-spec
    parser [k8s.ParsePorts], [json.Marshal] on a result, and the
    renderings of the verbs [%v] and [%+v] in two error texts. *)
Variable ParsePorts : string -> list Port * option error.
Variable json_Marshal : Result -> string * option error.
Variable fmt_ports : list Port -> string.
Variable fmt_IPConfig : IPConfig -> string.

(** Modelled from the spec: [k8s.SavePort] is not among the sources;
    the store's [save(containerID, spec)]. *)
Definition SavePort (containerID data : string) : W (option error) :=
  call_ (XSavePort containerID data)
    (fun w => (Ok tt, set_store (<[containerID := data]> (store w)) w)).

(** Modelled from the spec: [k8s.ConsumePort] is not among the sources;
    the store's [consume(containerID) -> spec | not-found], which takes
    the entry away and hands out the ports of the spec. *)
Definition ConsumePort (containerID : string) : W (list Port * option error) :=
  r <- call (XConsumePort containerID) (fun w =>
         match store w !! containerID with
         | None => (Err (PathError "open" containerID ENOENT), w)
         | Some data => (Ok data, set_store (delete containerID (store w)) w)
         end) ;;
  match r with
  | Err e => ret ([], Some e)
  | Ok data => ret (ParsePorts data)
  end.

(** Two mappings of the same host port and protocol. *)
Definition sameHostPort (p q : Port) : bool :=
  bool_decide (HostPort p = HostPort q) && bool_decide (Proto p = Proto q).

(** Modelled from the spec: [portmapping.SetupPortMapping] is not among the
    sources; it installs the mappings of the given ports. *)
Definition SetupPortMapping (dev : string) (ports : list Port) : W (option error) :=
  call_ (XSetupPortMapping dev ports)
    (fun w => (Ok tt, set_installed (installed w ++ ports) w)).

(** Modelled from the spec: [portmapping.CleanPortMapping] is not among the
    sources; it removes the installed mappings of the given ports, told by
    host port and protocol (the ports a DEL reads back from the store
    carry no pod IP). *)
Definition CleanPortMapping (dev : string) (ports : list Port) : W (option error) :=
  call_ (XCleanPortMapping dev ports)
    (fun w => (Ok tt, set_installed
                        (filter (fun p => existsb (sameHostPort p) ports = false)
                                (installed w)) w)).

(** ** cmdAdd, cmdDel *)

(** Both write [g.flannelConf] into the request they were handed when
    no master is configured; the request comes back with the result. *)
Definition cmdAdd (g : Galaxy) (req : PodRequest)
  : W (option Result * option error * PodRequest) :=
  _ <- disableIPv6 (Netns req) ;;
  if bool_decide (flagMaster g = "") then
    let req := set_StdinData (flannelConf g) req in
    let* (result, err) := flannel_CmdAdd (Cmd req) in
    ret (result, err, req)
  else
    let* (result, err) := remote_CmdAdd req (flagMaster g) (nodeIP g) (netConf g) in
    ret (result, err, req).

Definition cmdDel (g : Galaxy) (req : PodRequest) : W (option error * PodRequest) :=
  if bool_decide (flagMaster g = "") then
    let req := set_StdinData (flannelConf g) req in
    e <- flannel_CmdDel (Cmd req) ;; ret (e, req)
  else
    e <- remote_CmdDel req (netConf g) ;; ret (e, req).

(** ** setupPortMapping, cleanupPortMapping *)

Definition setupPortMapping (portStr containerID : string) (result : Result)
  : W (option error) :=
  let (ports, err) := ParsePorts portStr in
  match err with
  | Some e => ret (Some e)
  | None =>
      e <- SavePort containerID portStr ;;
      match e with
      | Some e => ret (Some (Errorf ("failed to save ports " ++ Error e)))
      | None =>
          match IP4 result with
          | None => ret (Some (Errorf "CNI plugin reported no IPv4 address"))
          | Some c =>
              match To4 (IP_ (IP c)) with
              | None =>
                  ret (Some (Errorf ("CNI plugin reported an invalid IPv4 address: "
                                       ++ fmt_IPConfig c ++ ".")))
              | Some ip4 =>
                  let ports := map (set_PodIP (IP_String ip4)) ports in
                  if bool_decide (length ports <> 0%nat) then
                    e <- SetupPortMapping "cni0" ports ;;
                    match e with
                    | Some e =>
                        ret (Some (Errorf ("failed to setup port mapping "
                                             ++ fmt_ports ports ++ ": " ++ Error e)))
                    | None => ret None
                    end
                  else ret None
              end
          end
      end
  end.

Definition cleanupPortMapping (containerID : string) : W (option error) :=
  let* (ports, err) := ConsumePort containerID in
  match err with
  | Some e =>
      if os_IsNotExist e then ret None
      else ret (Some (Errorf ("failed to read ports " ++ Error e)))
  | None =>
      if bool_decide (length ports <> 0%nat) then
        e <- CleanPortMapping "cni0" ports ;;
        match e with
        | Some e =>
            ret (Some (Errorf ("failed to delete port mapping "
                                 ++ fmt_ports ports ++ ": " ++ Error e)))
        | None => ret None
        end
      else ret None
  end.

(** ** requestFunc *)

(** The result is [(data, err)]; the nil byte slice is the empty
    string.  The logging statements have no effect on either. *)
Definition requestFunc (g : Galaxy) (req : PodRequest) : W (string * option error) :=
  if bool_decide (Command req = COMMAND_ADD) then
    let* (result, err1, req) := cmdAdd g req in
    match err1 with
    | Some e => ret ("", Some e)
    | None =>
        match result with
        | Some result =>
            let (data, _) := json_Marshal result in
            err <- setupPortMapping (Ports req) (ContainerID req) result ;;
            ret (data, err)
        | None => ret ("", None)
        end
    end
  else if bool_decide (Command req = COMMAND_DEL) then
    let* (err, req) := cmdDel g req in
    match err with
    | Some e => ret ("", Some e)
    | None =>
        err <- cleanupPortMapping (ContainerID req) ;;
        ret ("", err)
    end
  else ret ("", Some (Errorf ("unkown command " ++ Command req))).

End Dispatcher.

End Galaxy.

(* ===================================================================== *)
(** * package galaxy: the HTTP side of server.go *)
(* ===================================================================== *)

Module Server.
Import Galaxy.

(** ** The handler [cni] *)

(** What the handler leaves in the [restful.Response]: the status code,
    the headers it set and the body it wrote. *)
Record Response := {
  Status : Z;
  Header : gmap string string;
  Body : string
}.

Definition StatusOK : Z := 200.
Definition StatusBadRequest : Z := 400.

(** The line feed [fmt.Fprintln] ends the error text with. *)
Definition LF : string := String (ascii_of_nat 10) EmptyString.

(** [http.Error]: plain text, no sniffing, the code, the text and a line
    feed. *)
Definition http_Error (text : string) (code : Z) : Response :=
  {| Status := code;
     Header := <["X-Content-Type-Options" := "nosniff"]>
                 (<["Content-Type" := "text/plain; charset=utf-8"]> ∅);
     Body := text ++ LF |}.

Section Handler.

Variable ParsePorts : string -> list Port * option error.
Variable json_Marshal : Result -> string * option error.
Variable fmt_ports : list Port -> string.
Variable fmt_IPConfig : IPConfig -> string.

(** [cni], on the outcome of [galaxyapi.CniRequestToPodRequest] (which is
    not among the sources).  The verb [%v] on an error prints its
    [Error()].  A failure of the last [Write] is only logged. *)
Definition cni (g : Galaxy) (parsed : res PodRequest) : W Response :=
  match parsed with
  | Err e => ret (http_Error (Error e) StatusBadRequest)
  | Ok req =>
      let* (result, err) := requestFunc ParsePorts json_Marshal fmt_ports fmt_IPConfig g req in
      match err with
      | Some e => ret (http_Error (Error e) StatusBadRequest)
      | None =>
          ret {| Status := StatusOK;
                 Header := <["Content-Type" := "application/json"]> ∅;
                 Body := result |}
      end
  end.

End Handler.

(** ** startServer, installHandlers *)

(** The calls of [startServer] that leave the program. *)
Inductive Sys :=
| SRoute (method path : string)
| SRemove (path : string)
| SListen (network address : string)
| SChmod (path : string) (mode : Z)
| SClose
| SServe.

(** The host the server starts on: the files at the paths it touches, with
    their mode; whether its listener is open; the routes registered with
    the web service; the log of calls and the fault plan, as for the
    kernel. *)
Record Host := {
  files : gmap string Z;
  listening : bool;
  handlers : list (string * string);
  hlog : list Sys;
  hfault : nat -> option error
}.

Definition set_files (m : gmap string Z) (h : Host) : Host :=
  {| files := m; listening := listening h; handlers := handlers h; hlog := hlog h;
     hfault := hfault h |}.
Definition set_listening (b : bool) (h : Host) : Host :=
  {| files := files h; listening := b; handlers := handlers h; hlog := hlog h;
     hfault := hfault h |}.
Definition set_handlers (hs : list (string * string)) (h : Host) : Host :=
  {| files := files h; listening := listening h; handlers := hs; hlog := hlog h;
     hfault := hfault h |}.
Definition hlogged (c : Sys) (h : Host) : Host :=
  {| files := files h; listening := listening h; handlers := handlers h;
     hlog := hlog h ++ [c]; hfault := hfault h |}.

Definition H (A : Type) : Type := ST Host A.

Definition sys (c : Sys) (sem : Host -> res unit * Host) : H (option error) :=
  fun h =>
    match hfault h (length (hlog h)) with
    | Some e => (Some e, hlogged c h)
    | None => let (r, h') := sem (hlogged c h) in (errOf r, h')
    end.

(** [ws.Route(ws.GET(path).To(g.cni))] and the like: registering cannot
    fail. *)
Definition route (method path : string) : H unit :=
  fun h => (tt, set_handlers (handlers h ++ [(method, path)]) (hlogged (SRoute method path) h)).

(** [os.Remove]. *)
Definition os_Remove (path : string) : H (option error) :=
  sys (SRemove path) (fun h =>
    match files h !! path with
    | Some _ => (Ok tt, set_files (delete path (files h)) h)
    | None => (Err (PathError "remove" path ENOENT), h)
    end).

(** The mode of a socket file as [net.Listen] makes it (0755). *)
Definition socketMode : Z := 493.

(** [net.Listen("unix", path)]: binds a new socket file; a file in the way
    is an error. *)
Definition net_Listen (network address : string) : H (option error) :=
  sys (SListen network address) (fun h =>
    match files h !! address with
    | Some _ =>
        (Err (errorString ("listen " ++ network ++ " " ++ address
                             ++ ": bind: address already in use")), h)
    | None => (Ok tt, set_listening true (set_files (<[address := socketMode]> (files h)) h))
    end).

(** [os.Chmod]. *)
Definition os_Chmod (path : string) (mode : Z) : H (option error) :=
  sys (SChmod path mode) (fun h =>
    match files h !! path with
    | Some _ => (Ok tt, set_files (<[path := mode]> (files h)) h)
    | None => (Err (PathError "chmod" path ENOENT), h)
    end).

(** [l.Close()]; its error is dropped by the caller. *)
Definition Close : H unit :=
  fun h => (tt, set_listening false (hlogged SClose h)).

(** How [startServer] ends: it returns an error; or [http.Serve] returns
    with an error and [glog.Fatal] ends the process; or [http.Serve] keeps
    serving.  (The [return nil] after [glog.Fatal] is never reached.) *)
Inductive Outcome :=
| Return (e : error)
| Fatal (e : error)
| Serving.

(** [http.Serve(l, nil)]: serves until it fails. *)
Definition http_Serve : H Outcome :=
  fun h =>
    match hfault h (length (hlog h)) with
    | Some e => (Fatal e, hlogged SServe h)
    | None => (Serving, hlogged SServe h)
    end.

Definition installHandlers : H unit :=
  _ <- route "GET" "/cni" ;;
  route "POST" "/cni".

(** The mode [0600]. *)
Definition mode0600 : Z := 384.

(** [startServer], for the socket path [galaxyapi.GalaxySocketPath] (a
    constant that is not among the sources). *)
Definition startServer (GalaxySocketPath : string) : H Outcome :=
  (* the statements after the removal of the old socket *)
  let listenAndServe : H Outcome :=
    e <- net_Listen "unix" GalaxySocketPath ;;
    match e with
    | Some e => ret (Return (Errorf ("failed to listen on pod info socket: " ++ Error e)))
    | None =>
        e <- os_Chmod GalaxySocketPath mode0600 ;;
        match e with
        | Some e =>
            _ <- Close ;;
            ret (Return (Errorf ("failed to set pod info socket mode: " ++ Error e)))
        | None => http_Serve
        end
    end in
  _ <- installHandlers ;;
  e <- os_Remove GalaxySocketPath ;;
  match e with
  | Some e =>
      if negb (os_IsNotExist e) then
        ret (Return (Errorf ("failed to remove " ++ GalaxySocketPath ++ ": " ++ Error e)))
      else listenAndServe
  | None => listenAndServe
  end.

End Server.

(* ===================================================================== *)
(** * Concrete hosts and requests *)
(* ===================================================================== *)

Module Scenario.
Import Vlan.

Definition attrs (index : Z) (name : string) (master parent : Z) : LinkAttrs :=
  {| Index := index; Name := name; HardwareAddr := []; MasterIndex := master;
     ParentIndex := parent; Up := true |}.

Definition lo : Link := {| Attrs := attrs 1 "lo" 0 0; Obj := IsDevice |}.
Definition eth1 : Link :=
  {| Attrs := {| Index := 2; Name := "eth1"; HardwareAddr := [82; 84; 0; 18; 52; 86];
                 MasterIndex := 0; ParentIndex := 0; Up := true |};
     Obj := IsDevice |}.
Definition eth0 : Link := {| Attrs := attrs 3 "eth0" 0 0; Obj := IsDevice |}.

(** A vlan of eth1 and a vlan stacked on it. *)
Definition eth1_12 : Link := {| Attrs := attrs 4 "eth1.12" 0 2; Obj := IsVlan 12 |}.
Definition eth1_12_7 : Link := {| Attrs := attrs 5 "eth1.12.7" 0 4; Obj := IsVlan 7 |}.

(** An interface named like the driver's vlan 7 that is a vlan 7 of eth0,
    not of eth1. *)
Definition vlan7_of_eth0 : Link := {| Attrs := attrs 6 "vlan7" 0 3; Obj := IsVlan 7 |}.

(** vlan 100 of eth1, a port of the bridge docker100. *)
Definition docker100 : Link := {| Attrs := attrs 8 "docker100" 0 0; Obj := IsBridge |}.
Definition vlan100 : Link := {| Attrs := attrs 7 "vlan100" 8 2; Obj := IsVlan 100 |}.

Definition addr (a b c d ones : Z) (label : string) : Addr :=
  {| IPNet_ := {| IP_ := [a; b; c; d]; Ones := ones |}; Label := label |}.

Definition a5 : Addr := addr 10 0 0 5 24 "eth1".
Definition a6 : Addr := addr 192 168 1 6 24 "eth1:1".

(** The default route via 10.0.0.1 on eth1. *)
Definition viaGw : Route :=
  {| LinkIndex := 2; Scope := 0; Dst := None; Src := []; Gw := [10; 0; 0; 1];
     Protocol := 3; Priority := 0; Table := 254 |}.

(** The same route as [Init] adds it again, on the bridge (index 3). *)
Definition viaGwOnBridge : Route :=
  {| LinkIndex := 3; Scope := 0; Dst := None; Src := []; Gw := [10; 0; 0; 1];
     Protocol := 0; Priority := 0; Table := 0 |}.

Definition noFault : nat -> option error := fun _ => None.
(** The call number [n] (counted from 0) fails with [e]. *)
Definition failAt (n : nat) (e : error) : nat -> option error :=
  fun m => if bool_decide (m = n) then Some e else None.

Definition host (ls : list Link) (xs : list (Z * Addr)) (rs : list Route)
           (f : nat -> option error) : Kernel :=
  {| links := ls; addrs := xs; routes := rs; sysctl := ∅; log := []; fault := f |}.

(** eth1 carries 10.0.0.5/24 and the default route; no bridge yet. *)
Definition oneAddr (f : nat -> option error) : Kernel :=
  host [lo; eth1] [(2, a5)] [viaGw] f.

(** eth1 carries two addresses, of two networks. *)
Definition twoAddrs (f : nat -> option error) : Kernel :=
  host [lo; eth1] [(2, a5); (2, a6)] [viaGw] f.

(** No vlan interface yet. *)
Definition bareHost : Kernel := host [lo; eth1] [] [] noFault.

(** A vlan 7 of eth0 that bears the name the driver gives to its vlan 7. *)
Definition strayHost : Kernel := host [lo; eth1; eth0; vlan7_of_eth0] [] [] noFault.

(** vlan 100 of eth1 is a port of docker100. *)
Definition bridgedVlanHost : Kernel := host [lo; eth1; vlan100; docker100] [] [] noFault.

(** A vlan 100 of eth0 that bears the name the driver gives to its vlan
    100; it is a port of the bridge docker100, and down. *)
Definition strayPort : Link :=
  {| Attrs := {| Index := 7; Name := "vlan100"; HardwareAddr := [];
                 MasterIndex := 8; ParentIndex := 3; Up := false |};
     Obj := IsVlan 100 |}.
Definition strayPortHost : Kernel :=
  host [lo; eth1; eth0; strayPort; docker100] [] [] noFault.

Definition config (device switch : string) : NetConf :=
  {| Device := device; Switch := switch; DisableDefaultBridge := None;
     DefaultBridgeName := "docker"; BridgeNamePrefix := "docker";
     VlanNamePrefix := "vlan" |}.

Definition driver (device switch : string) : VlanDriver :=
  {| conf := config device switch; vlanParentIndex := 0; DeviceIndex := 0 |}.

(** A driver after [Init] on eth1. *)
Definition onEth1 (switch : string) : VlanDriver :=
  {| conf := config "eth1" switch; vlanParentIndex := 2; DeviceIndex := 2 |}.

(** The dispatcher's side. *)
Import Galaxy.

Definition port8080 : Port :=
  {| HostPort := 8080; ContainerPort := 80; Proto := "tcp"; PodIP := "" |}.

(** A parser that knows the one spec of the scenarios. *)
Definition parse (s : string) : list Port * option error :=
  if bool_decide (s = "") then ([], None)
  else if bool_decide (s = "8080:80/tcp") then ([port8080], None)
  else ([], Some (errorString "invalid port spec")).

Definition marshal (r : Result) : string * option error := ("{}", None).
Definition showPorts (ps : list Port) : string := "[...]".
Definition showIPConfig (c : IPConfig) : string := "&{...}".

Definition galaxy : Galaxy :=
  {| flannelConf := "{}"; netConf := "{}"; flagMaster := ""; nodeIP := "192.168.0.2" |}.

Definition request (command ports : string) : PodRequest :=
  {| Command := command; ContainerID := "c1"; Netns := "/proc/42/ns/net";
     Ports := ports; Cmd := {| StdinData := ""; Args := "" |} |}.

Definition podIP : Result :=
  {| IP4 := Some {| IP := {| IP_ := [10; 1; 2; 3]; Ones := 24 |}; Gateway := [10; 1; 2; 1] |};
     IP6 := None |}.
Definition noIPv4 : Result := {| IP4 := None; IP6 := None |}.

Definition world (m : gmap string string) (out : option Result * option error) : World :=
  {| store := m; installed := []; wlog := []; delegate := fun _ => out;
     wfault := fun _ => None |}.

End Scenario.

(* ===================================================================== *)
(** * Vocabulary of the statements *)
(* ===================================================================== *)

Module Stated.
Import Vlan.

(** ** Interfaces *)

(** [l] is a vlan interface with the given tag on the given parent: what
    the scan of [getVlanIfExist] looks for. *)
Definition isVlanOf (parent : Z) (vlanId : N) (l : Link) : bool :=
  match Obj l with
  | IsVlan id => bool_decide (id = Z.of_N vlanId)
                 && bool_decide (ParentIndex (Attrs l) = parent)
  | _ => false
  end.

(** The name and the template [getOrCreateVlanDevice] uses for a new vlan
    interface. *)
Definition vlanIfName (d : VlanDriver) (vlanId : N) : string :=
  VlanNamePrefix (conf d) ++ fmt_uint vlanId.

Definition vlanIf (parent : Z) (name : string) (vlanId : N) : Link :=
  {| Attrs := {| Index := 0; Name := name; HardwareAddr := [];
                 MasterIndex := 0; ParentIndex := parent; Up := false |};
     Obj := IsVlan (Z.of_N vlanId) |}.

(** An interface as [LinkSetUp] on [index] leaves it. *)
Definition upIf (index : Z) (l : Link) : Link := if hasIndex index l then setUp l else l.

(** How a call of [getOrCreateVlanDevice] that returned no error got its
    interface [l], for the parent index and the interface name it works
    with: found by the scan, found by its name, or made. *)
Inductive Obtained (parent : Z) (name : string) (vlanId : N)
          (k : Kernel) (l : Link) (k' : Kernel) : Prop :=
| Discovered :
    scanVlan parent vlanId (links k) = (Some l, None) ->
    links k' = links k ->
    log k' = (log k ++ [CLinkList])%list ->
    Obtained parent name vlanId k l k'
| ByName :
    scanVlan parent vlanId (links k) = (None, None) ->
    byName name (links k) = Some l ->
    links k' = onIndex (Index (Attrs l)) setUp (links k) ->
    log k' = (log k ++ [CLinkList; CLinkByName name; CLinkSetUp (Index (Attrs l))])%list ->
    Obtained parent name vlanId k l k'
| Created :
    scanVlan parent vlanId (links k) = (None, None) ->
    byName name (links k) = None ->
    l = created (links k) (vlanIf parent name vlanId) ->
    links k' = onIndex (Index (Attrs l)) setUp (links k ++ [l]) ->
    log k' = (log k ++ [CLinkList; CLinkByName name; CLinkAdd (vlanIf parent name vlanId);
                        CLinkByName name; CLinkSetUp (Index (Attrs l))])%list ->
    Obtained parent name vlanId k l k'.

(** ** The bridge of a tag's vlan interface *)

(** The interface of a tag that [getOrCreateVlanDevice] works with when the
    kernel has one: the one the scan finds, else the one that bears the
    name. *)
Definition tagInterface (d : VlanDriver) (vlanId : N) (k : Kernel) : option Link :=
  match scanVlan (vlanParentIndex d) vlanId (links k) with
  | (Some l, _) => Some l
  | (None, None) => byName (vlanIfName d vlanId) (links k)
  | (None, Some _) => None
  end.

(** What [getVlanMaster] tests: the interface is a [*netlink.Vlan] with a
    master index above 0, and the interface of that index is of kind
    bridge. *)
Definition bridgeMasterOf (k : Kernel) (vlan master : Link) : Prop :=
  (exists id, Obj vlan = IsVlan id)
  /\ 0 < MasterIndex (Attrs vlan)
  /\ byIndex (MasterIndex (Attrs vlan)) (links k) = Some master
  /\ Type_ master = "bridge".

(** A call that makes an interface a port. *)
Definition enslaving (c : Call) : bool :=
  match c with
  | CLinkSetMaster _ _ => true
  | _ => false
  end.

(** A call that brings an interface up. *)
Definition bringingUp (c : Call) : bool :=
  match c with
  | CLinkSetUp _ => true
  | _ => false
  end.

(** The calls of [CreateBridgeAndVlanDevice] when the interface of the tag
    has a bridge as its master: two when the scan finds the interface,
    four when it is found by its name, which brings it up. *)
Definition shortCircuitCalls (d : VlanDriver) (vlanId : N) (vlan : Link) : list Call :=
  if isVlanOf (vlanParentIndex d) vlanId vlan
  then [CLinkList; CLinkByIndex (MasterIndex (Attrs vlan))]
  else [CLinkList; CLinkByName (vlanIfName d vlanId); CLinkSetUp (Index (Attrs vlan));
        CLinkByIndex (MasterIndex (Attrs vlan))].

(** ** The calls of the address migration *)

(** The answers of the kernel leave the log and the fault plan alone. *)
Definition quiet {A} (sem : Kernel -> res A * Kernel) : Prop :=
  forall k, log (sem k).2 = log k /\ fault (sem k).2 = fault k.

(** Obtaining the bridge: one lookup, or lookup, creation, lookup. *)
Definition obtainCalls (name : string) (mac : list Z) (made : bool) : list Call :=
  if made then [CLinkByName name; CCreateBridgeDevice name mac; CLinkByName name]
  else [CLinkByName name].

(** Moving one address: off the device, onto the bridge without its
    label. *)
Definition moveCalls (device bri : Link) (a : Addr) : list Call :=
  [CAddrDel (Index (Attrs device)) a; CAddrAdd (Index (Attrs bri)) (clearLabel a)].

(** Adding the snapshotted routes again, on the bridge. *)
Definition reAddCalls (bri : Link) (rs : list Route) : list Call :=
  map (fun r => CRouteAdd (newRoute bri r)) rs.


(** The calls one deferred closure makes when [err] is set. *)
Definition undoCalls (lv : LoopVar) (fr : Frame) (c : Deferred) : list Call :=
  match c with
  | deferRoutes rs => map CRouteAdd rs
  | deferAddr device own =>
      [CAddrAdd (Index (Attrs device)) (elem (filteredAddr fr) (seen lv fr own))]
  end.

(** The address the closure registered by iteration [j] adds back. *)
Definition undone (lv : LoopVar) (fr : Frame) (addrs : list Addr) (j : nat) : Addr :=
  match lv with
  | PerLoop => elem (filteredAddr fr) (i fr)
  | PerIteration => clearLabel (elem addrs j)
  end.

(** Between the kernels [k] and [km] the loop of [Init] has deleted the [m]
    addresses at the indices [s], ..., [s + m - 1] of the slice from the
    device: the kernel answered each [AddrDel] without error, and each was
    followed by the [AddrAdd] on the bridge, whatever that answered. *)
Inductive Deleted (device bri : Link) (addrs : list Addr)
  : nat -> nat -> Kernel -> Kernel -> Prop :=
| Deleted_none s k : Deleted device bri addrs s 0 k k
| Deleted_more s m k ka e kb km :
    AddrDel device (elem addrs s) k = (None, ka) ->
    AddrAdd bri (clearLabel (elem addrs s)) ka = (e, kb) ->
    Deleted device bri addrs (S s) m kb km ->
    Deleted device bri addrs s (S m) k km.

(** A call that adds an address. *)
Definition addrAdding (c : Call) : bool :=
  match c with
  | CAddrAdd _ _ => true
  | _ => false
  end.

(** ** Claims as the specification words them *)



(** When the interface of a tag other than 0 has a bridge as its master,
    [CreateBridgeAndVlanDevice] returns the name of that bridge and makes
    no call that creates an interface, enslaves one or brings one up. *)
Definition shortCircuitMutatesNothing : Prop :=
  forall d vlanId k vlan master name e d' k',
    vlanId <> 0%N ->
    (forall n, fault k n = None) ->
    tagInterface d vlanId k = Some vlan ->
    bridgeMasterOf k vlan master ->
    CreateBridgeAndVlanDevice d vlanId k = ((name, e, d'), k') ->
    name = Name (Attrs master) /\ e = None
    /\ Forall (fun c => creating c = false /\ enslaving c = false /\ bringingUp c = false)
         (drop (length (log k)) (log k')).

Import Galaxy.

(** A result with an IPv4 address the dispatcher can use. *)
Definition usableIPv4 (r : Result) : bool :=
  match IP4 r with
  | Some c => bool_decide (is_Some (To4 (IP_ (IP c))))
  | None => false
  end.

(** After an ADD whose delegate result has no usable IPv4, or whose port
    spec is empty, no entry is persisted for the container ID. *)
Definition noEntryWithoutIPv4OrPorts : Prop :=
  forall parse marshal showPorts showIPConfig g req w r,
    Command req = COMMAND_ADD ->
    delegate w (S (length (wlog w))) = (Some r, None) ->
    usableIPv4 r = false \/ Ports req = "" ->
    store w !! ContainerID req = None ->
    store (requestFunc parse marshal showPorts showIPConfig g req w).2
      !! ContainerID req = None.

End Stated.

(* ===================================================================== *)
(** * Vocabulary of the further properties *)
(* ===================================================================== *)

Module Effects.
Import Vlan Galaxy Server.

(** ** The kernel *)

(** A kernel that lets every call through. *)
Definition faultless (k : Kernel) : Prop := forall n, fault k n = None.

(** The template [utils.CreateBridgeDevice] hands to the kernel. *)
Definition bridgeIf (name : string) (mac : list Z) : Link :=
  {| Attrs := {| Index := 0; Name := name; HardwareAddr := mac;
                 MasterIndex := 0; ParentIndex := 0; Up := false |};
     Obj := IsBridge |}.

Definition proxyArpKey (dev : string) : string := "net.ipv4.conf." ++ dev ++ ".proxy_arp".
Definition arpIgnoreKey (dev : string) : string := "net.ipv4.conf." ++ dev ++ ".arp_ignore".

(** The calls of [Init] in pure mode. *)
Definition pureCalls (dev : string) : list Call :=
  [CLinkByName dev; CUnSetArpIgnore "all"; CUnSetArpIgnore dev; CSetProxyArp dev;
   CEnableNonlocalBind].

(** What [Init] answers for a device without address, by the interface
    table: the interface named like the default bridge has to have the
    index the device has as its master. *)
Definition enslavedVerdict (d : VlanDriver) (device : Link) (ls : list Link) : option error :=
  match byName (DefaultBridgeName (conf d)) ls with
  | Some bri =>
      if bool_decide (Index (Attrs bri) = MasterIndex (Attrs device)) then None
      else Some (Errorf ("No available address found on device " ++ Device (conf d)))
  | None =>
      Some (Errorf ("Error getting bri device " ++ DefaultBridgeName (conf d)
                      ++ ": Link not found"))
  end.

(** The interface carries an address of the network of [a]. *)
Definition carries (index : Z) (a : Addr) (k : Kernel) : bool :=
  existsb (sameNet index a) (addrs k).

(** The routing table has a route with the key of [r]. *)
Definition routed (r : Route) (k : Kernel) : bool := existsb (sameKey r) (routes k).

(** The kernel has an interface of the index of [v] that is a port of an
    interface with the index and the name of [b]. *)
Definition portOf (k : Kernel) (v b : Link) : Prop :=
  exists v' b', v' ∈ links k /\ b' ∈ links k
    /\ Index (Attrs v') = Index (Attrs v)
    /\ Index (Attrs b') = Index (Attrs b) /\ Name (Attrs b') = Name (Attrs b)
    /\ MasterIndex (Attrs v') = Index (Attrs b).

(** The calls made between two states of the kernel. *)
Definition callsSince (k k' : Kernel) : list Call := drop (length (log k)) (log k').

(** ** The dispatcher *)

(** A call that installs port mappings. *)
Definition installing (c : Ext) : bool :=
  match c with
  | XSetupPortMapping _ _ => true
  | _ => false
  end.

(** A port mapping without the pod IP. *)
Definition mapping (p : Port) : Z * Z * string := (HostPort p, ContainerPort p, Proto p).

(** The calls a request made. *)
Definition newCalls (w w' : World) : list Ext := drop (length (wlog w)) (wlog w').

(** ** The server *)

(** [startServer] got as far as [http.Serve]. *)
Definition served (o : Outcome) : bool :=
  match o with
  | Return _ => false
  | _ => true
  end.

Definition cniRoutes : list (string * string) := [("GET", "/cni"); ("POST", "/cni")].

(** The calls of a start that reaches [http.Serve]. *)
Definition startCalls (path : string) : list Sys :=
  [SRoute "GET" "/cni"; SRoute "POST" "/cni"; SRemove path; SListen "unix" path;
   SChmod path mode0600; SServe].

(** The steps of [startServer] on a host: the host after the routes were
    registered, then the removal of the old socket, the listen and the
    change of mode, each with what it answers and the host it leaves. *)
Definition afterRoutes (h : Host) : Host := (installHandlers h).2.
Definition removal (path : string) (h : Host) : option error * Host :=
  os_Remove path (afterRoutes h).
Definition listen (path : string) (h : Host) : option error * Host :=
  net_Listen "unix" path (removal path h).2.
Definition chmod (path : string) (h : Host) : option error * Host :=
  os_Chmod path mode0600 (listen path h).2.

(** The answer of the removal lets the start go on: no error, or the
    error that the file is not there. *)
Definition passed (r : option error) : bool :=
  match r with
  | None => true
  | Some e => os_IsNotExist e
  end.

End Effects.

(* ===================================================================== *)
(** * Further hosts and worlds *)
(* ===================================================================== *)

Module Cases.
Import Vlan Galaxy Server Scenario.

(** The default bridge, and eth1 as its port: the host after [Init] has
    moved the address of eth1. *)
Definition docker : Link := {| Attrs := attrs 3 "docker" 0 0; Obj := IsBridge |}.
Definition eth1Port : Link :=
  {| Attrs := {| Index := 2; Name := "eth1"; HardwareAddr := [82; 84; 0; 18; 52; 86];
                 MasterIndex := 3; ParentIndex := 0; Up := true |};
     Obj := IsDevice |}.
Definition migratedHost : Kernel :=
  host [lo; eth1Port; docker] [(3, clearLabel a5)] [viaGwOnBridge] noFault.

(** The bridge is there, the addresses are still on eth1. *)
Definition bridgeReady (f : nat -> option error) : Kernel :=
  host [lo; eth1; docker] [(2, a5); (2, a6)] [viaGw] f.

(** An interface of kind vlan the library has no type for, listed before
    vlan 100 of eth1. *)
Definition opaqueVlan : Link := {| Attrs := attrs 9 "vx0" 0 2; Obj := IsGeneric "vlan" |}.
Definition opaqueVlanHost : Kernel := host [lo; eth1; opaqueVlan; vlan100] [] [] noFault.

(** vlan 100 of eth1 as a port of eth0, which is no bridge. *)
Definition vlan100OfEth0 : Link := {| Attrs := attrs 7 "vlan100" 3 2; Obj := IsVlan 100 |}.
Definition foreignMasterHost : Kernel := host [lo; eth1; eth0; vlan100OfEth0] [] [] noFault.

(** A world with a port store and a fault plan. *)
Definition worldWith (m : gmap string string) (f : nat -> option error) : World :=
  {| store := m; installed := [set_PodIP "10.1.2.3" port8080]; wlog := [];
     delegate := fun _ => (None, None); wfault := f |}.

Definition savedC1 : gmap string string := {["c1" := "8080:80/tcp"]}.

(** The host the server starts on. *)
Definition socketPath : string := "/var/run/galaxy.sock".
Definition serverHost (fs : gmap string Z) (f : nat -> option error) : Host :=
  {| files := fs; listening := false; handlers := []; hlog := []; hfault := f |}.
(** An old socket file is in the way. *)
Definition staleSocket : gmap string Z := {[socketPath := socketMode]}.

End Cases.

(* ===================================================================== *)
(** * Facts about the kernel model *)
(* ===================================================================== *)

Local Open Scope list_scope.

Module KernelFacts.
Import Vlan Stated.

Lemma bind_eq {S A B} (m : ST S A) (f : A -> ST S B) s :
  bind m f s = f (m s).1 (m s).2.
Proof. unfold bind. destruct (m s). reflexivity. Qed.

Lemma invoke_log {A} c (sem : Kernel -> res A * Kernel) k :
  quiet sem ->
  log (invoke c sem k).2 = log k ++ [c] /\ fault (invoke c sem k).2 = fault k.
Proof.
  intros Hq. unfold invoke. destruct (fault k (length (log k))).
  - split; reflexivity.
  - destruct (Hq (logged c k)) as [-> ->]. split; reflexivity.
Qed.

Lemma invoke__log c sem k :
  quiet sem ->
  log (invoke_ c sem k).2 = log k ++ [c] /\ fault (invoke_ c sem k).2 = fault k.
Proof.
  intros Hq. unfold invoke_. rewrite bind_eq. cbn [ret snd]. apply invoke_log, Hq.
Qed.

Ltac quiet_tac :=
  intros ?; cbv beta; repeat (cbn [fst snd log fault set_links set_addrs set_routes set_sysctl];
  match goal with
  | |- context [match ?x with _ => _ end] => destruct x
  | |- context [if ?x then _ else _] => destruct x
  end); cbn; split; reflexivity.

Lemma quiet_delAddr i a : quiet (delAddr i a).
Proof. unfold delAddr. quiet_tac. Qed.
Lemma quiet_addAddr i a : quiet (addAddr i a).
Proof. unfold addAddr. quiet_tac. Qed.
Lemma quiet_addRoute r : quiet (addRoute r).
Proof. unfold addRoute. quiet_tac. Qed.
Lemma quiet_sysctlSet a b : quiet (sysctlSet a b).
Proof. unfold sysctlSet. intros k; split; reflexivity. Qed.

Lemma LinkSetMaster_log l m k :
  log (LinkSetMaster l m k).2 = log k ++ [CLinkSetMaster (Index (Attrs l)) m]
  /\ fault (LinkSetMaster l m k).2 = fault k.
Proof. apply invoke__log. quiet_tac. Qed.
Lemma AddrDel_log l a k :
  log (AddrDel l a k).2 = log k ++ [CAddrDel (Index (Attrs l)) a]
  /\ fault (AddrDel l a k).2 = fault k.
Proof. apply invoke__log, quiet_delAddr. Qed.
Lemma AddrAdd_log l a k :
  log (AddrAdd l a k).2 = log k ++ [CAddrAdd (Index (Attrs l)) a]
  /\ fault (AddrAdd l a k).2 = fault k.
Proof. apply invoke__log, quiet_addAddr. Qed.
Lemma RouteAdd_log r k :
  log (RouteAdd r k).2 = log k ++ [CRouteAdd r] /\ fault (RouteAdd r k).2 = fault k.
Proof. apply invoke__log, quiet_addRoute. Qed.

Lemma invoke_keeps {A X} (P : Kernel -> X) c (sem : Kernel -> res A * Kernel) k :
  (forall c k, P (logged c k) = P k) ->
  (forall k, P (sem k).2 = P k) ->
  P (invoke c sem k).2 = P k.
Proof.
  intros Hl Hs. unfold invoke. destruct (fault k (length (log k))); cbn [snd].
  - apply Hl.
  - rewrite Hs. apply Hl.
Qed.

Lemma invoke__keeps {X} (P : Kernel -> X) c sem k :
  (forall c k, P (logged c k) = P k) ->
  (forall k, P (sem k).2 = P k) ->
  P (invoke_ c sem k).2 = P k.
Proof.
  intros Hl Hs. unfold invoke_. rewrite bind_eq. cbn [ret snd]. apply invoke_keeps; assumption.
Qed.



(** ** What a call that answered tells *)

Lemma LinkList_inv k r k' :
  LinkList k = (r, k') ->
  k' = logged CLinkList k /\ (r = Ok (links k) \/ exists e, r = Err e).
Proof.
  unfold LinkList, invoke. destruct (fault k _); intros H; inversion H; eauto.
Qed.

Lemma LinkByName_inv name k r k' :
  LinkByName name k = (r, k') ->
  k' = logged (CLinkByName name) k
  /\ forall l, r = Ok l -> byName name (links k) = Some l.
Proof.
  unfold LinkByName, invoke. destruct (fault k _).
  - intros H; inversion H. split; [reflexivity | discriminate].
  - cbn [links logged]. destruct (byName name (links k)); intros H; inversion H;
      (split; [reflexivity|]); intros l' Hl'; congruence.
Qed.

Lemma LinkAdd_inv l k e k' :
  LinkAdd l k = (e, k') ->
  match e with
  | None => byName (Name (Attrs l)) (links k) = None
            /\ k' = set_links (links k ++ [created (links k) l]) (logged (CLinkAdd l) k)
  | Some _ => k' = logged (CLinkAdd l) k
  end.
Proof.
  unfold LinkAdd, invoke_, invoke. rewrite bind_eq.
  destruct (fault k _); cbn [fst snd ret errOf].
  - intros H; inversion H. reflexivity.
  - unfold addLink. cbn [links logged].
    destruct (byName _ (links k)); cbn [fst snd errOf]; intros H; inversion H; auto.
Qed.

Lemma LinkSetUp_inv l k e k' :
  LinkSetUp l k = (e, k') ->
  match e with
  | None => k' = set_links (onIndex (Index (Attrs l)) setUp (links k))
                   (logged (CLinkSetUp (Index (Attrs l))) k)
  | Some _ => k' = logged (CLinkSetUp (Index (Attrs l))) k
  end.
Proof.
  unfold LinkSetUp, invoke_, invoke. rewrite bind_eq.
  destruct (fault k _); cbn [fst snd ret errOf].
  - intros H; inversion H. reflexivity.
  - cbn [links logged]. destruct (byIndex _ (links k)); cbn [fst snd errOf];
      intros H; inversion H; auto.
Qed.

(** ** The scan of the interface table *)

Lemma scanVlan_Some p t ls : forall l e,
  scanVlan p t ls = (Some l, e) -> e = None /\ l ∈ ls /\ isVlanOf p t l = true.
Proof.
  induction ls as [|x ls IH]; intros l e H; cbn [scanVlan] in H; [discriminate|].
  assert (Hrec : scanVlan p t ls = (Some l, e) -> e = None /\ l ∈ x :: ls /\ isVlanOf p t l = true).
  { intros H1. apply IH in H1 as (? & ? & ?). repeat split; auto. now apply elem_of_cons; right. }
  destruct (bool_decide (Type_ x = "vlan")); [|auto].
  destruct (Obj x) eqn:Ex; try discriminate.
  destruct (_ && _) eqn:Em; [|auto].
  inversion H; subst. repeat split; [apply elem_of_cons; left; reflexivity|].
  unfold isVlanOf. rewrite Ex. exact Em.
Qed.

Lemma scanVlan_None p t ls :
  scanVlan p t ls = (None, None) -> forall l, l ∈ ls -> isVlanOf p t l = false.
Proof.
  induction ls as [|x ls IH]; intros H l Hl; [inversion Hl|].
  cbn [scanVlan] in H.
  assert (Hx : scanVlan p t ls = (None, None) /\ isVlanOf p t x = false).
  { unfold isVlanOf. unfold Type_ in H.
    destruct (Obj x) eqn:Ex; cbn in H; try (split; [exact H | reflexivity]).
    - destruct (_ && _); [discriminate|]. split; [exact H | reflexivity].
    - split; [|reflexivity]. destruct (bool_decide _); [discriminate | exact H]. }
  destruct Hx as [Hs Hx]. apply elem_of_cons in Hl as [-> | Hl]; [exact Hx|].
  apply IH; assumption.
Qed.

Lemma scanVlan_app p t ls ls' :
  scanVlan p t ls = (None, None) -> scanVlan p t (ls ++ ls') = scanVlan p t ls'.
Proof.
  induction ls as [|x ls IH]; intros H; [reflexivity|].
  cbn [scanVlan app] in *.
  destruct (bool_decide (Type_ x = "vlan")); [|auto].
  destruct (Obj x); try discriminate.
  destruct (_ && _); [discriminate | auto].
Qed.

(** Bringing interfaces up changes nothing the scan looks at. *)
Lemma upIf_same index l :
  Obj (upIf index l) = Obj l /\ Index (Attrs (upIf index l)) = Index (Attrs l)
  /\ Name (Attrs (upIf index l)) = Name (Attrs l)
  /\ ParentIndex (Attrs (upIf index l)) = ParentIndex (Attrs l)
  /\ MasterIndex (Attrs (upIf index l)) = MasterIndex (Attrs l).
Proof. unfold upIf. destruct (hasIndex index l); repeat split. Qed.


Lemma byName_up name index ls :
  byName name (onIndex index setUp ls) = upIf index <$> byName name ls.
Proof.
  unfold onIndex, byName. fold (upIf index).
  induction ls as [|x ls IH]; [reflexivity|].
  cbn [map find]. destruct (upIf_same index x) as (_ & _ & Hn & _).
  unfold hasName at 1. rewrite Hn. fold (hasName name x).
  destruct (hasName name x); [reflexivity | exact IH].
Qed.

Lemma byName_app_new name ls c :
  byName name ls = None -> byName name (ls ++ [c]) = if hasName name c then Some c else None.
Proof.
  unfold byName. induction ls as [|x ls IH]; intros H; [reflexivity|].
  cbn [find app] in *. destruct (hasName name x); [discriminate | auto].
Qed.

Lemma byName_hasName name ls l : byName name ls = Some l -> Name (Attrs l) = name.
Proof.
  unfold byName. intros H. apply find_some in H as [_ H].
  unfold hasName in H. now apply bool_decide_eq_true in H.
Qed.

Lemma byName_In name ls l : byName name ls = Some l -> l ∈ ls.
Proof. unfold byName. intros H. apply find_some in H as [H _]. now apply list_elem_of_In. Qed.

Lemma byIndex_up j index ls :
  byIndex j (onIndex index setUp ls) = upIf index <$> byIndex j ls.
Proof.
  unfold onIndex, byIndex. fold (upIf index).
  induction ls as [|x ls IH]; [reflexivity|].
  cbn [map find]. destruct (upIf_same index x) as (_ & Hi & _).
  unfold hasIndex at 1. rewrite Hi. fold (hasIndex j x).
  destruct (hasIndex j x); [reflexivity | exact IH].
Qed.

Lemma byIndex_is_Some index ls l :
  l ∈ ls -> Index (Attrs l) = index -> is_Some (byIndex index ls).
Proof.
  unfold byIndex. intros Hl Hi. destruct (find _ ls) eqn:Hf; [eauto|].
  apply list_elem_of_In in Hl. eapply find_none in Hf; [|exact Hl].
  unfold hasIndex in Hf. apply bool_decide_eq_false in Hf. contradiction.
Qed.

Lemma length_logged c k : length (log (logged c k)) = S (length (log k)).
Proof. cbn [log logged]. rewrite length_app. cbn. lia. Qed.

End KernelFacts.

(* ===================================================================== *)
(** * Properties of the vlan driver *)
(* ===================================================================== *)

Module VlanSpec.
Import Vlan Stated KernelFacts.

(** ** Mode resolution and bridge names *)

Example fmt_uint_decimal : fmt_uint 0 = "0" /\ fmt_uint 7 = "7" /\ fmt_uint 4094 = "4094".
Proof. repeat split; reflexivity. Qed.

(** C6.  [BridgeNameForVlan] returns the empty string for tag 0 in pure
    mode, the default bridge name for tag 0 in any other mode, and the
    bridge name prefix followed by the decimal tag for every other tag,
    whatever the mode. *)
Theorem BridgeNameForVlan_spec (d : VlanDriver) (vlanId : N) :
  BridgeNameForVlan d vlanId =
    if bool_decide (vlanId = 0%N)
    then (if bool_decide (Switch (conf d) = "pure") then "" else DefaultBridgeName (conf d))
    else BridgeNamePrefix (conf d) +:+ fmt_uint vlanId.
Proof.
  unfold BridgeNameForVlan, PureMode.
  destruct (decide (vlanId = 0%N)) as [-> | Hne].
  - rewrite !bool_decide_eq_true_2 by reflexivity. cbn [andb].
    rewrite (bool_decide_eq_false_2 (0%N <> 0%N)) by (intros H; apply H; reflexivity).
    reflexivity.
  - rewrite (bool_decide_eq_false_2 (vlanId = 0%N)) by assumption. cbn [andb].
    rewrite bool_decide_eq_true_2 by assumption. reflexivity.
Qed.

Example BridgeNameForVlan_examples :
  BridgeNameForVlan (Scenario.driver "eth1" "pure") 0 = ""
  /\ BridgeNameForVlan (Scenario.driver "eth1" "") 0 = "docker"
  /\ BridgeNameForVlan (Scenario.driver "eth1" "macvlan") 0 = "docker"
  /\ BridgeNameForVlan (Scenario.driver "eth1" "pure") 7 = "docker7"
  /\ BridgeNameForVlan (Scenario.driver "eth1" "") 7 = "docker7".
Proof. repeat split; reflexivity. Qed.

(** ** Tag 0 *)

(** C7.  With tag 0 [CreateBridgeAndVlanDevice] returns
    [BridgeNameForVlan 0] and [MaybeCreateVlanDevice] returns success;
    neither makes any call: kernel, log and driver are what they were. *)
Theorem tag0_creates_nothing (d : VlanDriver) (k : Kernel) :
  CreateBridgeAndVlanDevice d 0 k = ((BridgeNameForVlan d 0, None, d), k)
  /\ MaybeCreateVlanDevice d 0 k = ((None, d), k).
Proof. split; reflexivity. Qed.

(** ** Init: resolving the device and its parent *)

Lemma LinkByName_run name k :
  fault k (length (log k)) = None ->
  LinkByName name k =
    (match byName name (links k) with Some l => Ok l | None => Err LinkNotFound end,
     logged (CLinkByName name) k).
Proof.
  intros Hf. unfold LinkByName, invoke. rewrite Hf. cbn [links logged].
  destruct (byName name (links k)); reflexivity.
Qed.

Lemma LinkByIndex_run index k :
  fault k (length (log k)) = None ->
  LinkByIndex index k =
    (match byIndex index (links k) with Some l => Ok l | None => Err LinkNotFound end,
     logged (CLinkByIndex index) k).
Proof.
  intros Hf. unfold LinkByIndex, invoke. rewrite Hf. cbn [links logged].
  destruct (byIndex _ _); reflexivity.
Qed.

Lemma LinkSetUp_run l k :
  fault k (length (log k)) = None ->
  is_Some (byIndex (Index (Attrs l)) (links k)) ->
  LinkSetUp l k =
    (None, set_links (onIndex (Index (Attrs l)) setUp (links k))
             (logged (CLinkSetUp (Index (Attrs l))) k)).
Proof.
  intros Hf [x Hx]. unfold LinkSetUp, invoke_, invoke. rewrite bind_eq, Hf.
  cbn [links logged]. rewrite Hx. reflexivity.
Qed.

(** Whatever [Init] does after it has resolved the device, the driver it
    leaves is the one it had then. *)
Lemma Init_driver lv d k device k1 :
  LinkByName (Device (conf d)) k = (Ok device, k1) ->
  DeviceIndex (Init lv d k).1.2 = Index (Attrs device)
  /\ vlanParentIndex (Init lv d k).1.2 =
       (if bool_decide (Type_ device = "vlan") then ParentIndex (Attrs device)
        else Index (Attrs device))
  /\ conf (Init lv d k).1.2 = conf d.
Proof.
  intros H. unfold Init. rewrite bind_eq, H. cbn [fst snd].
  match goal with
  | |- context [if MacVlanMode ?x || _ then _ else _] => remember x as d2 eqn:Hd2
  end.
  assert (Hres : DeviceIndex d2 = Index (Attrs device)
                 /\ vlanParentIndex d2 =
                      (if bool_decide (Type_ device = "vlan") then ParentIndex (Attrs device)
                       else Index (Attrs device))
                 /\ conf d2 = conf d)
    by (subst d2; destruct (bool_decide (Type_ device = "vlan")); repeat split).
  clear Hd2.
  destruct (MacVlanMode d2 || IPVlanMode d2); [exact Hres|].
  destruct (PureMode d2); cbv beta iota; [rewrite bind_eq; exact Hres|].
  destruct (bool_decide (DisableDefaultBridge (conf d2) = Some true)); [exact Hres|].
  cbv beta iota. rewrite bind_eq.
  destruct (AddrList device k1) as [[v4|e] k2]; cbn [fst snd]; [|exact Hres].
  destruct (bool_decide (length _ = 0%nat)); cbv beta iota; rewrite bind_eq; exact Hres.
Qed.

(** C9.  When no interface has the configured device name, [Init] fails
    with the error that names the device, and records nothing: the driver
    is unchanged and the kernel has only seen the lookup.  When the
    interface exists, its index becomes both [DeviceIndex] and the parent
    index, and if the interface is of type vlan the parent index is that
    interface's own [ParentIndex], looked at once and not followed
    further. *)
Theorem Init_parent_resolution lv d k :
  fault k (length (log k)) = None ->
  match byName (Device (conf d)) (links k) with
  | None =>
      Init lv d k =
        ((Some (Errorf ("Error getting device " +:+ Device (conf d) +:+ ": Link not found")), d),
         logged (CLinkByName (Device (conf d))) k)
  | Some device =>
      DeviceIndex (Init lv d k).1.2 = Index (Attrs device)
      /\ vlanParentIndex (Init lv d k).1.2 =
           (if bool_decide (Type_ device = "vlan") then ParentIndex (Attrs device)
            else Index (Attrs device))
      /\ conf (Init lv d k).1.2 = conf d
  end.
Proof.
  intros Hf. pose proof (LinkByName_run (Device (conf d)) k Hf) as Hrun.
  destruct (byName (Device (conf d)) (links k)) as [device|].
  - eapply Init_driver. exact Hrun.
  - unfold Init. rewrite bind_eq, Hrun. reflexivity.
Qed.

(** The vlan stacked on a vlan of eth1: the parent recorded is the vlan
    below it (index 4), not eth1 (index 2). *)
Lemma Init_parent_resolution_witness :
  let k := Scenario.host [Scenario.lo; Scenario.eth1; Scenario.eth1_12; Scenario.eth1_12_7]
             [] [] Scenario.noFault in
  let d := Scenario.driver "eth1.12.7" "macvlan" in
  DeviceIndex (Init PerLoop d k).1.2 = 5
  /\ vlanParentIndex (Init PerLoop d k).1.2 = 4
  /\ conf (Init PerLoop d k).1.2 = conf d.
Proof.
  intros k d. apply (Init_parent_resolution PerLoop d k). reflexivity.
Defined.

Example Init_device_absent :
  Init PerLoop (Scenario.driver "eth7" "") (Scenario.oneAddr Scenario.noFault) =
    ((Some (Errorf "Error getting device eth7: Link not found"), Scenario.driver "eth7" ""),
     logged (CLinkByName "eth7") (Scenario.oneAddr Scenario.noFault)).
Proof. reflexivity. Qed.

Example Init_device_not_a_vlan :
  let r := Init PerLoop (Scenario.driver "eth1" "macvlan") (Scenario.oneAddr Scenario.noFault) in
  r.1 = (None, Scenario.onEth1 "macvlan").
Proof. reflexivity. Qed.

(** ** Init: the address migration *)

(** A successful run of the two loops, call by call. *)
Section Migration.
Variables (d : VlanDriver) (device bri : Link).

Lemma routeLoop_ok rs : forall fr k fr' k',
  routeLoop bri rs fr k = ((None, fr'), k') ->
  log k' = log k ++ reAddCalls bri rs /\ (err fr = None -> err fr' = None)
  /\ filteredAddr fr' = filteredAddr fr /\ i fr' = i fr.
Proof.
  induction rs as [|r rs IH]; intros fr k fr' k' H; cbn [routeLoop] in H.
  - inversion H; subst. rewrite app_nil_r. auto.
  - rewrite bind_eq in H.
    destruct (RouteAdd_log (newRoute bri r) k) as [Hl _].
    destruct (RouteAdd (newRoute bri r) k) as [e k1]; cbn [fst snd] in *.
    assert (Hrec : forall fr1, err fr1 = None -> filteredAddr fr1 = filteredAddr fr ->
               i fr1 = i fr ->
               routeLoop bri rs fr1 k1 = ((None, fr'), k') ->
               log k' = log k ++ reAddCalls bri (r :: rs) /\ (err fr = None -> err fr' = None)
               /\ filteredAddr fr' = filteredAddr fr /\ i fr' = i fr).
    { intros fr1 He Hf Hi H1. apply IH in H1 as (-> & He' & -> & ->).
      rewrite Hl, <- app_assoc. auto. }
    destruct e as [e|].
    + destruct (negb _); [discriminate|]. eapply Hrec; [| | | exact H]; reflexivity.
    + eapply Hrec; [| | | exact H]; reflexivity.
Qed.


Lemma runDefers_quiet lv fr ds k : err fr = None -> runDefers lv fr ds k = (tt, k).
Proof.
  intros He. induction ds as [|c ds IH]; cbn [runDefers]; [reflexivity|].
  rewrite bind_eq. unfold runDeferred. rewrite He. cbn. exact IH.
Qed.
End Migration.



(** The indices [range] hands to the loop body are within the slice, whose
    length the body keeps: [elem] never reads out of range. *)
Lemma range_in_bounds (xs : list Addr) (j : nat) :
  j ∈ seq 0 (length xs) -> is_Some (xs !! j)
  /\ forall a, length (<[j := a]> xs) = length xs.
Proof.
  intros Hj. apply elem_of_seq in Hj. split.
  - apply lookup_lt_is_Some. lia.
  - intros a. apply length_insert.
Qed.





(** ** Init: what the deferred closures do when a step fails *)

Lemma addRoutesBack_log rs : forall k,
  log (addRoutesBack rs k).2 = log k ++ map CRouteAdd rs.
Proof.
  induction rs as [|r rs IH]; intros k; cbn [addRoutesBack map].
  - cbn. now rewrite app_nil_r.
  - rewrite bind_eq, IH. destruct (RouteAdd_log r k) as [-> _].
    now rewrite <- app_assoc.
Qed.

(** With [err] set every deferred closure runs, most recent first, and
    whatever its call answers the next one runs too. *)
Lemma runDefers_log lv fr e ds : forall k,
  err fr = Some e ->
  log (runDefers lv fr ds k).2 = log k ++ flat_map (undoCalls lv fr) ds.
Proof.
  induction ds as [|c ds IH]; intros k He; cbn [runDefers flat_map].
  - cbn. now rewrite app_nil_r.
  - rewrite bind_eq, IH by exact He. unfold runDeferred. rewrite He.
    destruct c as [rs | device own]; cbn [undoCalls].
    + rewrite addRoutesBack_log. now rewrite <- app_assoc.
    + rewrite bind_eq. cbn [ret snd].
      match goal with |- context [AddrAdd ?l ?a k] =>
        destruct (AddrAdd_log l a k) as [-> _] end.
      now rewrite <- app_assoc.
Qed.

Section Rollback.
Variables (d : VlanDriver) (device bri : Link).

Lemma routeLoop_frame rs : forall fr k r fr' k',
  routeLoop bri rs fr k = ((r, fr'), k') ->
  filteredAddr fr' = filteredAddr fr /\ i fr' = i fr
  /\ (r <> None -> is_Some (err fr')).
Proof.
  induction rs as [|x rs IH]; intros fr k r fr' k' H; cbn [routeLoop] in H.
  - inversion H; subst. repeat split. congruence.
  - rewrite bind_eq in H. destruct (RouteAdd (newRoute bri x) k) as [e k1]; cbn [fst snd] in H.
    destruct e as [e|].
    + destruct (negb _).
      * inversion H; subst. repeat split. intros _. eexists; reflexivity.
      * apply IH in H as (-> & -> & He). repeat split. exact He.
    + apply IH in H as (-> & -> & He). repeat split. exact He.
Qed.

(** The stack of deferred closures [addrLoop] leaves: one closure for each
    address it deleted from the device, the most recent on top; and by
    then each of those addresses has lost its label in the slice. *)
Lemma addrLoop_stack (addrs0 : list Addr) n : forall s fr ds k r fr' ds' k',
  (forall j, (s <= j)%nat -> filteredAddr fr !! j = addrs0 !! j) ->
  length (filteredAddr fr) = length addrs0 ->
  (s + n <= length addrs0)%nat ->
  addrLoop d device bri (seq s n) fr ds k = ((r, fr', ds'), k') ->
  exists m, (m <= n)%nat
    /\ ds' = map (deferAddr device) (rev (seq s m)) ++ ds
    /\ length (filteredAddr fr') = length addrs0
    /\ (forall j, (s <= j < s + m)%nat -> filteredAddr fr' !! j = clearLabel <$> addrs0 !! j)
    /\ (forall j, (j < s)%nat -> filteredAddr fr' !! j = filteredAddr fr !! j)
    /\ (r <> None -> is_Some (err fr')).
Proof.
  induction n as [|n IH]; intros s fr ds k r fr' ds' k' Hinv Hlen Hle H;
    cbn [seq addrLoop] in H.
  - inversion H; subst. exists 0%nat. repeat split; auto; try lia. congruence.
  - assert (Hs : (s < length addrs0)%nat) by lia.
    destruct (lookup_lt_is_Some_2 addrs0 s Hs) as [a Ha].
    assert (Hel : elem (filteredAddr fr) s = a).
    { unfold elem. rewrite Hinv, Ha by lia. reflexivity. }
    cbn [filteredAddr set_err set_i set_filteredAddr] in H.
    rewrite bind_eq, !Hel in H.
    destruct (AddrDel device a k) as [e k1]; cbn [fst snd] in H.
    destruct e as [e|].
    { inversion H; subst. exists 0%nat. cbn.
      repeat split; auto; try lia; try (intros _; eexists; reflexivity). }
    rewrite bind_eq in H.
    match type of H with
    | context [AddrAdd bri ?x] => assert (Hx : x = clearLabel a)
    end.
    { unfold elem. rewrite list_lookup_insert_eq by lia. reflexivity. }
    rewrite !Hx in H. clear Hx.
    destruct (AddrAdd bri (clearLabel a) k1) as [e k2]; cbn [fst snd] in H.
    set (fa1 := <[s := clearLabel a]> (filteredAddr fr)) in *.
    assert (Hfa1s : fa1 !! s = clearLabel <$> addrs0 !! s).
    { subst fa1. rewrite list_lookup_insert_eq, Ha by lia. reflexivity. }
    assert (Hfa1lt : forall j, (j < s)%nat -> fa1 !! j = filteredAddr fr !! j).
    { intros j Hj. subst fa1. apply list_lookup_insert_ne. lia. }
    assert (Hstop : forall fr1, filteredAddr fr1 = fa1 -> is_Some (err fr1) ->
              exists m, (m <= S n)%nat
                /\ deferAddr device s :: ds = map (deferAddr device) (rev (seq s m)) ++ ds
                /\ length (filteredAddr fr1) = length addrs0
                /\ (forall j, (s <= j < s + m)%nat ->
                      filteredAddr fr1 !! j = clearLabel <$> addrs0 !! j)
                /\ (forall j, (j < s)%nat -> filteredAddr fr1 !! j = filteredAddr fr !! j)
                /\ (Some (A:=error) (Errorf "") <> None -> is_Some (err fr1))).
    { intros fr1 Hf He. exists 1%nat. rewrite Hf. repeat split; auto; try lia.
      - subst fa1. now rewrite length_insert.
      - intros j Hj. assert (j = s) by lia. subst j. exact Hfa1s. }
    assert (Hrec : forall fr1, filteredAddr fr1 = fa1 ->
              addrLoop d device bri (seq (S s) n) fr1 (deferAddr device s :: ds) k2
                = ((r, fr', ds'), k') ->
              exists m, (m <= S n)%nat
                /\ ds' = map (deferAddr device) (rev (seq s m)) ++ ds
                /\ length (filteredAddr fr') = length addrs0
                /\ (forall j, (s <= j < s + m)%nat ->
                      filteredAddr fr' !! j = clearLabel <$> addrs0 !! j)
                /\ (forall j, (j < s)%nat -> filteredAddr fr' !! j = filteredAddr fr !! j)
                /\ (r <> None -> is_Some (err fr'))).
    { intros fr1 Hf H1. apply IH in H1 as (m & Hm & -> & Hlen' & Hcl & Hlt & He).
      - exists (S m). repeat split; auto; try lia.
        + cbn [seq rev]. rewrite map_app, <- app_assoc. reflexivity.
        + intros j Hj. destruct (decide (j = s)) as [-> | Hne].
          * rewrite Hlt, Hf by lia. exact Hfa1s.
          * apply Hcl. lia.
        + intros j Hj. rewrite Hlt, Hf by lia. apply Hfa1lt. exact Hj.
      - intros j Hj. rewrite Hf. subst fa1. rewrite list_lookup_insert_ne by lia.
        apply Hinv. lia.
      - rewrite Hf. subst fa1. now rewrite length_insert.
      - lia. }
    destruct e as [e|].
    + destruct (negb _).
      * inversion H; subst.
        destruct (Hstop (set_err (Some e) (set_filteredAddr fa1 (set_err None (set_i s fr)))))
          as (m & ? & ? & ? & ? & ? & ?); [reflexivity | eexists; reflexivity |].
        exists m. repeat split; auto; try (intros _; eexists; reflexivity).
      * eapply Hrec; [|exact H]. reflexivity.
    + eapply Hrec; [|exact H]. reflexivity.
Qed.

(** The calls of the route loop add no address. *)
Lemma routeLoop_calls rs : forall fr k r fr' k',
  routeLoop bri rs fr k = ((r, fr'), k') ->
  exists rest, log k' = log k ++ rest /\ Forall (fun c => addrAdding c = false) rest.
Proof.
  induction rs as [|x rs IH]; intros fr k r fr' k' H; cbn [routeLoop] in H.
  - inversion H; subst. exists []. rewrite app_nil_r. auto.
  - rewrite bind_eq in H. destruct (RouteAdd_log (newRoute bri x) k) as [Hl _].
    destruct (RouteAdd (newRoute bri x) k) as [e k1]; cbn [fst snd] in *.
    assert (Hrec : forall fr1, routeLoop bri rs fr1 k1 = ((r, fr'), k') ->
              exists rest, log k' = log k ++ rest
                           /\ Forall (fun c => addrAdding c = false) rest).
    { intros fr1 H1. apply IH in H1 as (rest & -> & Hall).
      exists (CRouteAdd (newRoute bri x) :: rest). rewrite Hl, <- app_assoc.
      split; [reflexivity | now constructor]. }
    destruct e as [e|]; [destruct (negb _)|]; try (eapply Hrec; exact H).
    inversion H; subst. exists [CRouteAdd (newRoute bri x)]. split; [exact Hl|].
    now repeat constructor.
Qed.

(** What [addrLoop] has done when it stops or ends: it has deleted [m]
    addresses from the device, registered one closure for each, and made
    no call that adds an address since. *)
Lemma addrLoop_deleted (addrs0 : list Addr) n : forall s fr ds k r fr' ds' k',
  (forall j, (s <= j)%nat -> filteredAddr fr !! j = addrs0 !! j) ->
  length (filteredAddr fr) = length addrs0 ->
  (s + n <= length addrs0)%nat ->
  addrLoop d device bri (seq s n) fr ds k = ((r, fr', ds'), k') ->
  exists m km rest,
    (m <= n)%nat
    /\ ds' = map (deferAddr device) (rev (seq s m)) ++ ds
    /\ Deleted device bri addrs0 s m k km
    /\ log k' = log km ++ rest
    /\ Forall (fun c => addrAdding c = false) rest.
Proof.
  induction n as [|n IH]; intros s fr ds k r fr' ds' k' Hinv Hlen Hle H;
    cbn [seq addrLoop] in H.
  - inversion H; subst. exists 0%nat, k', []. rewrite app_nil_r.
    split; [lia|]. split; [reflexivity|]. split; [constructor|]. split; [reflexivity | constructor].
  - assert (Hs : (s < length addrs0)%nat) by lia.
    destruct (lookup_lt_is_Some_2 addrs0 s Hs) as [a Ha].
    assert (Hel : elem (filteredAddr fr) s = a).
    { unfold elem. rewrite Hinv, Ha by lia. reflexivity. }
    assert (Hel0 : elem addrs0 s = a) by (unfold elem; now rewrite Ha).
    cbn [filteredAddr set_err set_i set_filteredAddr] in H.
    rewrite bind_eq, !Hel in H.
    destruct (AddrDel_log device a k) as [Hl1 _].
    destruct (AddrDel device a k) as [e k1] eqn:E1; cbn [fst snd] in *.
    destruct e as [e|].
    { inversion H; subst r fr' ds' k'.
      exists 0%nat, k, [CAddrDel (Index (Attrs device)) a].
      split; [lia|]. split; [reflexivity|]. split; [constructor|].
      split; [exact Hl1 | now repeat constructor]. }
    rewrite bind_eq in H.
    match type of H with
    | context [AddrAdd bri ?x] => assert (Hx : x = clearLabel a)
    end.
    { unfold elem. rewrite list_lookup_insert_eq by lia. reflexivity. }
    rewrite !Hx in H. clear Hx.
    destruct (AddrAdd bri (clearLabel a) k1) as [e k2] eqn:E2; cbn [fst snd] in H.
    assert (Hone : Deleted device bri addrs0 s 1 k k2).
    { eapply Deleted_more; rewrite ?Hel0; [exact E1 | exact E2 | constructor]. }
    assert (Hrec : forall fr1,
              filteredAddr fr1 = <[s := clearLabel a]> (filteredAddr fr) ->
              addrLoop d device bri (seq (S s) n) fr1 (deferAddr device s :: ds) k2
                = ((r, fr', ds'), k') ->
              exists m km rest,
                (m <= S n)%nat
                /\ ds' = map (deferAddr device) (rev (seq s m)) ++ ds
                /\ Deleted device bri addrs0 s m k km
                /\ log k' = log km ++ rest
                /\ Forall (fun c => addrAdding c = false) rest).
    { intros fr1 Hf H1. apply IH in H1 as (m & km & rest & Hm & -> & Hd & Hl & Hall).
      - exists (S m), km, rest. repeat split; auto; try lia.
        + cbn [seq rev]. rewrite map_app, <- app_assoc. reflexivity.
        + eapply Deleted_more; rewrite ?Hel0; [exact E1 | exact E2 | exact Hd].
      - intros j Hj. rewrite Hf, list_lookup_insert_ne by lia. apply Hinv. lia.
      - rewrite Hf, length_insert. exact Hlen.
      - lia. }
    destruct e as [e|]; [destruct (negb _)|]; try (eapply Hrec; [|exact H]; reflexivity).
    inversion H; subst r fr' ds' k'. exists 1%nat, k2, []. rewrite app_nil_r.
    split; [lia|]. split; [reflexivity|]. split; [exact Hone|]. split; [reflexivity | constructor].
Qed.

(** The calls of the deleted addresses. *)
Lemma Deleted_log (addrs0 : list Addr) : forall m s k km,
  Deleted device bri addrs0 s m k km ->
  (s + m <= length addrs0)%nat ->
  log km = log k ++ flat_map (moveCalls device bri) (take m (drop s addrs0)).
Proof.
  intros m s k km Hd. induction Hd as [s k | s m k ka e kb km H1 H2 Hd IH]; intros Hle.
  - cbn. now rewrite app_nil_r.
  - assert (Hs : (s < length addrs0)%nat) by lia.
    destruct (lookup_lt_is_Some_2 addrs0 s Hs) as [a Ha].
    assert (Hel0 : elem addrs0 s = a) by (unfold elem; now rewrite Ha).
    rewrite Hel0 in *.
    rewrite IH by lia. rewrite (drop_S _ _ _ Ha). cbn [take flat_map moveCalls].
    destruct (AddrDel_log device a k) as [Hl1 _]. rewrite H1 in Hl1. cbn [snd] in Hl1.
    destruct (AddrAdd_log bri (clearLabel a) ka) as [Hl2 _]. rewrite H2 in Hl2. cbn [snd] in Hl2.
    rewrite Hl2, Hl1, <- !app_assoc. reflexivity.
Qed.

(** X16.  The deferred closures in general.  When the migration stops with
    an error, the loop has deleted some number [m] of the addresses from
    the device, the first [m] of the slice: the kernel answered each of
    these [AddrDel] calls without error, the calls of the migration begin
    with those that move these [m] addresses, and no call after them adds
    an address.  The deferred closures then make [m] calls that add an
    address to the device, and add the snapshotted routes back.  With a
    loop variable per iteration the addresses are the [m] deleted ones,
    labels cleared, last deleted first.  With one loop variable per loop
    all [m] calls add the same address, the one at the index the loop had
    reached. *)
Theorem rollback_calls lv rs addrs k e fr ds k1 :
  moveToBridge d device bri rs addrs k = ((Some e, fr, ds), k1) ->
  exists m km rest,
    (m <= length addrs)%nat
    /\ Deleted device bri addrs 0 m k km
    /\ log k1 = log k ++ flat_map (moveCalls device bri) (take m addrs) ++ rest
    /\ Forall (fun c => addrAdding c = false) rest
    /\ log (runDefers lv fr ds k1).2 =
         log k1
         ++ map (fun j => CAddrAdd (Index (Attrs device)) (undone lv fr addrs j)) (rev (seq 0 m))
         ++ map CRouteAdd rs.
Proof.
  unfold moveToBridge. rewrite bind_eq.
  destruct (addrLoop d device bri (seq 0 (length addrs)) _ _ k) as [[[r fr4] ds4] k4] eqn:E4.
  cbn [fst snd].
  pose proof E4 as E4'.
  apply (addrLoop_deleted addrs) in E4' as (m' & km & rest0 & Hm' & Hds' & Hdel & Hlog4 & Hall0);
    [| reflexivity | reflexivity | cbn; lia].
  apply (addrLoop_stack addrs) in E4 as (m & Hm & -> & Hlen & Hcl & _ & He4);
    [| reflexivity | reflexivity | cbn; lia].
  assert (m' = m).
  { apply (f_equal (@length Deferred)) in Hds'.
    rewrite !length_app, !length_map, !length_rev, !length_seq in Hds'. lia. }
  subst m'. clear Hds'.
  pose proof (Deleted_log addrs m 0 k km Hdel ltac:(lia)) as Hlogm. rewrite drop_0 in Hlogm.
  assert (Hgoal : forall fr' k1' rest, filteredAddr fr' = filteredAddr fr4 -> is_Some (err fr') ->
            log k1' = log k4 ++ rest -> Forall (fun c => addrAdding c = false) rest ->
            (m <= length addrs)%nat
            /\ Deleted device bri addrs 0 m k km
            /\ log k1' = log k ++ flat_map (moveCalls device bri) (take m addrs)
                               ++ (rest0 ++ rest)
            /\ Forall (fun c => addrAdding c = false) (rest0 ++ rest)
            /\ log (runDefers lv fr' (map (deferAddr device) (rev (seq 0 m))
                                        ++ [deferRoutes rs]) k1').2 =
               log k1'
               ++ map (fun j => CAddrAdd (Index (Attrs device)) (undone lv fr' addrs j))
                    (rev (seq 0 m))
               ++ map CRouteAdd rs).
  { intros fr' k1' rest Hf [e' He'] Hl1 Hall1.
    split; [exact Hm|]. split; [exact Hdel|]. split; [|split].
    { rewrite Hl1, Hlog4, Hlogm, <- !app_assoc. reflexivity. }
    { apply Forall_app. split; assumption. }
    rewrite (runDefers_log lv fr' e') by exact He'.
    rewrite flat_map_app. cbn [flat_map undoCalls]. rewrite app_nil_r. f_equal. f_equal.
    rewrite flat_map_concat_map, map_map.
    assert (Hin : forall j, j ∈ rev (seq 0 m) -> (j < m)%nat).
    { intros j Hj. apply list_elem_of_In in Hj. apply in_rev, in_seq in Hj. lia. }
    induction (rev (seq 0 m)) as [|j js IH]; [reflexivity|].
    cbn [map concat app undoCalls]. f_equal.
    - f_equal. unfold undone, seen. destruct lv; [reflexivity|].
      unfold elem. rewrite Hf, Hcl by (specialize (Hin j ltac:(left)); lia).
      destruct (addrs !! j); reflexivity.
    - apply IH. intros j' Hj'. apply Hin. now right. }
  destruct r as [e0|].
  { cbn [ret]. intros H. inversion H; subst.
    exists m, km, (rest0 ++ []).
    apply (Hgoal _ _ []); [reflexivity | apply He4; congruence | now rewrite app_nil_r | constructor]. }
  rewrite bind_eq.
  destruct (LinkSetMaster_log device (DefaultBridgeName (conf d)) k4) as [Hl5 _].
  destruct (LinkSetMaster device _ k4) as [[e5|] k5]; cbn [fst snd] in *.
  { cbn [ret]. intros H. inversion H; subst.
    exists m, km, (rest0 ++ [CLinkSetMaster (Index (Attrs device)) (DefaultBridgeName (conf d))]).
    apply (Hgoal _ _ [CLinkSetMaster (Index (Attrs device)) (DefaultBridgeName (conf d))]);
      [reflexivity | eexists; reflexivity | exact Hl5 | now repeat constructor]. }
  rewrite bind_eq.
  destruct (routeLoop bri rs _ k5) as [[r6 fr6] k6] eqn:E6. cbn [fst snd ret].
  intros H. inversion H; subst.
  pose proof (routeLoop_calls _ _ _ _ _ _ E6) as (rest6 & Hl6 & Hall6).
  apply routeLoop_frame in E6 as (Hf6 & _ & He6).
  exists m, km,
    (rest0 ++ CLinkSetMaster (Index (Attrs device)) (DefaultBridgeName (conf d)) :: rest6).
  apply (Hgoal _ _ (CLinkSetMaster (Index (Attrs device)) (DefaultBridgeName (conf d)) :: rest6));
    [exact Hf6 | apply He6; congruence | | now constructor].
  rewrite Hl6, Hl5, <- app_assoc. reflexivity.
Qed.

End Rollback.

(** C1.  On a device with two addresses, with the enslaving step made to
    fail, [Init] (with the loop variable Go gives this code, one per loop)
    returns the error of that step after its deferred closures have run;
    but both closures add back the second address, 192.168.1.6/24: the first
    call succeeds, the second finds it there, and 10.0.0.5/24, deleted
    first, is never added back to the device.  It stays on the bridge
    only. *)
Theorem Init_rollback_readds_one_address :
  let r := Init PerLoop (Scenario.driver "eth1" "")
             (Scenario.twoAddrs (Scenario.failAt 11 (SyscallErrno EPERM))) in
  r.1.1 = Some (Errorf
            "Failed to add device eth1 to bridge device docker: operation not permitted")
  /\ take 12 (log r.2) =
       [CLinkByName "eth1"; CAddrList 2;
        CLinkByName "docker"; CCreateBridgeDevice "docker" [82; 84; 0; 18; 52; 86];
        CLinkByName "docker"; CLinkSetUp 3; CRouteList 2;
        CAddrDel 2 Scenario.a5; CAddrAdd 3 (clearLabel Scenario.a5);
        CAddrDel 2 Scenario.a6; CAddrAdd 3 (clearLabel Scenario.a6);
        CLinkSetMaster 2 "docker"]
  /\ drop 12 (log r.2) =
       [CAddrAdd 2 (clearLabel Scenario.a6); CAddrAdd 2 (clearLabel Scenario.a6);
        CRouteAdd Scenario.viaGw]
  /\ addrsOf 2 r.2 = [clearLabel Scenario.a6]
  /\ addrsOf 3 r.2 = [clearLabel Scenario.a5; clearLabel Scenario.a6]
  /\ routes r.2 = [Scenario.viaGw].
Proof. vm_compute. repeat split; reflexivity. Qed.

(** The same run with a loop variable per iteration: each deleted address
    goes back to the device, last deleted first. *)
Example Init_rollback_per_iteration :
  let r := Init PerIteration (Scenario.driver "eth1" "")
             (Scenario.twoAddrs (Scenario.failAt 11 (SyscallErrno EPERM))) in
  r.1.1 = Some (Errorf
            "Failed to add device eth1 to bridge device docker: operation not permitted")
  /\ drop 12 (log r.2) =
       [CAddrAdd 2 (clearLabel Scenario.a6); CAddrAdd 2 (clearLabel Scenario.a5);
        CRouteAdd Scenario.viaGw]
  /\ addrsOf 2 r.2 = [clearLabel Scenario.a6; clearLabel Scenario.a5].
Proof. vm_compute. repeat split; reflexivity. Qed.

(** A failure while the second address is deleted: the closure of the
    first address reads the shared index too and tries to add the second
    address, which never left the device. *)
Example Init_rollback_delete_fails :
  let r := Init PerLoop (Scenario.driver "eth1" "")
             (Scenario.twoAddrs (Scenario.failAt 9 (SyscallErrno EPERM))) in
  r.1.1 = Some (Errorf
            "Failed to remove v4address from device eth1: operation not permitted")
  /\ drop 10 (log r.2) = [CAddrAdd 2 Scenario.a6; CRouteAdd Scenario.viaGw]
  /\ addrsOf 2 r.2 = [Scenario.a6].
Proof. vm_compute. repeat split; reflexivity. Qed.

(** With a single address the shared index is the right one. *)
Example Init_rollback_single_address :
  let r := Init PerLoop (Scenario.driver "eth1" "")
             (Scenario.oneAddr (Scenario.failAt 9 (SyscallErrno EPERM))) in
  r.1.1 = Some (Errorf
            "Failed to add device eth1 to bridge device docker: operation not permitted")
  /\ drop 10 (log r.2) = [CAddrAdd 2 (clearLabel Scenario.a5); CRouteAdd Scenario.viaGw]
  /\ addrsOf 2 r.2 = [clearLabel Scenario.a5]
  /\ routes r.2 = [Scenario.viaGw].
Proof. vm_compute. repeat split; reflexivity. Qed.

(** The end-to-end example of the specification: after [Init] the bridge
    docker exists and is up, carries 10.0.0.5/24, the default route is on
    the bridge, and eth1 has no address and the bridge as master. *)
Example Init_end_to_end :
  let r := Init PerLoop (Scenario.driver "eth1" "") (Scenario.oneAddr Scenario.noFault) in
  r.1.1 = None
  /\ (exists bri, byName "docker" (links r.2) = Some bri
                  /\ Type_ bri = "bridge" /\ Up (Attrs bri) = true /\ Index (Attrs bri) = 3)
  /\ addrsOf 3 r.2 = [clearLabel Scenario.a5]
  /\ addrsOf 2 r.2 = []
  /\ routes r.2 = [Scenario.viaGwOnBridge]
  /\ (MasterIndex ∘ Attrs) <$> byName "eth1" (links r.2) = Some 3.
Proof.
  vm_compute. repeat split; try reflexivity.
  eexists. repeat split; reflexivity.
Qed.

(** ** Obtaining the vlan interface *)

Lemma getOrCreateVlanDevice_inv d vlanId k r d' k' :
  getOrCreateVlanDevice d vlanId k = ((r, None, d'), k') ->
  exists l, r = Some l /\ d' = set_DeviceIndex (Index (Attrs l)) d
            /\ Obtained (vlanParentIndex d) (vlanIfName d vlanId) vlanId k l k'.
Proof.
  unfold getOrCreateVlanDevice, getVlanIfExist. rewrite !bind_eq.
  destruct (LinkList k) as [rl ka] eqn:E0. apply LinkList_inv in E0 as [-> Hrl].
  cbn [fst snd].
  destruct Hrl as [-> | [e ->]]; cbn [ret fst snd]; [|intros H; inversion H].
  cbn [links logged].
  destruct (scanVlan (vlanParentIndex d) vlanId (links k)) as [[l|] [e|]] eqn:Es.
  - apply scanVlan_Some in Es as [? _]. discriminate.
  - intros H; inversion H; subst. exists l. repeat split. now apply Discovered.
  - intros H; inversion H.
  - fold (vlanIfName d vlanId).
    fold (vlanIf (vlanParentIndex d) (vlanIfName d vlanId) vlanId).
    unfold getOrCreateDevice. rewrite !bind_eq.
    set (ka := logged CLinkList k).
    destruct (LinkByName (vlanIfName d vlanId) ka) as [r1 kb] eqn:E1.
    apply LinkByName_inv in E1 as [-> Hr1]. cbn [fst snd].
    destruct r1 as [vlan|e1]; cbn [ret fst snd].
    + specialize (Hr1 vlan eq_refl). cbn [links logged] in Hr1.
      rewrite bind_eq.
      destruct (LinkSetUp vlan _) as [e2 kc] eqn:E2. apply LinkSetUp_inv in E2.
      cbn [fst snd]. destruct e2 as [e2|]; cbn [ret]; intros H; inversion H; subst.
      exists vlan. repeat split. apply ByName; auto.
      cbn. rewrite <- !app_assoc. reflexivity.
    + clear Hr1. rewrite !bind_eq.
      set (kb := logged (CLinkByName (vlanIfName d vlanId)) ka).
      destruct (LinkAdd (vlanIf (vlanParentIndex d) (vlanIfName d vlanId) vlanId) kb) as [e2 kc] eqn:E2. apply LinkAdd_inv in E2.
      cbn [fst snd]. destruct e2 as [e2|]; cbn [ret fst snd].
      { intros H; inversion H. }
      destruct E2 as [Hfresh ->]. cbn [links logged kb ka] in Hfresh.
      cbn [vlanIf Attrs Name] in Hfresh.
      rewrite bind_eq.
      match goal with |- context [LinkByName ?n ?s] =>
        destruct (LinkByName n s) as [r3 kd] eqn:E3 end.
      apply LinkByName_inv in E3 as [-> Hr3]. cbn [fst snd].
      destruct r3 as [vlan|e3]; cbn [ret fst snd]; [|intros H; inversion H].
      specialize (Hr3 vlan eq_refl). cbn [links logged set_links kb ka] in Hr3.
      rewrite byName_app_new in Hr3 by exact Hfresh.
      destruct (hasName _ _); [|discriminate]. inversion Hr3; subst vlan. clear Hr3.
      rewrite bind_eq.
      match goal with |- context [LinkSetUp ?l ?s] =>
        destruct (LinkSetUp l s) as [e4 ke] eqn:E4 end.
      apply LinkSetUp_inv in E4. cbn [fst snd].
      destruct e4 as [e4|]; cbn [ret]; intros H; inversion H; subst.
      eexists. repeat split. apply Created; auto.
      cbn. rewrite <- !app_assoc. reflexivity.
Qed.


Lemma scanVlan_one p t l : isVlanOf p t l = true -> scanVlan p t [l] = (Some l, None).
Proof.
  unfold isVlanOf. cbn [scanVlan]. unfold Type_. destruct (Obj l); try discriminate.
  intros ->. reflexivity.
Qed.

Lemma isVlanOf_upIf p t index l : isVlanOf p t (upIf index l) = isVlanOf p t l.
Proof.
  unfold isVlanOf. destruct (upIf_same index l) as (-> & _ & _ & -> & _). reflexivity.
Qed.



(** The host has a vlan 7 of eth0 named vlan7, and the driver works on
    eth1.  The first call finds no vlan 7 of eth1, looks up the name vlan7
    and adopts what it finds; so does the second. *)
Example vlan_adopted_by_name :
  let d := Scenario.onEth1 "" in
  let c1 := getOrCreateVlanDevice d 7 Scenario.strayHost in
  let c2 := getOrCreateVlanDevice c1.1.2 7 c1.2 in
  c1.1 = (Some Scenario.vlan7_of_eth0, None, set_DeviceIndex 6 d)
  /\ c2.1 = (Some Scenario.vlan7_of_eth0, None, set_DeviceIndex 6 d)
  /\ scanVlan 2 7 (links c1.2) = (None, None)
  /\ log c2.2 = log c1.2 ++ [CLinkList; CLinkByName "vlan7"; CLinkSetUp 6].
Proof. vm_compute. repeat split; reflexivity. Qed.


(** ** The bridge of a vlan interface that has one *)

(** The call adopts the interface that bears the name, and brings it up. *)
Lemma getOrCreateVlanDevice_adopts d vlanId k vlan :
  (forall n, (n < 3)%nat -> fault k (length (log k) + n) = None) ->
  scanVlan (vlanParentIndex d) vlanId (links k) = (None, None) ->
  byName (vlanIfName d vlanId) (links k) = Some vlan ->
  getOrCreateVlanDevice d vlanId k
  = ((Some vlan, None, set_DeviceIndex (Index (Attrs vlan)) d),
     set_links (onIndex (Index (Attrs vlan)) setUp (links k))
       (logged (CLinkSetUp (Index (Attrs vlan)))
          (logged (CLinkByName (vlanIfName d vlanId)) (logged CLinkList k)))).
Proof.
  intros Hf Hs Hb.
  pose proof (Hf 0%nat ltac:(lia)) as Hf0. rewrite Nat.add_0_r in Hf0.
  pose proof (Hf 1%nat ltac:(lia)) as Hf1. rewrite Nat.add_1_r in Hf1.
  pose proof (Hf 2%nat ltac:(lia)) as Hf2. replace (length (log k) + 2)%nat
    with (S (S (length (log k)))) in Hf2 by lia.
  unfold getOrCreateVlanDevice, getVlanIfExist, LinkList, invoke.
  rewrite !bind_eq, Hf0. cbn [fst snd ret links logged]. rewrite Hs. cbn [fst snd].
  fold (vlanIfName d vlanId). unfold getOrCreateDevice. rewrite !bind_eq.
  rewrite LinkByName_run by (rewrite length_logged; exact Hf1).
  cbn [links logged fst snd]. rewrite Hb. cbn [ret fst snd].
  rewrite bind_eq.
  rewrite LinkSetUp_run.
  - reflexivity.
  - rewrite !length_logged. exact Hf2.
  - cbn [links logged]. eapply byIndex_is_Some; [eapply byName_In; exact Hb | reflexivity].
Qed.

(** C5 (as the code has it).  For a tag other than 0 whose vlan interface
    has a master that is a bridge, on a kernel that lets the calls listed
    below through, [CreateBridgeAndVlanDevice] returns the name of that
    bridge and records the index of the vlan interface; it makes no call
    that creates or enslaves an interface, and leaves the addresses, the
    routes and the kernel parameters alone.  When the interface is the one
    the scan finds, the call lists the interfaces and looks the master up,
    and no interface changes.  When the scan finds nothing and the
    interface is the one that bears the name of the tag, the call looks it
    up by name and brings it up before it looks at its master: the
    interface table is the one [LinkSetUp] leaves. *)
Theorem bridge_master_short_circuit d vlanId k vlan master :
  vlanId <> 0%N ->
  (forall n, (n < length (shortCircuitCalls d vlanId vlan))%nat ->
             fault k (length (log k) + n) = None) ->
  tagInterface d vlanId k = Some vlan ->
  bridgeMasterOf k vlan master ->
  exists k',
    CreateBridgeAndVlanDevice d vlanId k
      = ((Name (Attrs master), None, set_DeviceIndex (Index (Attrs vlan)) d), k')
    /\ log k' = log k ++ shortCircuitCalls d vlanId vlan
    /\ Forall (fun c => creating c = false /\ enslaving c = false)
         (shortCircuitCalls d vlanId vlan)
    /\ addrs k' = addrs k /\ routes k' = routes k /\ sysctl k' = sysctl k
    /\ if isVlanOf (vlanParentIndex d) vlanId vlan
       then scanVlan (vlanParentIndex d) vlanId (links k) = (Some vlan, None)
            /\ links k' = links k
       else scanVlan (vlanParentIndex d) vlanId (links k) = (None, None)
            /\ byName (vlanIfName d vlanId) (links k) = Some vlan
            /\ links k' = onIndex (Index (Attrs vlan)) setUp (links k).
Proof.
  intros Hne Hf Ht (Hv & Hm & Hb & Hty). unfold tagInterface in Ht.
  destruct (scanVlan (vlanParentIndex d) vlanId (links k)) as [[l|] [e|]] eqn:Hs;
    try discriminate.
  - apply scanVlan_Some in Hs as Hs'. destruct Hs' as [? _]. discriminate.
  - (* found by the scan *)
    inversion Ht; subst l. clear Ht.
    apply scanVlan_Some in Hs as Hs'. destruct Hs' as (_ & _ & Hiv).
    unfold shortCircuitCalls in *. rewrite Hiv in *. cbn [length] in Hf.
    pose proof (Hf 0%nat ltac:(lia)) as Hf0. rewrite Nat.add_0_r in Hf0.
    pose proof (Hf 1%nat ltac:(lia)) as Hf1. rewrite Nat.add_1_r in Hf1.
    exists (logged (CLinkByIndex (MasterIndex (Attrs vlan))) (logged CLinkList k)).
    split; [|split; [|split]].
    + unfold CreateBridgeAndVlanDevice. rewrite bool_decide_eq_false_2 by exact Hne.
      unfold getOrCreateVlanDevice, getVlanIfExist, LinkList, invoke.
      rewrite !bind_eq, Hf0. cbn [fst snd ret links logged]. rewrite Hs.
      cbn [ret fst snd].
      unfold getVlanMaster. destruct Hv as [id ->]. cbv beta iota.
      rewrite bool_decide_eq_false_2 by lia.
      rewrite !bind_eq, LinkByIndex_run by (rewrite length_logged; exact Hf1).
      cbn [links logged fst snd]. rewrite Hb. cbn [fst snd].
      rewrite bool_decide_eq_true_2 by exact Hty. reflexivity.
    + cbn [log logged]. rewrite <- app_assoc. reflexivity.
    + repeat constructor.
    + repeat split.
  - (* adopted by its name *)
    assert (Hiv : isVlanOf (vlanParentIndex d) vlanId vlan = false)
      by (eapply scanVlan_None; [exact Hs | eapply byName_In; exact Ht]).
    unfold shortCircuitCalls in *. rewrite Hiv in *. cbn [length] in Hf.
    set (I := Index (Attrs vlan)) in *.
    set (k3 := set_links (onIndex I setUp (links k))
                 (logged (CLinkSetUp I)
                    (logged (CLinkByName (vlanIfName d vlanId)) (logged CLinkList k)))).
    exists (logged (CLinkByIndex (MasterIndex (Attrs vlan))) k3).
    split; [|split; [|split]].
    + unfold CreateBridgeAndVlanDevice. rewrite bool_decide_eq_false_2 by exact Hne.
      rewrite bind_eq.
      rewrite (getOrCreateVlanDevice_adopts d vlanId k vlan) by (auto with lia).
      fold I. fold k3. cbn [fst snd].
      assert (HM : getVlanMaster vlan k3
                   = ((Some (upIf I master), None),
                      logged (CLinkByIndex (MasterIndex (Attrs vlan))) k3)).
      { unfold getVlanMaster. destruct Hv as [id ->].
        rewrite bool_decide_eq_false_2 by lia.
        rewrite bind_eq, LinkByIndex_run.
        - cbn [fst snd]. unfold k3 at 1. cbn [links set_links].
          rewrite byIndex_up, Hb. cbn [fmap option_fmap option_map].
          destruct (upIf_same I master) as (Ho & _).
          unfold Type_. rewrite Ho. fold (Type_ master).
          rewrite bool_decide_eq_true_2 by exact Hty. reflexivity.
        - unfold k3. cbn [log fault set_links]. rewrite !length_logged.
          cbn [fault logged].
          replace (S (S (S (length (log k))))) with (length (log k) + 3)%nat by lia.
          apply Hf. lia. }
      rewrite bind_eq, HM. cbn [fst snd ret].
      destruct (upIf_same I master) as (_ & _ & -> & _). reflexivity.
    + unfold k3. cbn [log logged set_links]. rewrite <- !app_assoc. reflexivity.
    + repeat constructor.
    + repeat split. exact Ht.
Qed.

(** The interface vlan100 is a vlan of eth0 and down; the driver works on
    eth1, finds it by its name and brings it up. *)
Lemma bridge_master_short_circuit_witness :
  let d := Scenario.onEth1 "" in
  let k := Scenario.strayPortHost in
  exists k',
    CreateBridgeAndVlanDevice d 100 k = (("docker100", None, set_DeviceIndex 7 d), k')
    /\ log k' = [CLinkList; CLinkByName "vlan100"; CLinkSetUp 7; CLinkByIndex 8]
    /\ Forall (fun c => creating c = false /\ enslaving c = false)
         [CLinkList; CLinkByName "vlan100"; CLinkSetUp 7; CLinkByIndex 8]
    /\ addrs k' = addrs k /\ routes k' = routes k /\ sysctl k' = sysctl k
    /\ scanVlan 2 100 (links k) = (None, None)
    /\ byName "vlan100" (links k) = Some Scenario.strayPort
    /\ links k' = onIndex 7 setUp (links k).
Proof.
  intros d k.
  apply (bridge_master_short_circuit d 100 k Scenario.strayPort Scenario.docker100).
  - discriminate.
  - intros n _. reflexivity.
  - reflexivity.
  - split; [exists 100; reflexivity|]. split; [reflexivity|]. split; reflexivity.
Defined.

(** The same call, run: the third call brings vlan100 up. *)
Example CreateBridgeAndVlanDevice_brings_up_adopted :
  let d := Scenario.onEth1 "" in
  let c := CreateBridgeAndVlanDevice d 100 Scenario.strayPortHost in
  c.1 = ("docker100", None, set_DeviceIndex 7 d)
  /\ log c.2 = [CLinkList; CLinkByName "vlan100"; CLinkSetUp 7; CLinkByIndex 8]
  /\ map (fun l => (Name (Attrs l), Up (Attrs l))) (links Scenario.strayPortHost)
     = [("lo", true); ("eth1", true); ("eth0", true); ("vlan100", false); ("docker100", true)]
  /\ map (fun l => (Name (Attrs l), Up (Attrs l))) (links c.2)
     = [("lo", true); ("eth1", true); ("eth0", true); ("vlan100", true); ("docker100", true)].
Proof. vm_compute. repeat split; reflexivity. Qed.

(** So the short circuit is not free of mutation: on that host the
    interface of the tag has the bridge docker100 as its master, and the
    call brings the interface up. *)
Lemma short_circuit_brings_link_up : ~ shortCircuitMutatesNothing.
Proof.
  intros H.
  pose (d := Scenario.onEth1 "").
  pose (c := CreateBridgeAndVlanDevice d 100 Scenario.strayPortHost).
  destruct (H d 100%N Scenario.strayPortHost Scenario.strayPort Scenario.docker100
              c.1.1.1 c.1.1.2 c.1.2 c.2) as (_ & _ & Hall).
  - discriminate.
  - reflexivity.
  - reflexivity.
  - split; [exists 100; reflexivity|]. split; [reflexivity|]. split; reflexivity.
  - reflexivity.
  - vm_compute in Hall.
    apply (Forall_lookup_1 _ _ 2 (CLinkSetUp 7)) in Hall as (_ & _ & Hup);
      [discriminate | reflexivity].
Qed.

(** The vlan example of the specification: on a host without vlan100 and
    docker100 the first call creates both, enslaves the vlan interface and
    brings the bridge up; the second call returns the same name and only
    reads. *)
Example CreateBridgeAndVlanDevice_twice :
  let d := Scenario.onEth1 "" in
  let c1 := CreateBridgeAndVlanDevice d 100 Scenario.bareHost in
  let c2 := CreateBridgeAndVlanDevice c1.1.2 100 c1.2 in
  c1.1.1 = ("docker100", None)
  /\ log c1.2 =
       [CLinkList; CLinkByName "vlan100"; CLinkAdd (vlanIf 2 "vlan100" 100);
        CLinkByName "vlan100"; CLinkSetUp 3;
        CLinkByName "docker100"; CCreateBridgeDevice "docker100" [];
        CLinkByName "docker100"; CLinkSetMaster 3 "docker100"; CLinkSetUp 4]
  /\ map (fun l => (Name (Attrs l), Type_ l, MasterIndex (Attrs l), Up (Attrs l)))
         (drop 2 (links c1.2))
     = [("vlan100", "vlan", 4, true); ("docker100", "bridge", 0, true)]
  /\ c2.1.1 = ("docker100", None)
  /\ links c2.2 = links c1.2
  /\ drop (length (log c1.2)) (log c2.2) = [CLinkList; CLinkByIndex 4].
Proof. vm_compute. repeat split; reflexivity. Qed.

(** ** The other branches of Init *)

(** Pure mode: four sysctl settings and no bridge. *)
Example Init_pure :
  let r := Init PerLoop (Scenario.driver "eth1" "pure") (Scenario.oneAddr Scenario.noFault) in
  r.1 = (None, Scenario.onEth1 "pure")
  /\ log r.2 = [CLinkByName "eth1"; CUnSetArpIgnore "all"; CUnSetArpIgnore "eth1";
                CSetProxyArp "eth1"; CEnableNonlocalBind]
  /\ links r.2 = [Scenario.lo; Scenario.eth1].
Proof. vm_compute. repeat split; reflexivity. Qed.

(** Bridge mode on a device without address: it has to be a port of the
    default bridge. *)
Example Init_no_address :
  let k := Scenario.host [Scenario.lo; Scenario.eth1] [] [] Scenario.noFault in
  (Init PerLoop (Scenario.driver "eth1" "") k).1.1
    = Some (Errorf "Error getting bri device docker: Link not found").
Proof. reflexivity. Qed.

Example LoadConf_defaults :
  let c := {| Device := "eth1"; Switch := ""; DisableDefaultBridge := None;
              DefaultBridgeName := ""; BridgeNamePrefix := ""; VlanNamePrefix := "" |} in
  (LoadConf (Scenario.driver "" "") (Ok c)).1 = Ok (Scenario.config "eth1" "").
Proof. reflexivity. Qed.

End VlanSpec.

(* ===================================================================== *)
(** * Properties of the request dispatcher *)
(* ===================================================================== *)

Module GalaxySpec.
Import Galaxy Stated KernelFacts.

Section Dispatcher.
Variable ParsePorts : string -> list Port * option error.
Variable json_Marshal : Result -> string * option error.
Variable fmt_ports : list Port -> string.
Variable fmt_IPConfig : IPConfig -> string.

Local Abbreviation requestFunc := (requestFunc ParsePorts json_Marshal fmt_ports fmt_IPConfig).
Local Abbreviation setupPortMapping := (setupPortMapping ParsePorts fmt_ports fmt_IPConfig).
Local Abbreviation cleanupPortMapping := (cleanupPortMapping ParsePorts fmt_ports).

(** What [cmdAdd] does to the world: two calls, none on the store. *)
Lemma cmdAdd_run g req w :
  exists c1 c2 req',
    cmdAdd g req w = ((delegate w (S (length (wlog w))), req'),
                      wlogged c2 (wlogged c1 w))
    /\ portWork c1 = false /\ portWork c2 = false
    /\ Ports req' = Ports req /\ ContainerID req' = ContainerID req.
Proof.
  unfold cmdAdd, disableIPv6, call_, call. rewrite !bind_eq.
  assert (Hlen : forall c, length (wlog (wlogged c w)) = S (length (wlog w))).
  { intros c. cbn. rewrite length_app. cbn. lia. }
  destruct (wfault w (length (wlog w))); cbn [fst snd ret errOf];
    destruct (bool_decide (flagMaster g = "")); rewrite bind_eq;
    unfold flannel_CmdAdd, remote_CmdAdd, delegateAdd; cbn [fst snd ret];
    rewrite Hlen; cbn [delegate wlogged];
    destruct (delegate w (S (length (wlog w)))) as [r0 e0];
    do 3 eexists; (split; [reflexivity|]); repeat split.
Qed.

(** C10.  An ADD whose delegate returns neither an error nor a result is
    answered with success and an empty body, and no port-mapping work is
    done: the store and the installed mappings are untouched and no call
    to the store or to the port-mapping handler is made, whatever port
    spec the request carries. *)
Theorem add_nil_result g req w :
  Command req = COMMAND_ADD ->
  delegate w (S (length (wlog w))) = (None, None) ->
  let r := requestFunc g req w in
  r.1 = ("", None)
  /\ store r.2 = store w /\ installed r.2 = installed w
  /\ Forall (fun c => portWork c = false) (drop (length (wlog w)) (wlog r.2)).
Proof.
  intros Hc Hd. unfold Galaxy.requestFunc.
  rewrite bool_decide_eq_true_2 by exact Hc. rewrite bind_eq.
  destruct (cmdAdd_run g req w) as (c1 & c2 & req' & -> & H1 & H2 & _).
  rewrite Hd. cbn [fst snd ret wlog wlogged store installed].
  repeat split. rewrite <- app_assoc, drop_app_length. repeat constructor; assumption.
Qed.


Lemma length_wlogged c w : length (wlog (wlogged c w)) = S (length (wlog w)).
Proof. cbn. rewrite length_app. cbn. lia. Qed.

(** [setupPortMapping] saves before it looks at the result. *)
Lemma setupPortMapping_store portStr containerID result w :
  store (setupPortMapping portStr containerID result w).2 =
    match ParsePorts portStr, wfault w (length (wlog w)) with
    | (_, None), None => <[containerID := portStr]> (store w)
    | _, _ => store w
    end.
Proof.
  unfold Galaxy.setupPortMapping.
  destruct (ParsePorts portStr) as [ports [e|]]; [reflexivity|].
  unfold SavePort, call_, call. rewrite !bind_eq.
  destruct (wfault w (length (wlog w))); cbn [fst snd ret errOf]; [reflexivity|].
  destruct (IP4 result) as [c|]; [|reflexivity].
  destruct (To4 _); [|reflexivity].
  destruct (bool_decide _); [|reflexivity].
  unfold SetupPortMapping, call_, call. rewrite !bind_eq.
  cbn [wfault wlog set_store wlogged].
  destruct (wfault w _); cbn [fst snd ret errOf]; reflexivity.
Qed.

(** C2 (as the code has it).  An ADD writes the raw port spec of the
    request into the store, under the container ID, exactly when the
    delegate returns a result without error, the port spec parses and the
    save succeeds; in every other case it leaves the store as it was.  The
    IPv4 address of the result and the emptiness of the spec play no part:
    the entry is written before the result is looked at. *)
Theorem add_persists_port_spec g req w :
  Command req = COMMAND_ADD ->
  store (requestFunc g req w).2 =
    match delegate w (S (length (wlog w))), ParsePorts (Ports req),
          wfault w (S (S (length (wlog w)))) with
    | (Some _, None), (_, None), None => <[ContainerID req := Ports req]> (store w)
    | _, _, _ => store w
    end.
Proof.
  intros Hc. unfold Galaxy.requestFunc.
  rewrite bool_decide_eq_true_2 by exact Hc. rewrite bind_eq.
  destruct (cmdAdd_run g req w) as (c1 & c2 & req' & -> & _ & _ & Hp & Hid).
  cbn [fst snd]. rewrite Hp, Hid.
  destruct (delegate w (S (length (wlog w)))) as [[r|] [e|]]; cbn [ret snd store];
    try (destruct (ParsePorts (Ports req)) as [? [?|]]; reflexivity).
  - destruct (json_Marshal r). rewrite bind_eq. cbn [ret snd].
    rewrite setupPortMapping_store. rewrite !length_wlogged. cbn [wfault wlogged store].
    destruct (ParsePorts (Ports req)) as [? [?|]]; reflexivity.
Qed.

(** [cmdDel] is one call; the teardown fails exactly when the fault
    plan says so. *)
Lemma cmdDel_run g req w :
  exists c req',
    cmdDel g req w = ((wfault w (length (wlog w)), req'), wlogged c w)
    /\ ContainerID req' = ContainerID req.
Proof.
  unfold cmdDel, flannel_CmdDel, remote_CmdDel, call_, call.
  destruct (bool_decide (flagMaster g = "")); rewrite !bind_eq;
    destruct (wfault w (length (wlog w))); cbn [fst snd ret errOf];
    do 2 eexists; split; reflexivity.
Qed.

Lemma cleanup_absent containerID w :
  store w !! containerID = None ->
  wfault w (length (wlog w)) = None ->
  cleanupPortMapping containerID w = (None, wlogged (XConsumePort containerID) w).
Proof.
  intros Hs Hf. unfold Galaxy.cleanupPortMapping, ConsumePort, call.
  rewrite !bind_eq, Hf. cbn [store wlogged]. rewrite Hs. reflexivity.
Qed.

Lemma cleanup_consumes containerID w w' :
  wfault w (length (wlog w)) = None ->
  cleanupPortMapping containerID w = (None, w') ->
  store w' !! containerID = None.
Proof.
  intros Hf. unfold Galaxy.cleanupPortMapping, ConsumePort, call.
  rewrite !bind_eq, Hf. cbn [store wlogged].
  destruct (store w !! containerID) as [data|] eqn:Hs; cbn [fst snd ret].
  - assert (Hdel : store (set_store (delete containerID (store w))
                            (wlogged (XConsumePort containerID) w)) !! containerID = None)
      by (cbn; apply lookup_delete_eq).
    revert Hdel. generalize (set_store (delete containerID (store w))
                               (wlogged (XConsumePort containerID) w)). intros w1 Hdel.
    destruct (ParsePorts data) as [ports [e|]].
    + destruct (os_IsNotExist e); intros H; inversion H; subst; exact Hdel.
    + destruct (bool_decide _).
      * unfold CleanPortMapping, call_, call. rewrite !bind_eq.
        destruct (wfault w1 _); cbn [fst snd ret errOf]; intros H; inversion H.
        exact Hdel.
      * intros H; inversion H; subst; exact Hdel.
  - intros H; inversion H. exact Hs.
Qed.

(** C8.  After a DEL that succeeded, a second DEL for the same container
    whose delegate teardown succeeds returns success: the first DEL left no
    entry for the container ID, and the second treats the missing entry as
    nothing to do (the store and the installed mappings stay as they
    are). *)
Theorem del_twice g req w :
  Command req = COMMAND_DEL ->
  let r1 := requestFunc g req w in
  r1.1.2 = None ->
  wfault w (S (length (wlog w))) = None ->
  wfault r1.2 (length (wlog r1.2)) = None ->
  wfault r1.2 (S (length (wlog r1.2))) = None ->
  let r2 := requestFunc g req r1.2 in
  store r1.2 !! ContainerID req = None
  /\ r2.1 = ("", None)
  /\ store r2.2 = store r1.2 /\ installed r2.2 = installed r1.2.
Proof.
  intros Hc r1 Hok Hf1 Hf2 Hf3 r2.
  assert (Hdel : forall w0, requestFunc g req w0 =
            (let (c, w1) := cmdDel g req w0 in
             match c.1 with
             | Some e => (("", Some e), w1)
             | None => let (e, w2) := cleanupPortMapping (ContainerID c.2) w1 in
                       (("", e), w2)
             end)).
  { intros w0. unfold Galaxy.requestFunc.
    rewrite bool_decide_eq_false_2 by (rewrite Hc; discriminate).
    rewrite bool_decide_eq_true_2 by exact Hc.
    rewrite bind_eq. destruct (cmdDel g req w0) as [[e req'] w1]. cbn [fst snd].
    destruct e; [reflexivity|]. rewrite bind_eq.
    destruct (cleanupPortMapping _ w1). reflexivity. }
  assert (Hgone : store r1.2 !! ContainerID req = None).
  { subst r1. revert Hok. rewrite Hdel.
    destruct (cmdDel_run g req w) as (c & req' & -> & Hid). cbn [fst snd].
    destruct (wfault w (length (wlog w))); [discriminate|].
    rewrite Hid.
    destruct (cleanupPortMapping (ContainerID req) (wlogged c w)) as [e w2] eqn:E.
    cbn [fst snd]. intros ->. eapply cleanup_consumes; [|exact E].
    rewrite length_wlogged. exact Hf1. }
  split; [exact Hgone|].
  subst r2. rewrite Hdel.
  destruct (cmdDel_run g req r1.2) as (c & req' & -> & Hid). cbn [fst snd].
  rewrite Hf2, Hid, cleanup_absent.
  - repeat split.
  - exact Hgone.
  - rewrite length_wlogged. exact Hf3.
Qed.

End Dispatcher.

Local Abbreviation run := (requestFunc Scenario.parse Scenario.marshal Scenario.showPorts
                             Scenario.showIPConfig Scenario.galaxy).

Lemma add_nil_result_witness :
  let w := Scenario.world ∅ (None, None) in
  let r := run (Scenario.request "ADD" "8080:80/tcp") w in
  r.1 = ("", None)
  /\ store r.2 = store w /\ installed r.2 = installed w
  /\ Forall (fun c => portWork c = false) (drop (length (wlog w)) (wlog r.2)).
Proof.
  intros w.
  apply (add_nil_result Scenario.parse Scenario.marshal Scenario.showPorts
           Scenario.showIPConfig Scenario.galaxy (Scenario.request "ADD" "8080:80/tcp") w).
  - reflexivity.
  - reflexivity.
Defined.

(** The end-to-end example of the specification: the port spec is
    persisted under the container ID and the mapping is installed with the
    pod's IPv4. *)
Example add_with_ports :
  let r := run (Scenario.request "ADD" "8080:80/tcp") (Scenario.world ∅ (Some Scenario.podIP, None)) in
  r.1 = ("{}", None)
  /\ store r.2 !! "c1" = Some "8080:80/tcp"
  /\ installed r.2 = [set_PodIP "10.1.2.3" Scenario.port8080].
Proof. vm_compute. repeat split; reflexivity. Qed.

Lemma add_persists_port_spec_witness :
  let w := Scenario.world ∅ (Some Scenario.noIPv4, None) in
  store (run (Scenario.request "ADD" "8080:80/tcp") w).2 = <["c1" := "8080:80/tcp"]> (store w).
Proof.
  intros w.
  apply (add_persists_port_spec Scenario.parse Scenario.marshal Scenario.showPorts
           Scenario.showIPConfig Scenario.galaxy (Scenario.request "ADD" "8080:80/tcp") w).
  reflexivity.
Defined.

(** An ADD whose delegate reports no IPv4 address fails, and has written
    the entry; so has an ADD with an empty port spec, which succeeds. *)
Example add_without_ipv4 :
  let r := run (Scenario.request "ADD" "8080:80/tcp") (Scenario.world ∅ (Some Scenario.noIPv4, None)) in
  r.1 = ("{}", Some (Errorf "CNI plugin reported no IPv4 address"))
  /\ store r.2 !! "c1" = Some "8080:80/tcp"
  /\ installed r.2 = [].
Proof. vm_compute. repeat split; reflexivity. Qed.

Example add_with_empty_ports :
  let r := run (Scenario.request "ADD" "") (Scenario.world ∅ (Some Scenario.podIP, None)) in
  r.1 = ("{}", None) /\ store r.2 !! "c1" = Some "" /\ installed r.2 = [].
Proof. vm_compute. repeat split; reflexivity. Qed.

(** So an entry can be there without a usable IPv4: after an ADD whose
    delegate result has no IPv4 address the store has an entry for the
    container. *)
Lemma entry_persisted_without_ipv4 : ~ noEntryWithoutIPv4OrPorts.
Proof.
  intros H.
  assert (Hnone := H Scenario.parse Scenario.marshal Scenario.showPorts Scenario.showIPConfig
                     Scenario.galaxy (Scenario.request "ADD" "8080:80/tcp")
                     (Scenario.world ∅ (Some Scenario.noIPv4, None)) Scenario.noIPv4
                     eq_refl eq_refl (or_introl eq_refl) eq_refl).
  vm_compute in Hnone. discriminate.
Qed.

Lemma del_twice_witness :
  let w := Scenario.world {["c1" := "8080:80/tcp"]} (None, None) in
  let r1 := run (Scenario.request "DEL" "") w in
  let r2 := run (Scenario.request "DEL" "") r1.2 in
  store r1.2 !! "c1" = None
  /\ r2.1 = ("", None)
  /\ store r2.2 = store r1.2 /\ installed r2.2 = installed r1.2.
Proof.
  intros w.
  apply (del_twice Scenario.parse Scenario.marshal Scenario.showPorts
           Scenario.showIPConfig Scenario.galaxy (Scenario.request "DEL" "") w).
  - reflexivity.
  - reflexivity.
  - reflexivity.
  - reflexivity.
  - reflexivity.
Defined.

(** The end-to-end example of the specification, DEL side: the first DEL
    consumes the entry and removes the mapping, the second finds nothing
    and succeeds. *)
Example del_after_add :
  let w0 := Scenario.world ∅ (Some Scenario.podIP, None) in
  let w1 := (run (Scenario.request "ADD" "8080:80/tcp") w0).2 in
  let r1 := run (Scenario.request "DEL" "") w1 in
  let r2 := run (Scenario.request "DEL" "") r1.2 in
  r1.1 = ("", None) /\ store r1.2 !! "c1" = None /\ installed r1.2 = []
  /\ r2.1 = ("", None).
Proof. vm_compute. repeat split; reflexivity. Qed.

Example unknown_command :
  let w := Scenario.world ∅ (None, None) in
  run (Scenario.request "CHECK" "") w = (("", Some (Errorf "unkown command CHECK")), w).
Proof. reflexivity. Qed.

End GalaxySpec.

(* ===================================================================== *)
(** * Running the kernel model *)
(* ===================================================================== *)

Module KernelRuns.
Import Vlan Stated KernelFacts Effects.

Lemma bind_run {S A B} (m : ST S A) (f : A -> ST S B) s a s' :
  m s = (a, s') -> bind m f s = f a s'.
Proof. intros H. unfold bind. now rewrite H. Qed.

Ltac simp :=
  cbv beta iota;
  cbn [ret fst snd errOf links addrs routes sysctl log fault logged set_links set_addrs
       set_routes set_sysctl].

(** ** Calls on a kernel that lets them through *)

Lemma invoke_run {A} c (sem : Kernel -> res A * Kernel) k :
  fault k (length (log k)) = None -> invoke c sem k = sem (logged c k).
Proof. intros Hf. unfold invoke. now rewrite Hf. Qed.

Lemma invoke__run c sem k :
  fault k (length (log k)) = None ->
  invoke_ c sem k = (errOf (sem (logged c k)).1, (sem (logged c k)).2).
Proof.
  intros Hf. unfold invoke_. rewrite bind_eq, invoke_run by exact Hf.
  destruct (sem _); reflexivity.
Qed.

Lemma sysctl_run c key value k :
  invoke_ c (sysctlSet key value) k
  = match fault k (length (log k)) with
    | Some e => (Some e, logged c k)
    | None => (None, set_sysctl (<[key := value]> (sysctl k)) (logged c k))
    end.
Proof.
  unfold invoke_, invoke. rewrite bind_eq. destruct (fault k _); reflexivity.
Qed.

Lemma delAddr_run index a k :
  faultless k ->
  invoke_ (CAddrDel index a) (delAddr index a) k
  = if existsb (sameNet index a) (addrs k)
    then (None, (delAddr index a (logged (CAddrDel index a) k)).2)
    else (Some (SyscallErrno EADDRNOTAVAIL), logged (CAddrDel index a) k).
Proof.
  intros Hf. rewrite invoke__run by apply Hf. unfold delAddr. simp.
  destruct (existsb (sameNet index a) (addrs k)); [|reflexivity].
  destruct (existsb (onLink index) _); reflexivity.
Qed.

Lemma delAddr_addrs index a k :
  addrs (delAddr index a k).2
  = if existsb (sameNet index a) (addrs k)
    then filter (fun x => sameNet index a x = false) (addrs k)
    else addrs k.
Proof.
  unfold delAddr. destruct (existsb (sameNet index a) (addrs k)); [|reflexivity].
  destruct (existsb (onLink index) _); reflexivity.
Qed.

Lemma delAddr_frame index a k :
  links (delAddr index a k).2 = links k /\ fault (delAddr index a k).2 = fault k
  /\ log (delAddr index a k).2 = log k.
Proof.
  unfold delAddr. destruct (existsb (sameNet index a) (addrs k)); [|auto].
  destruct (existsb (onLink index) _); auto.
Qed.

(** ** What a call that answered tells *)

Lemma CreateBridgeDevice_inv name mac k e k' :
  CreateBridgeDevice name mac k = (e, k') ->
  match e with
  | None =>
      byName name (links k) = None
      /\ k' = set_links
                (links k ++ [created (links k)
                               {| Attrs := {| Index := 0; Name := name; HardwareAddr := mac;
                                              MasterIndex := 0; ParentIndex := 0; Up := false |};
                                  Obj := IsBridge |}])
                (logged (CCreateBridgeDevice name mac) k)
  | Some _ => k' = logged (CCreateBridgeDevice name mac) k
  end.
Proof.
  unfold CreateBridgeDevice, invoke_, invoke. rewrite bind_eq.
  destruct (fault k _); cbn [fst snd ret errOf].
  - intros H; inversion H. reflexivity.
  - unfold addLink. cbn [links logged Attrs Name].
    destruct (byName name (links k)); cbn [fst snd errOf]; intros H; inversion H; auto.
Qed.

Lemma LinkSetMaster_inv l master k e k' :
  LinkSetMaster l master k = (e, k') ->
  match e with
  | None => exists m, byName master (links k) = Some m
                      /\ k' = set_links (onIndex (Index (Attrs l)) (setMaster (Index (Attrs m)))
                                           (links k))
                                (logged (CLinkSetMaster (Index (Attrs l)) master) k)
  | Some _ => k' = logged (CLinkSetMaster (Index (Attrs l)) master) k
  end.
Proof.
  unfold LinkSetMaster, invoke_, invoke. rewrite bind_eq.
  destruct (fault k _); cbn [fst snd ret errOf].
  - intros H; inversion H. reflexivity.
  - cbn [links logged]. destruct (byName master (links k)) as [m|];
      [destruct (byIndex _ (links k))|]; cbn [fst snd errOf]; intros H; inversion H; eauto.
Qed.

(** ** The interface table *)

(** The index of a new interface is above every index in use. *)
Lemma freshIndex_above ls l : l ∈ ls -> Index (Attrs l) < freshIndex ls.
Proof.
  unfold freshIndex. induction ls as [|x ls IH]; intros Hl; [inversion Hl|].
  cbn [map fold_right]. apply elem_of_cons in Hl as [-> | Hl]; [lia|].
  specialize (IH Hl). lia.
Qed.

Lemma freshIndex_pos ls : 0 < freshIndex ls.
Proof. unfold freshIndex. induction ls; cbn [map fold_right]; lia. Qed.

Lemma onIndex_other index f ls :
  Forall (fun l => Index (Attrs l) <> index) ls -> onIndex index f ls = ls.
Proof.
  unfold onIndex. induction 1 as [|x ls Hx _ IH]; [reflexivity|].
  cbn [map]. unfold hasIndex at 1. rewrite bool_decide_eq_false_2 by exact Hx. now rewrite IH.
Qed.

Lemma onIndex_fresh f ls : onIndex (freshIndex ls) f ls = ls.
Proof.
  apply onIndex_other, Forall_forall. intros l Hl. pose proof (freshIndex_above ls l Hl). lia.
Qed.

Lemma onIndex_app index f ls ls' :
  onIndex index f (ls ++ ls') = onIndex index f ls ++ onIndex index f ls'.
Proof. unfold onIndex. apply map_app. Qed.

Lemma onIndex_In j g ls v :
  v ∈ ls -> (if hasIndex j v then g v else v) ∈ onIndex j g ls.
Proof.
  intros Hv. unfold onIndex. apply list_elem_of_In, in_map_iff. exists v.
  split; [reflexivity | now apply list_elem_of_In].
Qed.

Lemma byIndex_found index ls l :
  byIndex index ls = Some l -> Index (Attrs l) = index /\ l ∈ ls.
Proof.
  unfold byIndex. intros H. apply find_some in H as [Hin H]. split.
  - unfold hasIndex in H. now apply bool_decide_eq_true in H.
  - now apply list_elem_of_In.
Qed.

Lemma byIndex_app_new index ls c :
  byIndex index ls = None ->
  byIndex index (ls ++ [c]) = if hasIndex index c then Some c else None.
Proof.
  unfold byIndex. induction ls as [|x ls IH]; intros H; [reflexivity|].
  cbn [find app] in *. destruct (hasIndex index x); [discriminate | auto].
Qed.

Lemma byIndex_fresh ls : byIndex (freshIndex ls) ls = None.
Proof.
  unfold byIndex. destruct (find _ ls) as [l|] eqn:Hf; [|reflexivity].
  apply find_some in Hf as [Hin H]. apply list_elem_of_In in Hin.
  apply freshIndex_above in Hin. unfold hasIndex in H. apply bool_decide_eq_true in H. lia.
Qed.

Lemma hasIndex_refl l : hasIndex (Index (Attrs l)) l = true.
Proof. unfold hasIndex. now apply bool_decide_eq_true. Qed.

Lemma hasName_refl l : hasName (Name (Attrs l)) l = true.
Proof. unfold hasName. now apply bool_decide_eq_true. Qed.

Lemma byName_app_old name ls ls' l :
  byName name ls = Some l -> byName name (ls ++ ls') = Some l.
Proof.
  unfold byName. induction ls as [|x ls IH]; [discriminate|].
  cbn [find app]. destruct (hasName name x); auto.
Qed.

Lemma byName_onIndex name index f ls :
  (forall l, Name (Attrs (f l)) = Name (Attrs l)) ->
  byName name (onIndex index f ls)
  = (fun l => if hasIndex index l then f l else l) <$> byName name ls.
Proof.
  intros Hn. unfold onIndex, byName. induction ls as [|x ls IH]; [reflexivity|].
  cbn [map find]. unfold hasName at 1.
  replace (Name (Attrs (if hasIndex index x then f x else x))) with (Name (Attrs x))
    by (destruct (hasIndex index x); [symmetry; apply Hn | reflexivity]).
  fold (hasName name x). destruct (hasName name x); [reflexivity | exact IH].
Qed.

(** ** Addresses *)

Lemma carries_iff index a k :
  carries index a k = true <-> exists x, x ∈ addrs k /\ x.1 = index /\ IPNet_ x.2 = IPNet_ a.
Proof.
  unfold carries. rewrite existsb_exists. split.
  - intros (x & Hx & Hs). exists x. apply list_elem_of_In in Hx. split; [exact Hx|].
    unfold sameNet in Hs. apply andb_true_iff in Hs as [H1 H2].
    apply bool_decide_eq_true in H1, H2. auto.
  - intros (x & Hx & H1 & H2). exists x. split; [now apply list_elem_of_In|].
    unfold sameNet. now rewrite !bool_decide_eq_true_2.
Qed.

Lemma addrsOf_elem index a k :
  a ∈ addrsOf index k <-> (index, a) ∈ addrs k.
Proof.
  unfold addrsOf. rewrite list_elem_of_In, in_map_iff. split.
  - intros ([i a'] & <- & Hx). apply list_elem_of_In, list_elem_of_filter in Hx as [Hi Hx].
    unfold onLink in Hi. apply bool_decide_eq_true in Hi. cbn in Hi. now subst i.
  - intros Hx. exists (index, a). split; [reflexivity|].
    apply list_elem_of_In, list_elem_of_filter. split; [|exact Hx].
    unfold onLink. now apply bool_decide_eq_true.
Qed.

Lemma strings_Contains_EEXIST :
  strings_Contains (Error (SyscallErrno EEXIST)) "file exists" = true.
Proof. reflexivity. Qed.

End KernelRuns.

(* ===================================================================== *)
(** * Further properties of the vlan driver *)
(* ===================================================================== *)

Module VlanFacts.
Import Vlan Stated KernelFacts Effects KernelRuns.

(** ** LoadConf *)

(** X1.  [LoadConf] on a configuration that was read: each of the three
    names that is empty becomes its default (docker for the default
    bridge, docker for the bridge prefix, vlan for the vlan prefix) and
    each that is configured is kept, so all three come out non-empty; the
    device, the switch and the bridge flag are kept, the driver holds the
    result, and loading the result again changes nothing. *)
Theorem LoadConf_completes_names d c :
  exists c',
    LoadConf d (Ok c) = (Ok c', set_conf c' d)
    /\ (Device c', Switch c', DisableDefaultBridge c')
       = (Device c, Switch c, DisableDefaultBridge c)
    /\ DefaultBridgeName c'
       = (if bool_decide (DefaultBridgeName c = "") then "docker" else DefaultBridgeName c)
    /\ BridgeNamePrefix c'
       = (if bool_decide (BridgeNamePrefix c = "") then "docker" else BridgeNamePrefix c)
    /\ VlanNamePrefix c'
       = (if bool_decide (VlanNamePrefix c = "") then "vlan" else VlanNamePrefix c)
    /\ (0 < String.length (DefaultBridgeName c'))%nat
    /\ (0 < String.length (BridgeNamePrefix c'))%nat
    /\ (0 < String.length (VlanNamePrefix c'))%nat
    /\ LoadConf (set_conf c' d) (Ok c') = (Ok c', set_conf c' d).
Proof.
  eexists. split; [reflexivity|]. cbn [Device Switch DisableDefaultBridge DefaultBridgeName
                                        BridgeNamePrefix VlanNamePrefix].
  assert (Hlen : forall s dflt : string, (0 < String.length dflt)%nat ->
            (0 < String.length (if bool_decide (s = "") then dflt else s))%nat).
  { intros s dflt Hd. destruct (decide (s = "")) as [-> | Hne].
    - rewrite bool_decide_eq_true_2 by reflexivity. exact Hd.
    - rewrite bool_decide_eq_false_2 by exact Hne. destruct s; [congruence | cbn; lia]. }
  assert (Hfix : forall s dflt : string, dflt <> "" ->
            (if bool_decide ((if bool_decide (s = "") then dflt else s) = "")
             then dflt else (if bool_decide (s = "") then dflt else s))
            = (if bool_decide (s = "") then dflt else s)).
  { intros s dflt Hd. destruct (decide (s = "")) as [-> | Hne].
    - rewrite (bool_decide_eq_true_2 ("" = "")) by reflexivity.
      rewrite bool_decide_eq_false_2 by exact Hd. reflexivity.
    - rewrite (bool_decide_eq_false_2 (s = "")) by exact Hne.
      rewrite bool_decide_eq_false_2 by exact Hne. reflexivity. }
  split; [reflexivity|]. split; [reflexivity|]. split; [reflexivity|]. split; [reflexivity|].
  split; [apply Hlen; cbn; lia|]. split; [apply Hlen; cbn; lia|].
  split; [apply Hlen; cbn; lia|].
  unfold LoadConf. cbn [Device Switch DisableDefaultBridge DefaultBridgeName
                          BridgeNamePrefix VlanNamePrefix].
  rewrite !Hfix by discriminate. reflexivity.
Qed.

(** ** getOrCreateDevice, getOrCreateBridge *)

(** X2.  Whatever [createDevice] does, [getOrCreateDevice] takes at most
    three steps: the lookup of the name, the creation when that lookup
    fails, and a second lookup when the creation succeeds.  An interface
    it returns bears the name asked for, and is the one the first lookup
    found, or, after a creation without error, the second.  An error it
    returns comes after a failed first lookup and is one of two: "Failed
    to add", the name and the error of the creation, when the creation
    failed; or "Failed to get", the name and the error of the second
    lookup, when that lookup failed.  The kernel is left as the last of
    these steps left it. *)
Theorem getOrCreateDevice_outcomes name createDevice k r k' :
  getOrCreateDevice name createDevice k = (r, k') ->
  let looked := LinkByName name k in
  let made := createDevice name looked.2 in
  let again := LinkByName name made.2 in
  match r with
  | Ok device =>
      Name (Attrs device) = name
      /\ ((looked.1 = Ok device /\ k' = looked.2)
          \/ ((exists e1, looked.1 = Err e1) /\ made.1 = None
              /\ again.1 = Ok device /\ k' = again.2))
  | Err e =>
      (exists e1, looked.1 = Err e1)
      /\ ((exists e2, made.1 = Some e2
                      /\ e = Errorf ("Failed to add " ++ name ++ ": " ++ Error e2)
                      /\ k' = made.2)
          \/ (exists e3, made.1 = None /\ again.1 = Err e3
                         /\ e = Errorf ("Failed to get " ++ name ++ ": " ++ Error e3)
                         /\ k' = again.2))
  end.
Proof.
  unfold getOrCreateDevice. rewrite bind_eq. cbv zeta.
  destruct (LinkByName name k) as [[l|e1] k1] eqn:E1; cbn [fst snd].
  - intros H; inversion H; subst. split; [|left; split; reflexivity].
    apply LinkByName_inv in E1 as [_ Hb]. eapply byName_hasName, Hb. reflexivity.
  - rewrite bind_eq. destruct (createDevice name k1) as [[e2|] k2]; cbn [fst snd].
    + intros H; inversion H; subst. split; [eauto|]. left. exists e2. auto.
    + rewrite bind_eq. destruct (LinkByName name k2) as [[l|e3] k3] eqn:E3; cbn [fst snd].
      * intros H; inversion H; subst. split.
        -- apply LinkByName_inv in E3 as [_ Hb]. eapply byName_hasName, Hb. reflexivity.
        -- right. split; [eauto|]. auto.
      * intros H; inversion H; subst. split; [eauto|]. right. exists e3. auto.
Qed.

(** The creation is made to fail: the error wraps the error of the
    creation. *)
Lemma getOrCreateDevice_outcomes_witness :
  let make := fun _ : string => CreateBridgeDevice "docker" [] in
  let k := Scenario.oneAddr (Scenario.failAt 1 (SyscallErrno EPERM)) in
  let run := getOrCreateDevice "docker" make k in
  let looked := LinkByName "docker" k in
  let made := make "docker" looked.2 in
  let again := LinkByName "docker" made.2 in
  (exists e1, looked.1 = Err e1)
  /\ ((exists e2, made.1 = Some e2
                  /\ Errorf "Failed to add docker: operation not permitted"
                     = Errorf ("Failed to add " ++ "docker" ++ ": " ++ Error e2)
                  /\ run.2 = made.2)
      \/ (exists e3, made.1 = None /\ again.1 = Err e3
                     /\ Errorf "Failed to add docker: operation not permitted"
                        = Errorf ("Failed to get " ++ "docker" ++ ": " ++ Error e3)
                     /\ run.2 = again.2)).
Proof.
  intros make k run looked made again.
  apply (getOrCreateDevice_outcomes "docker" make k
           (Err (Errorf "Failed to add docker: operation not permitted")) run.2).
  vm_compute. reflexivity.
Defined.

(** After a call that succeeded, the interface it returned is the one the
    kernel has under the name. *)
Lemma getOrCreateBridge_found name mac k b k' :
  getOrCreateBridge name mac k = (Ok b, k') -> byName name (links k') = Some b.
Proof.
  unfold getOrCreateBridge, getOrCreateDevice. rewrite bind_eq.
  destruct (LinkByName name k) as [[l|e1] k1] eqn:E1; cbn [fst snd].
  - intros H; inversion H; subst. apply LinkByName_inv in E1 as [-> Hb]. now apply Hb.
  - rewrite !bind_eq. destruct (CreateBridgeDevice name mac k1) as [[e2|] k2]; cbn [fst snd ret].
    + intros H; inversion H.
    + rewrite bind_eq. destruct (LinkByName name k2) as [[l|e3] k3] eqn:E3; cbn [fst snd].
      * intros H; inversion H; subst. apply LinkByName_inv in E3 as [-> Hb]. now apply Hb.
      * intros H; inversion H.
Qed.

Lemma getOrCreateBridge_finds name mac k b :
  faultless k -> byName name (links k) = Some b ->
  getOrCreateBridge name mac k = (Ok b, logged (CLinkByName name) k).
Proof.
  intros Hf Hb. unfold getOrCreateBridge, getOrCreateDevice.
  rewrite bind_eq, VlanSpec.LinkByName_run by apply Hf. rewrite Hb. reflexivity.
Qed.

Lemma getOrCreateBridge_makes name mac k :
  faultless k -> byName name (links k) = None ->
  getOrCreateBridge name mac k
  = (Ok (created (links k) (bridgeIf name mac)),
     set_links (links k ++ [created (links k) (bridgeIf name mac)])
       (logged (CLinkByName name)
          (logged (CCreateBridgeDevice name mac) (logged (CLinkByName name) k)))).
Proof.
  intros Hf Hb. unfold getOrCreateBridge, getOrCreateDevice. rewrite bind_eq.
  rewrite VlanSpec.LinkByName_run by apply Hf. rewrite Hb. simp.
  rewrite !bind_eq. unfold CreateBridgeDevice. rewrite invoke__run by apply Hf.
  fold (bridgeIf name mac). unfold addLink. simp. cbn [bridgeIf Attrs Name]. rewrite Hb.
  simp. rewrite bind_eq, VlanSpec.LinkByName_run by apply Hf. simp.
  rewrite byName_app_new by exact Hb.
  fold (bridgeIf name mac).
  replace (hasName name (created (links k) (bridgeIf name mac))) with true
    by (symmetry; apply (hasName_refl (created (links k) (bridgeIf name mac)))).
  reflexivity.
Qed.

Lemma getOrCreateBridge_keeps name mac k r k' :
  getOrCreateBridge name mac k = (r, k') -> forall l, l ∈ links k -> l ∈ links k'.
Proof.
  unfold getOrCreateBridge, getOrCreateDevice. rewrite bind_eq.
  destruct (LinkByName name k) as [[l|e1] k1] eqn:E1; cbn [fst snd];
    apply LinkByName_inv in E1 as [-> _].
  - intros H; inversion H; subst. auto.
  - rewrite !bind_eq.
    destruct (CreateBridgeDevice name mac _) as [[e2|] k2] eqn:E2; cbn [fst snd ret];
      apply CreateBridgeDevice_inv in E2.
    + intros H; inversion H; subst. auto.
    + destruct E2 as [_ ->]. rewrite bind_eq.
      match goal with |- context [LinkByName ?n ?s] =>
        destruct (LinkByName n s) as [r3 k3] eqn:E3 end.
      apply LinkByName_inv in E3 as [-> _]. cbn [fst snd].
      assert (forall l, l ∈ links k ->
                l ∈ links (logged (CLinkByName name)
                             (set_links (links k ++ [created (links k)
                                {| Attrs := {| Index := 0; Name := name; HardwareAddr := mac;
                                               MasterIndex := 0; ParentIndex := 0;
                                               Up := false |};
                                   Obj := IsBridge |}])
                                (logged (CCreateBridgeDevice name mac)
                                   (logged (CLinkByName name) k)))))
        by (intros l Hl; cbn; apply elem_of_app; now left).
      destruct r3; intros H'; inversion H'; subst; assumption.
Qed.

(** Obtaining the bridge on a kernel that lets every call through. *)
Lemma getOrCreateBridge_faultless name mac k :
  faultless k ->
  exists b k1,
    getOrCreateBridge name mac k = (Ok b, k1)
    /\ faultless k1 /\ addrs k1 = addrs k /\ routes k1 = routes k
    /\ byName name (links k1) = Some b
    /\ (forall n l, byName n (links k) = Some l -> byName n (links k1) = Some l)
    /\ (byName name (links k) = Some b
        \/ Forall (fun l => Index (Attrs l) < Index (Attrs b)) (links k)).
Proof.
  intros Hf. destruct (byName name (links k)) as [b|] eqn:Hb.
  - exists b, (logged (CLinkByName name) k).
    split; [now apply getOrCreateBridge_finds|]. repeat split; auto.
  - do 2 eexists. split; [now apply getOrCreateBridge_makes|]. simp.
    split; [exact Hf|]. do 2 (split; [reflexivity|]). split; [|split].
    + rewrite byName_app_new by exact Hb.
      replace (hasName name (created (links k) (bridgeIf name mac))) with true
        by (symmetry; apply (hasName_refl (created (links k) (bridgeIf name mac)))).
      reflexivity.
    + intros n l. apply byName_app_old.
    + right. apply Forall_forall. intros l Hl. now apply freshIndex_above.
Qed.

(** X3.  Once [getOrCreateBridge] has returned an interface, a second call
    for the same name whose lookup is let through returns the same
    interface after that one lookup: nothing is created again, whatever
    hardware address the second call asks for. *)
Theorem getOrCreateBridge_twice name mac mac' k b1 k1 :
  getOrCreateBridge name mac k = (Ok b1, k1) ->
  fault k1 (length (log k1)) = None ->
  getOrCreateBridge name mac' k1 = (Ok b1, logged (CLinkByName name) k1).
Proof.
  intros H1 Hf. apply getOrCreateBridge_found in H1.
  unfold getOrCreateBridge, getOrCreateDevice.
  rewrite bind_eq, VlanSpec.LinkByName_run by exact Hf. rewrite H1. reflexivity.
Qed.

Lemma getOrCreateBridge_twice_witness :
  let c1 := getOrCreateBridge "docker" [82; 84; 0; 18; 52; 86] Scenario.bareHost in
  getOrCreateBridge "docker" [] c1.2
  = (Ok (created (links Scenario.bareHost) (bridgeIf "docker" [82; 84; 0; 18; 52; 86])),
     logged (CLinkByName "docker") c1.2).
Proof.
  intros c1.
  apply (getOrCreateBridge_twice "docker" [82; 84; 0; 18; 52; 86] [] Scenario.bareHost
           (created (links Scenario.bareHost) (bridgeIf "docker" [82; 84; 0; 18; 52; 86]))
           c1.2).
  - vm_compute. reflexivity.
  - reflexivity.
Defined.

(** X4.  On a kernel that lets every call through [getOrCreateBridge]
    succeeds.  An interface that bears the name is returned as it is,
    after one lookup, whatever its kind and hardware address.  Otherwise
    one bridge is appended to the interface table, with the name, the
    hardware address asked for and a new index, and the calls are lookup,
    creation, lookup; addresses and routes are not touched. *)
Theorem getOrCreateBridge_without_faults name mac k :
  faultless k ->
  match byName name (links k) with
  | Some l => getOrCreateBridge name mac k = (Ok l, logged (CLinkByName name) k)
  | None =>
      exists b k',
        getOrCreateBridge name mac k = (Ok b, k')
        /\ links k' = links k ++ [b]
        /\ (Type_ b, Name (Attrs b), HardwareAddr (Attrs b), Index (Attrs b))
           = ("bridge", name, mac, freshIndex (links k))
        /\ addrs k' = addrs k /\ routes k' = routes k
        /\ log k' = log k ++ obtainCalls name mac true
  end.
Proof.
  intros Hf. destruct (byName name (links k)) as [l|] eqn:Hb.
  - now apply getOrCreateBridge_finds.
  - do 2 eexists. split; [now apply getOrCreateBridge_makes|]. simp.
    rewrite <- !app_assoc. repeat split.
Qed.

Lemma getOrCreateBridge_without_faults_witness :
  match byName "docker" (links Scenario.bareHost) with
  | Some l => getOrCreateBridge "docker" [2; 0; 0; 0; 0; 1] Scenario.bareHost
              = (Ok l, logged (CLinkByName "docker") Scenario.bareHost)
  | None =>
      exists b k',
        getOrCreateBridge "docker" [2; 0; 0; 0; 0; 1] Scenario.bareHost = (Ok b, k')
        /\ links k' = links Scenario.bareHost ++ [b]
        /\ (Type_ b, Name (Attrs b), HardwareAddr (Attrs b), Index (Attrs b))
           = ("bridge", "docker", [2; 0; 0; 0; 0; 1], freshIndex (links Scenario.bareHost))
        /\ addrs k' = addrs Scenario.bareHost /\ routes k' = routes Scenario.bareHost
        /\ log k' = log Scenario.bareHost ++ obtainCalls "docker" [2; 0; 0; 0; 0; 1] true
  end.
Proof.
  apply (getOrCreateBridge_without_faults "docker" [2; 0; 0; 0; 0; 1] Scenario.bareHost).
  intros n. reflexivity.
Defined.

(** ** getVlanIfExist *)

Lemma scanVlan_first p t ls : forall l,
  scanVlan p t ls = (Some l, None) ->
  exists before after,
    ls = before ++ l :: after
    /\ Forall (fun x => isVlanOf p t x = false) before.
Proof.
  induction ls as [|x ls IH]; intros l H; cbn [scanVlan] in H; [discriminate|].
  assert (Hrec : isVlanOf p t x = false -> scanVlan p t ls = (Some l, None) ->
            exists before after,
              x :: ls = before ++ l :: after
              /\ Forall (fun x => isVlanOf p t x = false) before).
  { intros Hx H1. apply IH in H1 as (before & after & -> & Hall).
    exists (x :: before), after. split; [reflexivity|]. now constructor. }
  unfold isVlanOf in Hrec. unfold Type_ in H.
  destruct (Obj x) eqn:Ex; cbn in H; try (apply Hrec; [reflexivity | exact H]).
  - destruct (_ && _) eqn:Em.
    + inversion H; subst. exists [], ls. split; [reflexivity | constructor].
    + apply Hrec; [reflexivity | exact H].
  - destruct (bool_decide _); [discriminate|]. apply Hrec; [reflexivity | exact H].
Qed.

(** X5.  When [getVlanIfExist] returns without error it has made one call,
    the listing.  The interface it returns is a vlan interface with the
    tag on the driver's parent, and the first such in the listing; when it
    returns none, the listing has none. *)
Theorem getVlanIfExist_first_match d vlanId k r k' :
  getVlanIfExist d vlanId k = ((r, None), k') ->
  k' = logged CLinkList k
  /\ match r with
     | Some l =>
         isVlanOf (vlanParentIndex d) vlanId l = true
         /\ exists before after,
              links k = before ++ l :: after
              /\ Forall (fun x => isVlanOf (vlanParentIndex d) vlanId x = false) before
     | None => Forall (fun x => isVlanOf (vlanParentIndex d) vlanId x = false) (links k)
     end.
Proof.
  unfold getVlanIfExist. rewrite bind_eq.
  destruct (LinkList k) as [rl ka] eqn:E0. apply LinkList_inv in E0 as [-> Hrl].
  cbn [fst snd]. destruct Hrl as [-> | [e ->]]; cbn [ret]; [|intros H; inversion H].
  intros H. inversion H as [Hs]. split; [reflexivity|]. cbn [links logged] in Hs.
  destruct r as [l|].
  - split; [apply (scanVlan_Some _ _ _ _ _ Hs) | apply scanVlan_first, Hs].
  - apply Forall_forall. intros x Hx. apply (scanVlan_None _ _ _ Hs). exact Hx.
Qed.

Lemma getVlanIfExist_first_match_witness :
  let k := Scenario.bridgedVlanHost in
  let run := getVlanIfExist (Scenario.onEth1 "") 100 k in
  run.2 = logged CLinkList k
  /\ match Some Scenario.vlan100 with
     | Some l =>
         isVlanOf (vlanParentIndex (Scenario.onEth1 "")) 100 l = true
         /\ exists before after,
              links k = before ++ l :: after
              /\ Forall (fun x => isVlanOf (vlanParentIndex (Scenario.onEth1 "")) 100 x = false)
                   before
     | None => Forall (fun x => isVlanOf (vlanParentIndex (Scenario.onEth1 "")) 100 x = false)
                 (links k)
     end.
Proof.
  intros k run.
  apply (getVlanIfExist_first_match (Scenario.onEth1 "") 100 k (Some Scenario.vlan100) run.2).
  vm_compute. reflexivity.
Defined.

(** X6.  An interface whose kind reads vlan but which the library hands
    out as a [*netlink.GenericLink] stops the scan with an error, when the
    scan gets as far: the vlan interface looked for is not found even
    when the listing has it further down. *)
Theorem getVlanIfExist_foreign_vlan d vlanId k before g post :
  fault k (length (log k)) = None ->
  links k = before ++ g :: post ->
  scanVlan (vlanParentIndex d) vlanId before = (None, None) ->
  Obj g = IsGeneric "vlan" ->
  getVlanIfExist d vlanId k
    = ((None, Some (Errorf "vlan device type case error: *netlink.GenericLink")),
       logged CLinkList k).
Proof.
  intros Hf Hl Hnone Hg. unfold getVlanIfExist, LinkList, invoke.
  rewrite bind_eq, Hf. cbn [fst snd ret links logged]. rewrite Hl. f_equal.
  rewrite scanVlan_app by exact Hnone. cbn [scanVlan].
  unfold Type_, fmt_T. rewrite Hg. reflexivity.
Qed.

Lemma getVlanIfExist_foreign_vlan_witness :
  getVlanIfExist (Scenario.onEth1 "") 100 Cases.opaqueVlanHost
    = ((None, Some (Errorf "vlan device type case error: *netlink.GenericLink")),
       logged CLinkList Cases.opaqueVlanHost).
Proof.
  apply (getVlanIfExist_foreign_vlan (Scenario.onEth1 "") 100 Cases.opaqueVlanHost
           [Scenario.lo; Scenario.eth1] Cases.opaqueVlan [Scenario.vlan100]).
  - reflexivity.
  - reflexivity.
  - reflexivity.
  - reflexivity.
Defined.

(** ** getVlanMaster *)

(** X7.  A master [getVlanMaster] returns is an interface of kind bridge
    that the kernel has under the master index of the link, which is
    positive; the link is a [*netlink.Vlan], no error comes with the
    master, and the one call made is the lookup by that index. *)
Theorem getVlanMaster_bridge_only link k m e k' :
  getVlanMaster link k = ((Some m, e), k') ->
  e = None
  /\ Type_ m = "bridge"
  /\ 0 < MasterIndex (Attrs link)
  /\ Index (Attrs m) = MasterIndex (Attrs link) /\ m ∈ links k
  /\ (exists id, Obj link = IsVlan id)
  /\ k' = logged (CLinkByIndex (MasterIndex (Attrs link))) k.
Proof.
  unfold getVlanMaster. destruct (Obj link) as [| |id|t]; try (intros H; now inversion H).
  destruct (bool_decide (MasterIndex (Attrs link) <= 0)) eqn:Em; [intros H; now inversion H|].
  apply bool_decide_eq_false in Em. rewrite bind_eq.
  unfold LinkByIndex, invoke. destruct (fault k _); cbn [fst snd]; [intros H; now inversion H|].
  cbn [links logged].
  destruct (byIndex _ (links k)) as [x|] eqn:Hb; cbn [fst snd]; [|intros H; now inversion H].
  destruct (bool_decide (Type_ x = "bridge")) eqn:Et; intros H; inversion H; subst.
  apply bool_decide_eq_true in Et. apply byIndex_found in Hb as [Hi Hin].
  repeat split; auto; try lia. eauto.
Qed.

Lemma getVlanMaster_bridge_only_witness :
  let k := Scenario.bridgedVlanHost in
  @None error = None
  /\ Type_ Scenario.docker100 = "bridge"
  /\ 0 < MasterIndex (Attrs Scenario.vlan100)
  /\ Index (Attrs Scenario.docker100) = MasterIndex (Attrs Scenario.vlan100)
  /\ Scenario.docker100 ∈ links k
  /\ (exists id, Obj Scenario.vlan100 = IsVlan id)
  /\ (getVlanMaster Scenario.vlan100 k).2
     = logged (CLinkByIndex (MasterIndex (Attrs Scenario.vlan100))) k.
Proof.
  intros k.
  apply (getVlanMaster_bridge_only Scenario.vlan100 k Scenario.docker100 None
           (getVlanMaster Scenario.vlan100 k).2).
  vm_compute. reflexivity.
Defined.

(** X8.  A vlan interface that is a port of something that is no bridge
    counts as having no master: [getVlanMaster] returns neither a master
    nor an error. *)
Theorem getVlanMaster_foreign_master link k id m :
  Obj link = IsVlan id ->
  fault k (length (log k)) = None ->
  0 < MasterIndex (Attrs link) ->
  byIndex (MasterIndex (Attrs link)) (links k) = Some m ->
  Type_ m <> "bridge" ->
  getVlanMaster link k
    = ((None, None), logged (CLinkByIndex (MasterIndex (Attrs link))) k).
Proof.
  intros Ho Hf Hm Hb Ht. unfold getVlanMaster. rewrite Ho.
  rewrite bool_decide_eq_false_2 by lia. rewrite bind_eq.
  unfold LinkByIndex, invoke. rewrite Hf. cbn [links logged fst snd]. rewrite Hb.
  cbn [fst snd]. rewrite bool_decide_eq_false_2 by exact Ht. reflexivity.
Qed.

Lemma getVlanMaster_foreign_master_witness :
  getVlanMaster Cases.vlan100OfEth0 Cases.foreignMasterHost
    = ((None, None),
       logged (CLinkByIndex (MasterIndex (Attrs Cases.vlan100OfEth0))) Cases.foreignMasterHost).
Proof.
  apply (getVlanMaster_foreign_master Cases.vlan100OfEth0 Cases.foreignMasterHost 100
           Scenario.eth0).
  - reflexivity.
  - reflexivity.
  - reflexivity.
  - reflexivity.
  - vm_compute. discriminate.
Defined.

Lemma getVlanMaster_inv link k m e k' :
  getVlanMaster link k = ((m, e), k') ->
  links k' = links k
  /\ forall m0, m = Some m0 ->
       e = None /\ Type_ m0 = "bridge" /\ 0 < MasterIndex (Attrs link)
       /\ Index (Attrs m0) = MasterIndex (Attrs link) /\ m0 ∈ links k
       /\ (exists id, Obj link = IsVlan id)
       /\ k' = logged (CLinkByIndex (MasterIndex (Attrs link))) k.
Proof.
  unfold getVlanMaster. destruct (Obj link) as [| |id|t];
    try (intros H; inversion H; split; [reflexivity | discriminate]).
  destruct (bool_decide (MasterIndex (Attrs link) <= 0)) eqn:Em;
    [intros H; inversion H; split; [reflexivity | discriminate]|].
  apply bool_decide_eq_false in Em. rewrite bind_eq.
  unfold LinkByIndex, invoke. destruct (fault k _); cbn [fst snd];
    [intros H; inversion H; split; [reflexivity | discriminate]|].
  cbn [links logged].
  destruct (byIndex _ (links k)) as [x|] eqn:Hb; cbn [fst snd];
    [|intros H; inversion H; split; [reflexivity | discriminate]].
  destruct (bool_decide (Type_ x = "bridge")) eqn:Et; intros H; inversion H; subst;
    (split; [reflexivity|]); [|discriminate].
  intros m0 [= <-].
  apply bool_decide_eq_true in Et. apply byIndex_found in Hb as [Hi Hin].
  repeat split; auto; try lia. eauto.
Qed.

(** ** getOrCreateVlanDevice *)

(** The new vlan interface of a tag: what [getOrCreateVlanDevice] makes
    when neither the scan nor the name finds one, on a kernel that lets
    every call through. *)
Lemma getOrCreateVlanDevice_makes d vlanId k :
  faultless k ->
  scanVlan (vlanParentIndex d) vlanId (links k) = (None, None) ->
  byName (vlanIfName d vlanId) (links k) = None ->
  let v := created (links k) (vlanIf (vlanParentIndex d) (vlanIfName d vlanId) vlanId) in
  exists k',
    getOrCreateVlanDevice d vlanId k = ((Some v, None, set_DeviceIndex (Index (Attrs v)) d), k')
    /\ links k' = links k ++ [setUp v]
    /\ isVlanOf (vlanParentIndex d) vlanId (setUp v) = true
    /\ Name (Attrs v) = VlanNamePrefix (conf d) +:+ fmt_uint vlanId
    /\ Forall (fun l => Index (Attrs l) < Index (Attrs v)) (links k)
    /\ addrs k' = addrs k /\ routes k' = routes k /\ sysctl k' = sysctl k
    /\ log k' = log k ++ [CLinkList; CLinkByName (vlanIfName d vlanId);
                          CLinkAdd (vlanIf (vlanParentIndex d) (vlanIfName d vlanId) vlanId);
                          CLinkByName (vlanIfName d vlanId); CLinkSetUp (Index (Attrs v))]
    /\ faultless k'.
Proof.
  intros Hf Hscan Hname v.
  unfold getOrCreateVlanDevice, getVlanIfExist, LinkList. rewrite !bind_eq.
  rewrite invoke_run by apply Hf. simp. rewrite Hscan. simp.
  fold (vlanIfName d vlanId).
  fold (vlanIf (vlanParentIndex d) (vlanIfName d vlanId) vlanId).
  unfold getOrCreateDevice. rewrite !bind_eq.
  rewrite VlanSpec.LinkByName_run by apply Hf. simp. rewrite Hname. simp.
  rewrite !bind_eq. unfold LinkAdd. rewrite invoke__run by apply Hf.
  unfold addLink. simp. cbn [vlanIf Attrs Name]. rewrite Hname. simp.
  rewrite bind_eq.
  rewrite VlanSpec.LinkByName_run by apply Hf. simp.
  rewrite byName_app_new by exact Hname.
  fold (vlanIf (vlanParentIndex d) (vlanIfName d vlanId) vlanId). fold v.
  replace (hasName (vlanIfName d vlanId) v) with true
    by (symmetry; apply (hasName_refl v)).
  simp. rewrite bind_eq. unfold LinkSetUp. rewrite invoke__run by apply Hf.
  simp.
  rewrite byIndex_app_new by apply byIndex_fresh.
  replace (hasIndex (Index (Attrs v)) v) with true by (symmetry; apply hasIndex_refl).
  simp.
  eexists. split; [reflexivity|]. simp.
  repeat split.
  - rewrite onIndex_app. change (Index (Attrs v)) with (freshIndex (links k)).
    rewrite onIndex_fresh. unfold onIndex. cbn [map].
    change (freshIndex (links k)) with (Index (Attrs v)). now rewrite hasIndex_refl.
  - unfold isVlanOf. cbn. rewrite !bool_decide_eq_true_2; reflexivity.
  - apply Forall_forall. intros l Hl. now apply freshIndex_above.
  - rewrite <- !app_assoc. reflexivity.
  - exact Hf.
Qed.

(** X9.  On a kernel that lets every call through, with no vlan interface
    of the tag on the parent and no interface of the name: the call
    appends one interface to the table, up, with a new index, which the
    driver records as its device index.  A later scan finds it, and so
    does a lookup of the name; one call of the five creates, and no
    address, route or kernel parameter changes. *)
Theorem getOrCreateVlanDevice_creates d vlanId k :
  faultless k ->
  scanVlan (vlanParentIndex d) vlanId (links k) = (None, None) ->
  byName (vlanIfName d vlanId) (links k) = None ->
  exists v k',
    getOrCreateVlanDevice d vlanId k = ((Some v, None, set_DeviceIndex (Index (Attrs v)) d), k')
    /\ links k' = links k ++ [setUp v]
    /\ scanVlan (vlanParentIndex d) vlanId (links k') = (Some (setUp v), None)
    /\ byName (vlanIfName d vlanId) (links k') = Some (setUp v)
    /\ Forall (fun l => Index (Attrs l) < Index (Attrs v)) (links k)
    /\ (addrs k', routes k', sysctl k') = (addrs k, routes k, sysctl k)
    /\ length (callsSince k k') = 5%nat
    /\ length (filter (fun c => creating c = true) (callsSince k k')) = 1%nat.
Proof.
  intros Hf Hscan Hname.
  destruct (getOrCreateVlanDevice_makes d vlanId k Hf Hscan Hname)
    as (k' & Hrun & Hl & Hv & Hn & Hlt & Ha & Hr & Hs & Hlog & _).
  set (v := created (links k) (vlanIf (vlanParentIndex d) (vlanIfName d vlanId) vlanId)) in *.
  exists v, k'. split; [exact Hrun|]. split; [exact Hl|].
  rewrite Hl. split; [|split; [|split; [exact Hlt|split; [congruence|]]]].
  - rewrite scanVlan_app by exact Hscan. now apply VlanSpec.scanVlan_one.
  - rewrite byName_app_new by exact Hname.
    change (vlanIfName d vlanId) with (Name (Attrs (setUp v))). now rewrite hasName_refl.
  - unfold callsSince. rewrite Hlog, drop_app_length. split; reflexivity.
Qed.

Lemma getOrCreateVlanDevice_creates_witness :
  let d := Scenario.onEth1 "" in
  let k := Scenario.bareHost in
  exists v k',
    getOrCreateVlanDevice d 100 k = ((Some v, None, set_DeviceIndex (Index (Attrs v)) d), k')
    /\ links k' = links k ++ [setUp v]
    /\ scanVlan (vlanParentIndex d) 100 (links k') = (Some (setUp v), None)
    /\ byName (vlanIfName d 100) (links k') = Some (setUp v)
    /\ Forall (fun l => Index (Attrs l) < Index (Attrs v)) (links k)
    /\ (addrs k', routes k', sysctl k') = (addrs k, routes k, sysctl k)
    /\ length (callsSince k k') = 5%nat
    /\ length (filter (fun c => creating c = true) (callsSince k k')) = 1%nat.
Proof.
  intros d k. apply (getOrCreateVlanDevice_creates d 100 k).
  - intros n. reflexivity.
  - reflexivity.
  - reflexivity.
Defined.

(** ** CreateBridgeAndVlanDevice *)

Lemma BridgeNameForVlan_tagged d vlanId :
  vlanId <> 0%N -> BridgeNameForVlan d vlanId = BridgeNamePrefix (conf d) +:+ fmt_uint vlanId.
Proof.
  intros H. unfold BridgeNameForVlan.
  rewrite (bool_decide_eq_false_2 (vlanId = 0%N)) by exact H.
  rewrite (bool_decide_eq_true_2 (vlanId <> 0%N)) by exact H. reflexivity.
Qed.

(** X10.  Provisioning a tag other than 0 on a kernel that lets every call
    through, when the scan finds no vlan interface of the tag, no
    interface bears the name of the tag's vlan interface or the name of
    its bridge, and these two names differ (the vlan prefix is not the
    bridge prefix): the call returns the name [BridgeNameForVlan] gives,
    and has appended the vlan interface and the bridge to the interface
    table, in this order, both up, the vlan interface a port of the
    bridge.  Addresses and routes are as before; the kernel parameters
    too, but for proxy-ARP on the bridge in pure mode. *)
Theorem CreateBridgeAndVlanDevice_provisions d vlanId k :
  faultless k ->
  vlanId <> 0%N ->
  scanVlan (vlanParentIndex d) vlanId (links k) = (None, None) ->
  byName (vlanIfName d vlanId) (links k) = None ->
  byName (BridgeNameForVlan d vlanId) (links k) = None ->
  vlanIfName d vlanId <> BridgeNameForVlan d vlanId ->
  exists v b k',
    CreateBridgeAndVlanDevice d vlanId k
    = ((BridgeNameForVlan d vlanId, None, set_DeviceIndex (Index (Attrs v)) d), k')
    /\ links k' = links k ++ [v; b]
    /\ isVlanOf (vlanParentIndex d) vlanId v = true
    /\ (Name (Attrs v), MasterIndex (Attrs v), Up (Attrs v))
       = (vlanIfName d vlanId, Index (Attrs b), true)
    /\ (Type_ b, Name (Attrs b), MasterIndex (Attrs b), Up (Attrs b))
       = ("bridge", BridgeNameForVlan d vlanId, 0, true)
    /\ Forall (fun l => Index (Attrs l) < Index (Attrs v)) (links k)
    /\ Index (Attrs v) < Index (Attrs b)
    /\ addrs k' = addrs k /\ routes k' = routes k
    /\ sysctl k' = (if PureMode d
                    then <[proxyArpKey (BridgeNameForVlan d vlanId) := "1"]> (sysctl k)
                    else sysctl k).
Proof.
  intros Hf Ht Hscan Hv Hb Hne.
  rewrite (BridgeNameForVlan_tagged d vlanId Ht) in *.
  set (bn := BridgeNamePrefix (conf d) +:+ fmt_uint vlanId) in *.
  destruct (getOrCreateVlanDevice_makes d vlanId k Hf Hscan Hv)
    as (k1 & Hrun & Hl1 & Hvl & Hn & Hlt & Ha1 & Hr1 & Hs1 & _ & Hf1).
  set (v0 := created (links k) (vlanIf (vlanParentIndex d) (vlanIfName d vlanId) vlanId)) in *.
  assert (Hb1 : byName bn (links k1) = None).
  { rewrite Hl1, byName_app_new by exact Hb. unfold hasName.
    rewrite bool_decide_eq_false_2; [reflexivity|]. cbn. congruence. }
  set (b0 := created (links k1) (bridgeIf bn [])).
  assert (Hvb : Index (Attrs v0) < Index (Attrs b0)).
  { change (Index (Attrs b0)) with (freshIndex (links k1)).
    change (Index (Attrs v0)) with (Index (Attrs (setUp v0))).
    apply freshIndex_above. rewrite Hl1. set_solver. }
  set (v1 := setMaster (Index (Attrs b0)) (setUp v0)).
  exists v1, (setUp b0).
  unfold CreateBridgeAndVlanDevice.
  rewrite bool_decide_eq_false_2 by exact Ht.
  rewrite (bind_run _ _ _ _ _ Hrun). cbv beta iota.
  assert (HM : getVlanMaster v0 k1 = ((None, None), k1)).
  { unfold getVlanMaster. cbn [v0 created vlanIf Obj Attrs MasterIndex].
    now rewrite bool_decide_eq_true_2 by lia. }
  rewrite (bind_run _ _ _ _ _ HM). cbv beta iota.
  change (conf (set_DeviceIndex (Index (Attrs v0)) d)) with (conf d). fold bn.
  rewrite (bind_run _ _ _ _ _ (getOrCreateBridge_makes bn [] k1 Hf1 Hb1)). fold b0.
  cbv beta iota.
  set (k2 := set_links _ _).
  assert (Hf2 : faultless k2) by exact Hf1.
  rewrite (bool_decide_eq_true_2 (MasterIndex (Attrs v0) <> Index (Attrs b0)))
    by (pose proof (freshIndex_pos (links k1)); cbn; lia).
  assert (HSM : LinkSetMaster v0 bn k2
                = (None, set_links (links k ++ [v1; b0])
                           (logged (CLinkSetMaster (Index (Attrs v0)) bn) k2))).
  { unfold LinkSetMaster. rewrite invoke__run by apply Hf2. simp.
    change (links k2) with (links k1 ++ [b0]).
    rewrite byName_app_new by exact Hb1.
    replace (hasName bn b0) with true by (symmetry; apply (hasName_refl b0)).
    destruct (byIndex_is_Some (Index (Attrs v0)) (links k1 ++ [b0]) (setUp v0)) as [x Hx];
      [rewrite Hl1; set_solver | reflexivity |].
    rewrite Hx. simp. do 2 f_equal.
    rewrite Hl1, !onIndex_app. change (Index (Attrs v0)) with (freshIndex (links k)) at 1.
    rewrite onIndex_fresh. rewrite <- app_assoc. f_equal.
    unfold onIndex. cbn [map app]. unfold hasIndex.
    rewrite bool_decide_eq_true_2 by reflexivity.
    rewrite bool_decide_eq_false_2; [reflexivity|]. cbn in Hvb |- *. lia. }
  rewrite bind_eq, (bind_run _ _ _ _ _ HSM). simp.
  set (k3 := set_links _ _).
  assert (Hf3 : faultless k3) by exact Hf1.
  assert (HSU : LinkSetUp b0 k3
                = (None, set_links (links k ++ [v1; setUp b0])
                           (logged (CLinkSetUp (Index (Attrs b0))) k3))).
  { unfold LinkSetUp. rewrite invoke__run by apply Hf3. simp.
    change (links k3) with (links k ++ [v1; b0]).
    destruct (byIndex_is_Some (Index (Attrs b0)) (links k ++ [v1; b0]) b0) as [y Hy];
      [set_solver | reflexivity |].
    rewrite Hy. simp. do 2 f_equal.
    rewrite onIndex_app. rewrite (onIndex_other _ _ (links k)).
    - f_equal. unfold onIndex. cbn [map]. unfold hasIndex.
      rewrite bool_decide_eq_false_2 by (cbn in Hvb |- *; lia).
      rewrite bool_decide_eq_true_2 by reflexivity. reflexivity.
    - eapply Forall_impl; [exact Hlt|]. cbn beta. intros l Hl. fold v0 in Hl. lia. }
  rewrite (bind_run _ _ _ _ _ HSU). cbv beta iota.
  set (k4 := set_links _ _).
  change (PureMode (set_DeviceIndex (Index (Attrs v0)) d)) with (PureMode d).
  destruct (PureMode d) eqn:Hp.
  - rewrite bind_eq. unfold SetProxyArp. rewrite invoke__run by apply Hf1.
    unfold sysctlSet. simp. eexists. split; [reflexivity|]. subst k4 k3 k2. simp.
    rewrite Hs1, Ha1, Hr1. repeat split; solve [assumption | reflexivity].
  - simp. eexists. split; [reflexivity|]. subst k4 k3 k2. simp.
    rewrite Hs1, Ha1, Hr1. repeat split; solve [assumption | reflexivity].
Qed.

Lemma CreateBridgeAndVlanDevice_provisions_witness :
  let d := Scenario.onEth1 "pure" in
  let k := Scenario.bareHost in
  exists v b k',
    CreateBridgeAndVlanDevice d 100 k
    = ((BridgeNameForVlan d 100, None, set_DeviceIndex (Index (Attrs v)) d), k')
    /\ links k' = links k ++ [v; b]
    /\ isVlanOf (vlanParentIndex d) 100 v = true
    /\ (Name (Attrs v), MasterIndex (Attrs v), Up (Attrs v))
       = (vlanIfName d 100, Index (Attrs b), true)
    /\ (Type_ b, Name (Attrs b), MasterIndex (Attrs b), Up (Attrs b))
       = ("bridge", BridgeNameForVlan d 100, 0, true)
    /\ Forall (fun l => Index (Attrs l) < Index (Attrs v)) (links k)
    /\ Index (Attrs v) < Index (Attrs b)
    /\ addrs k' = addrs k /\ routes k' = routes k
    /\ sysctl k' = (if PureMode d
                    then <[proxyArpKey (BridgeNameForVlan d 100) := "1"]> (sysctl k)
                    else sysctl k).
Proof.
  intros d k. apply (CreateBridgeAndVlanDevice_provisions d 100 k).
  - intros n. reflexivity.
  - discriminate.
  - reflexivity.
  - reflexivity.
  - reflexivity.
  - vm_compute. discriminate.
Defined.

Lemma portOf_up k v b j ls' :
  ls' = onIndex j setUp (links k) ->
  portOf k v b -> forall k', links k' = ls' -> portOf k' v b.
Proof.
  intros -> (v' & b' & Hv & Hb & H1 & H2 & H3 & H4) k' Hl.
  exists (upIf j v'), (upIf j b'). rewrite Hl.
  destruct (upIf_same j v') as (_ & ? & _ & _ & ?).
  destruct (upIf_same j b') as (_ & ? & ? & _ & _).
  repeat split; try congruence; apply (onIndex_In j setUp); assumption.
Qed.

Lemma Obtained_In p name t k l k' :
  Obtained p name t k l k' ->
  exists v, v ∈ links k' /\ Index (Attrs v) = Index (Attrs l)
            /\ MasterIndex (Attrs v) = MasterIndex (Attrs l).
Proof.
  intros [Hs Hl _ | Hs Hb Hl _ | Hs Hb -> Hl _].
  - apply scanVlan_Some in Hs as (_ & Hin & _). exists l. rewrite Hl. auto.
  - apply byName_In in Hb. exists (upIf (Index (Attrs l)) l). rewrite Hl.
    destruct (upIf_same (Index (Attrs l)) l) as (_ & ? & _ & _ & ?).
    split; [now apply (onIndex_In _ setUp)|]. auto.
  - set (l := created _ _) in *. exists (upIf (Index (Attrs l)) l). rewrite Hl.
    destruct (upIf_same (Index (Attrs l)) l) as (_ & ? & _ & _ & ?).
    split; [|auto]. apply (onIndex_In _ setUp). apply elem_of_app. right.
    now apply list_elem_of_singleton.
Qed.

(** X11.  A call of [CreateBridgeAndVlanDevice] for a tag that returned no
    error, whatever the kernel did to the calls on the way: the kernel has
    an interface with the index the driver recorded as its device index,
    and it is a port of an interface that bears the name the call
    returned.  The configuration and the parent index of the driver are
    as they were. *)
Theorem CreateBridgeAndVlanDevice_enslaves d vlanId k name d' k' :
  vlanId <> 0%N ->
  CreateBridgeAndVlanDevice d vlanId k = ((name, None, d'), k') ->
  (exists vlan bridge,
     vlan ∈ links k' /\ bridge ∈ links k'
     /\ Index (Attrs vlan) = DeviceIndex d'
     /\ MasterIndex (Attrs vlan) = Index (Attrs bridge)
     /\ Name (Attrs bridge) = name)
  /\ conf d' = conf d /\ vlanParentIndex d' = vlanParentIndex d.
Proof.
  intros Ht. unfold CreateBridgeAndVlanDevice.
  rewrite bool_decide_eq_false_2 by exact Ht. rewrite bind_eq.
  destruct (getOrCreateVlanDevice d vlanId k) as [[[r e1] d1] k1] eqn:E1. cbn [fst snd].
  destruct e1 as [e1|]; [discriminate|].
  apply VlanSpec.getOrCreateVlanDevice_inv in E1 as (l & -> & -> & Hob).
  apply Obtained_In in Hob as (v1 & Hv1 & Hi1 & Hm1).
  rewrite bind_eq.
  destruct (getVlanMaster l k1) as [[m e2] k2] eqn:E2. cbn [fst snd].
  apply getVlanMaster_inv in E2 as [Hl2 Hm].
  destruct e2 as [e2|]; [discriminate|].
  destruct m as [m|].
  { destruct (Hm m eq_refl) as (_ & _ & _ & Hi & Hin & _ & _).
    cbn [ret]. intros H; inversion H; subst. split; [|split; reflexivity].
    exists v1, m. rewrite Hl2. repeat split; auto. congruence. }
  clear Hm. rewrite <- Hl2 in Hv1. cbn [conf set_DeviceIndex].
  set (bn := BridgeNamePrefix (conf d) +:+ fmt_uint vlanId).
  set (d1 := set_DeviceIndex (Index (Attrs l)) d).
  rewrite bind_eq.
  destruct (getOrCreateBridge bn [] k2) as [[bridge|e3] k3] eqn:E3; cbn [fst snd];
    [|discriminate].
  pose proof (getOrCreateBridge_keeps _ _ _ _ _ E3 v1 Hv1) as Hv3.
  pose proof (getOrCreateBridge_found _ _ _ _ _ E3) as Hb3.
  assert (Hn3 : Name (Attrs bridge) = bn) by (eapply byName_hasName; exact Hb3).
  rewrite !bind_eq.
  assert (Hport : forall k4,
            (if bool_decide (MasterIndex (Attrs l) <> Index (Attrs bridge))
             then e <- LinkSetMaster l bn ;;
                  match e with
                  | Some e0 => ret (Some (Errorf ("Failed to add vlan device "
                                 +:+ Name (Attrs l) +:+ " to bridge device " +:+ bn +:+ ": "
                                 +:+ Error e0)))
                  | None => ret None
                  end
             else ret None) k3 = (None, k4) ->
            portOf k4 l bridge).
  { intros k4. destruct (bool_decide (MasterIndex (Attrs l) <> Index (Attrs bridge))) eqn:Eb.
    - rewrite bind_eq. destruct (LinkSetMaster l bn k3) as [[e4|] k4'] eqn:E4;
        cbn [fst snd ret]; [discriminate|].
      apply LinkSetMaster_inv in E4 as (m & Hbm & ->). intros [= <-].
      rewrite Hb3 in Hbm. injection Hbm as <-.
      exists (setMaster (Index (Attrs bridge)) v1),
             (if hasIndex (Index (Attrs l)) bridge
              then setMaster (Index (Attrs bridge)) bridge else bridge).
      cbn [links set_links logged]. repeat split.
      + pose proof (onIndex_In (Index (Attrs l)) (setMaster (Index (Attrs bridge)))
                      (links k3) v1 Hv3) as Hin.
        unfold hasIndex in Hin at 1. rewrite bool_decide_eq_true_2 in Hin by exact Hi1.
        exact Hin.
      + apply onIndex_In. now apply byName_In in Hb3.
      + exact Hi1.
      + destruct (hasIndex _ bridge); reflexivity.
      + destruct (hasIndex _ bridge); reflexivity.
    - apply bool_decide_eq_false in Eb. cbn [ret]. intros [= <-].
      exists v1, bridge. repeat split; auto.
      + now apply byName_In in Hb3.
      + destruct (decide (MasterIndex (Attrs l) = Index (Attrs bridge))); [congruence|].
        exfalso. apply Eb. assumption. }
  match goal with
  | |- context [(if ?c then ?a else ?b) k3] =>
      destruct ((if c then a else b) k3) as [[e4|] k4] eqn:E4
  end; cbn [fst snd ret]; [discriminate|].
  clear E4. pose proof (Hport _ eq_refl) as E4. clear Hport.
  rewrite bind_eq. destruct (LinkSetUp bridge k4) as [[e5|] k5] eqn:E5; cbn [fst snd ret];
    [discriminate|].
  apply LinkSetUp_inv in E5.
  assert (H5 : portOf k5 l bridge).
  { eapply portOf_up; [reflexivity | exact E4 | subst k5; reflexivity]. }
  change (PureMode d1) with (PureMode d).
  assert (Hfin : forall k6, links k6 = links k5 ->
            (exists vlan br,
               vlan ∈ links k6 /\ br ∈ links k6
               /\ Index (Attrs vlan) = DeviceIndex d1
               /\ MasterIndex (Attrs vlan) = Index (Attrs br)
               /\ Name (Attrs br) = bn)
            /\ conf d1 = conf d /\ vlanParentIndex d1 = vlanParentIndex d).
  { intros k6 Hl6. split; [|split; reflexivity].
    destruct H5 as (v' & b' & ? & ? & ? & ? & ? & ?). exists v', b'. rewrite Hl6.
    repeat split; auto; congruence. }
  destruct (PureMode d).
  - rewrite bind_eq.
    pose proof (invoke__keeps links (CSetProxyArp bn)
                  (sysctlSet ("net.ipv4.conf." +:+ bn +:+ ".proxy_arp") "1") k5
                  (fun _ _ => eq_refl) (fun _ => eq_refl)) as Hl6.
    fold (SetProxyArp bn) in Hl6.
    destruct (SetProxyArp bn k5) as [[e6|] k6]; cbn [fst snd ret] in *; [discriminate|].
    intros H; inversion H; subst. now apply Hfin.
  - intros H; inversion H; subst. now apply Hfin.
Qed.

Lemma CreateBridgeAndVlanDevice_enslaves_witness :
  let d := Scenario.onEth1 "" in
  let run := CreateBridgeAndVlanDevice d 100 Scenario.bareHost in
  (exists vlan bridge,
     vlan ∈ links run.2 /\ bridge ∈ links run.2
     /\ Index (Attrs vlan) = DeviceIndex run.1.2
     /\ MasterIndex (Attrs vlan) = Index (Attrs bridge)
     /\ Name (Attrs bridge) = "docker100")
  /\ conf run.1.2 = conf d /\ vlanParentIndex run.1.2 = vlanParentIndex d.
Proof.
  intros d run.
  apply (CreateBridgeAndVlanDevice_enslaves d 100 Scenario.bareHost "docker100" run.1.2 run.2).
  - discriminate.
  - vm_compute. reflexivity.
Defined.

(** ** Init *)

(** X12.  In macvlan and ipvlan mode, and in bridge mode with the default
    bridge disabled, [Init] looks the device up and makes no other call;
    it fails only when the lookup does. *)
Theorem Init_lookup_only lv d k :
  MacVlanMode d || IPVlanMode d
  || (negb (PureMode d) && bool_decide (DisableDefaultBridge (conf d) = Some true)) = true ->
  (Init lv d k).2 = logged (CLinkByName (Device (conf d))) k
  /\ ((Init lv d k).1.1 = None <->
      exists device, (LinkByName (Device (conf d)) k).1 = Ok device).
Proof.
  intros Hm. unfold Init. rewrite bind_eq.
  destruct (LinkByName (Device (conf d)) k) as [r k1] eqn:E.
  apply LinkByName_inv in E as [-> _]. cbn [fst snd].
  destruct r as [device|e]; cbn [ret fst snd].
  - set (d' := if bool_decide (Type_ device = "vlan") then _ else _).
    assert (Hc : conf d' = conf d) by (subst d'; destruct (bool_decide (Type_ device = "vlan")); reflexivity).
    unfold MacVlanMode, IPVlanMode, PureMode in *. rewrite !Hc.
    destruct (bool_decide (Switch (conf d) = "macvlan")); cbn [orb ret fst snd];
      [split; [reflexivity | split; eauto]|].
    destruct (bool_decide (Switch (conf d) = "ipvlan")); cbn [orb ret fst snd];
      [split; [reflexivity | split; eauto]|].
    cbn [orb] in Hm. apply andb_true_iff in Hm as [Hp Hd].
    apply negb_true_iff in Hp. rewrite Hp, Hd. cbn [ret fst snd].
    split; [reflexivity | split; eauto].
  - split; [reflexivity|]. split; [discriminate | intros [? ?]; discriminate].
Qed.

Lemma Init_lookup_only_witness :
  let d := Scenario.driver "eth1" "macvlan" in
  let k := Scenario.oneAddr Scenario.noFault in
  (Init PerLoop d k).2 = logged (CLinkByName (Device (conf d))) k
  /\ ((Init PerLoop d k).1.1 = None <->
      exists device, (LinkByName (Device (conf d)) k).1 = Ok device).
Proof.
  intros d k. apply (Init_lookup_only PerLoop d k). reflexivity.
Defined.

Ltac nextCall k F :=
  rewrite ?bind_eq, ?sysctl_run; simp; rewrite ?length_app; cbn [length];
  match goal with
  | |- context [fault k ?n] => destruct (fault k n) eqn:F
  end; simp.

Ltac stopped n F :=
  let H := fresh "H" in
  intros H; inversion H; subst; simp; repeat split; exists n; cbn [take fst];
  repeat split; [lia | now rewrite <- ?app_assoc |]; right;
  rewrite <- F; f_equal; lia.

(** X13.  Pure mode: after the lookup of the device [Init] sets four
    kernel parameters, in a fixed order, stops at the first call that
    fails and returns the error of that call as it is; no interface,
    address or route is touched.  When it succeeds all five calls were
    made and the four parameters are set. *)
Theorem Init_pure_mode lv d k r k' :
  PureMode d = true ->
  Init lv d k = (r, k') ->
  links k' = links k /\ addrs k' = addrs k /\ routes k' = routes k
  /\ exists n,
       (0 < n)%nat
       /\ log k' = log k ++ take n (pureCalls (Device (conf d)))
       /\ match r.1 with
          | None =>
              n = 5%nat
              /\ sysctl k' = <["net.ipv4.ip_nonlocal_bind" := "1"]>
                               (<[proxyArpKey (Device (conf d)) := "1"]>
                                  (<[arpIgnoreKey (Device (conf d)) := "0"]>
                                     (<[arpIgnoreKey "all" := "0"]> (sysctl k))))
          | Some e => n = 1%nat \/ fault k (length (log k) + n - 1)%nat = Some e
          end.
Proof.
  intros Hp. unfold Init. rewrite bind_eq.
  destruct (LinkByName (Device (conf d)) k) as [r0 k1] eqn:E.
  apply LinkByName_inv in E as [-> _]. cbn [fst snd].
  destruct r0 as [device|e]; cbn [ret fst snd].
  2:{ intros H; inversion H; subst. simp. repeat split. exists 1%nat. cbn. auto. }
  set (d' := if bool_decide (Type_ device = "vlan") then _ else _).
  assert (Hc : conf d' = conf d) by (subst d'; destruct (bool_decide (Type_ device = "vlan")); reflexivity).
  unfold MacVlanMode, IPVlanMode, PureMode in *. rewrite !Hc.
  apply bool_decide_eq_true in Hp. rewrite Hp.
  cbn [bool_decide decide_rel orb]. rewrite bool_decide_eq_false_2 by discriminate.
  rewrite bool_decide_eq_false_2 by discriminate.
  rewrite bool_decide_eq_true_2 by reflexivity. cbn [orb].
  rewrite bind_eq. unfold pureSetup. rewrite !Hc.
  unfold UnSetArpIgnore, SetProxyArp, EnableNonlocalBind.
  set (n0 := length (log k)).
  nextCall k F1; [stopped 2%nat F1|].
  nextCall k F2; [stopped 3%nat F2|].
  nextCall k F3; [stopped 4%nat F3|].
  nextCall k F4; [stopped 5%nat F4|].
  intros H; inversion H; subst. simp. repeat split. exists 5%nat. cbn [take fst].
  repeat split; [lia | now rewrite <- !app_assoc].
Qed.

(** The third call, which clears arp_ignore on the device, fails. *)
Lemma Init_pure_mode_witness :
  let d := Scenario.driver "eth1" "pure" in
  let k := Scenario.oneAddr (Scenario.failAt 2 (SyscallErrno EPERM)) in
  let run := Init PerLoop d k in
  links run.2 = links k /\ addrs run.2 = addrs k /\ routes run.2 = routes k
  /\ exists n,
       (0 < n)%nat
       /\ log run.2 = log k ++ take n (pureCalls (Device (conf d)))
       /\ match run.1.1 with
          | None =>
              n = 5%nat
              /\ sysctl run.2 = <["net.ipv4.ip_nonlocal_bind" := "1"]>
                                  (<[proxyArpKey (Device (conf d)) := "1"]>
                                     (<[arpIgnoreKey (Device (conf d)) := "0"]>
                                        (<[arpIgnoreKey "all" := "0"]> (sysctl k))))
          | Some e => n = 1%nat \/ fault k (length (log k) + n - 1)%nat = Some e
          end.
Proof.
  intros d k run. apply (Init_pure_mode PerLoop d k run.1 run.2).
  - reflexivity.
  - vm_compute. reflexivity.
Defined.

(** X14.  Bridge mode, the kernel lets the calls through and the device
    carries no address but loopback ones: [Init] only checks that the
    device is a port of the default bridge.  It makes three calls, all of
    which read; it succeeds exactly when the interface named like the
    default bridge has the index the device has as its master, and fails
    otherwise, without creating the bridge. *)
Theorem Init_without_address lv d k device :
  MacVlanMode d || IPVlanMode d || PureMode d = false ->
  DisableDefaultBridge (conf d) <> Some true ->
  faultless k ->
  byName (Device (conf d)) (links k) = Some device ->
  FilterLoopbackAddr (addrsOf (Index (Attrs device)) k) = [] ->
  (Init lv d k).1.1 = enslavedVerdict d device (links k)
  /\ (Init lv d k).2
     = logged (CLinkByName (DefaultBridgeName (conf d)))
         (logged (CAddrList (Index (Attrs device)))
            (logged (CLinkByName (Device (conf d))) k)).
Proof.
  intros Hm Hd Hf Hdev Hno. unfold Init.
  rewrite bind_eq, VlanSpec.LinkByName_run by apply Hf. rewrite Hdev. simp.
  set (d' := if bool_decide (Type_ device = "vlan") then _ else _).
  assert (Hc : conf d' = conf d)
    by (subst d'; destruct (bool_decide (Type_ device = "vlan")); reflexivity).
  unfold MacVlanMode, IPVlanMode, PureMode in *. rewrite !Hc.
  apply orb_false_iff in Hm as [Hm Hp]. rewrite Hm, Hp.
  rewrite bool_decide_eq_false_2 by exact Hd.
  rewrite bind_eq. unfold AddrList. rewrite invoke_run by apply Hf. simp.
  change (addrsOf (Index (Attrs device)) (logged _ (logged _ k)))
    with (addrsOf (Index (Attrs device)) k).
  rewrite Hno. cbn [length]. rewrite bool_decide_eq_true_2 by reflexivity.
  rewrite bind_eq. unfold checkEnslaved. rewrite !Hc.
  rewrite bind_eq, VlanSpec.LinkByName_run by apply Hf. simp.
  unfold enslavedVerdict.
  destruct (byName (DefaultBridgeName (conf d)) (links k)) as [bri|]; simp.
  - destruct (decide (Index (Attrs bri) = MasterIndex (Attrs device))) as [E|E].
    + rewrite bool_decide_eq_false_2 by tauto. rewrite bool_decide_eq_true_2 by exact E.
      split; reflexivity.
    + rewrite bool_decide_eq_true_2 by exact E. rewrite bool_decide_eq_false_2 by exact E.
      split; reflexivity.
  - split; reflexivity.
Qed.

Lemma Init_without_address_witness :
  let d := Scenario.driver "eth1" "" in
  let k := Cases.migratedHost in
  (Init PerLoop d k).1.1 = enslavedVerdict d Cases.eth1Port (links k)
  /\ (Init PerLoop d k).2
     = logged (CLinkByName (DefaultBridgeName (conf d)))
         (logged (CAddrList (Index (Attrs Cases.eth1Port)))
            (logged (CLinkByName (Device (conf d))) k)).
Proof.
  intros d k. apply (Init_without_address PerLoop d k Cases.eth1Port).
  - reflexivity.
  - discriminate.
  - intros n. reflexivity.
  - reflexivity.
  - reflexivity.
Defined.

Section Moved.
Variables (d : VlanDriver) (device bri : Link).
Hypothesis apart : Index (Attrs bri) <> Index (Attrs device).

(** The address loop on a kernel that lets every call through: when it
    runs to its end, every address it was given is on the bridge, and what
    is left on the device was there before and is of none of these
    networks. *)
Lemma addrLoop_moved (addrs0 : list Addr) n : forall s fr ds k fr' ds' k',
  faultless k ->
  (forall j, (s <= j)%nat -> filteredAddr fr !! j = addrs0 !! j) ->
  length (filteredAddr fr) = length addrs0 ->
  (s + n <= length addrs0)%nat ->
  addrLoop d device bri (seq s n) fr ds k = ((None, fr', ds'), k') ->
  faultless k' /\ links k' = links k
  /\ (forall a, carries (Index (Attrs bri)) a k = true ->
                carries (Index (Attrs bri)) a k' = true)
  /\ Forall (fun a => carries (Index (Attrs bri)) a k' = true) (take n (drop s addrs0))
  /\ (forall x, x ∈ addrs k' -> x.1 = Index (Attrs device) ->
        x ∈ addrs k
        /\ Forall (fun a => IPNet_ x.2 <> IPNet_ a) (take n (drop s addrs0))).
Proof.
  induction n as [|n IH]; intros s fr ds k fr' ds' k' Hf Hinv Hlen Hle H;
    cbn [seq addrLoop] in H.
  - inversion H; subst. cbn [take]. repeat split; auto.
  - assert (Hs : (s < length addrs0)%nat) by lia.
    destruct (lookup_lt_is_Some_2 addrs0 s Hs) as [a Ha].
    assert (Hel : elem (filteredAddr fr) s = a).
    { unfold elem. rewrite Hinv, Ha by lia. reflexivity. }
    cbn [filteredAddr set_err set_i set_filteredAddr] in H.
    rewrite bind_eq, !Hel in H. unfold AddrDel in H. rewrite delAddr_run in H by exact Hf.
    destruct (existsb (sameNet (Index (Attrs device)) a) (addrs k)) eqn:Hex;
      cbn [fst snd] in H; [|discriminate].
    set (k1 := (delAddr _ a _).2) in H.
    assert (Hk1 : links k1 = links k /\ faultless k1
                  /\ addrs k1 = filter (fun x => sameNet (Index (Attrs device)) a x = false)
                                  (addrs k)).
    { subst k1. destruct (delAddr_frame (Index (Attrs device)) a
                            (logged (CAddrDel (Index (Attrs device)) a) k)) as (Hl & Hff & _).
      rewrite delAddr_addrs. cbn [addrs logged]. rewrite Hex.
      repeat split; [exact Hl | intros m; rewrite Hff; apply Hf]. }
    destruct Hk1 as (Hl1 & Hf1 & Ha1).
    rewrite bind_eq in H.
    match type of H with
    | context [AddrAdd bri ?x] => assert (Hx : x = clearLabel a)
    end.
    { unfold elem. rewrite list_lookup_insert_eq by lia. reflexivity. }
    rewrite Hx in H. clear Hx.
    unfold AddrAdd in H. rewrite invoke__run in H by apply Hf1.
    unfold addAddr in H. cbv beta iota in H. cbn [fst snd errOf addrs logged] in H.
    set (B := Index (Attrs bri)) in *. set (D := Index (Attrs device)) in *.
    assert (Hrec : forall fr1 ds1 k2,
               faultless k2 -> links k2 = links k1 ->
               carries B a k2 = true ->
               (forall x, x ∈ addrs k2 -> x ∈ addrs k1 \/ x.1 = B) ->
               (forall x, x ∈ addrs k1 -> x ∈ addrs k2) ->
               filteredAddr fr1 = <[s := clearLabel a]> (filteredAddr fr) ->
               addrLoop d device bri (seq (S s) n) fr1 ds1 k2 = ((None, fr', ds'), k') ->
               faultless k' /\ links k' = links k
               /\ (forall a0, carries B a0 k = true -> carries B a0 k' = true)
               /\ Forall (fun a0 => carries B a0 k' = true) (take (S n) (drop s addrs0))
               /\ (forall x, x ∈ addrs k' -> x.1 = D ->
                     x ∈ addrs k
                     /\ Forall (fun a0 => IPNet_ x.2 <> IPNet_ a0) (take (S n) (drop s addrs0)))).
    { intros fr1 ds1 k2 Hf2 Hl2 Hc2 Hsub Hsup Hfr H1.
      apply IH in H1 as (Hf' & Hl' & Hmono & Hall & Hleft); [| exact Hf2 | | | lia].
      - rewrite (drop_S _ _ _ Ha). cbn [take].
        assert (Hkeep : forall a0, carries B a0 k = true -> carries B a0 k2 = true).
        { intros a0 (x & Hx & Hx1 & Hx2)%carries_iff. apply carries_iff. exists x.
          split; [|auto]. apply Hsup. rewrite Ha1. apply list_elem_of_filter. split; [|exact Hx].
          unfold sameNet. rewrite (bool_decide_eq_false_2 (x.1 = D)) by congruence.
          reflexivity. }
        split; [exact Hf'|]. split; [congruence|]. split; [auto|]. split.
        + constructor; [auto | exact Hall].
        + intros x Hx HxD. destruct (Hleft x Hx HxD) as [Hx2 Hne].
          destruct (Hsub x Hx2) as [Hx1 | HxB]; [|congruence].
          rewrite Ha1 in Hx1. apply list_elem_of_filter in Hx1 as [Hns Hx0].
          split; [exact Hx0|]. constructor; [|exact Hne].
          intros Heq. unfold sameNet in Hns.
          rewrite !bool_decide_eq_true_2 in Hns by assumption. discriminate.
      - intros j Hj. rewrite Hfr, list_lookup_insert_ne by lia. apply Hinv. lia.
      - rewrite Hfr, length_insert. exact Hlen. }
    destruct (existsb (sameNet B (clearLabel a)) (addrs k1)) eqn:Hnet;
      cbn [fst snd errOf] in H.
    + rewrite strings_Contains_EEXIST in H. cbn [negb] in H.
      eapply Hrec; [| | | | | | exact H]; try reflexivity; auto.
    + eapply Hrec; [| | | | | | exact H]; try reflexivity.
      * exact Hf1.
      * apply carries_iff. exists (B, clearLabel a). cbn [addrs set_addrs logged].
        split; [apply elem_of_app; right; now apply list_elem_of_singleton | auto].
      * cbn [addrs set_addrs logged]. intros x [Hx | ->%list_elem_of_singleton]%elem_of_app; auto.
      * cbn [addrs set_addrs logged]. intros x Hx. apply elem_of_app. now left.
Qed.

(** The route loop on a kernel that lets every call through always runs to
    its end: afterwards the table has a route with the key of each route
    it was given, on the bridge. *)
Lemma routeLoop_added rs : forall fr k,
  faultless k ->
  exists fr' k',
    routeLoop bri rs fr k = ((None, fr'), k')
    /\ faultless k' /\ links k' = links k /\ addrs k' = addrs k
    /\ (forall q, routed q k = true -> routed q k' = true)
    /\ Forall (fun r => routed (newRoute bri r) k' = true) rs.
Proof.
  induction rs as [|r rs IH]; intros fr k Hf; cbn [routeLoop].
  - do 2 eexists. split; [reflexivity|]. repeat split; auto.
  - rewrite bind_eq. unfold RouteAdd. rewrite invoke__run by apply Hf.
    unfold addRoute. simp.
    destruct (existsb (sameKey (newRoute bri r)) (routes k)) eqn:Hex; cbn [fst snd errOf].
    + rewrite strings_Contains_EEXIST. cbn [negb].
      destruct (IH (set_err None (set_err (Some (SyscallErrno EEXIST)) fr))
                  (logged (CRouteAdd (newRoute bri r)) k) Hf)
        as (fr' & k' & -> & Hf' & Hl & Ha & Hm & Hall).
      do 2 eexists. split; [reflexivity|]. repeat split; auto.
    + set (k1 := set_routes _ _).
      assert (Hin : routed (newRoute bri r) k1 = true).
      { unfold routed. apply existsb_exists. exists (newRoute bri r). split.
        - subst k1. cbn. apply in_or_app. right. now left.
        - unfold sameKey. now rewrite !bool_decide_eq_true_2. }
      assert (Hmono : forall q, routed q k = true -> routed q k1 = true).
      { unfold routed. intros q (x & Hx & Hq)%existsb_exists. apply existsb_exists.
        exists x. split; [|exact Hq]. subst k1. cbn. apply in_or_app. now left. }
      destruct (IH (set_err None fr) k1 Hf) as (fr' & k' & -> & Hf' & Hl & Ha & Hm & Hall).
      do 2 eexists. split; [reflexivity|]. repeat split; auto.
Qed.

End Moved.

(** The migration on a kernel that lets every call through, when it
    succeeds. *)
Lemma migrate_outcome lv d device dn addrs0 k k' :
  faultless k ->
  byName dn (links k) = Some device ->
  (forall b, byName (DefaultBridgeName (conf d)) (links k) = Some b ->
             Index (Attrs b) <> Index (Attrs device)) ->
  migrate lv d device addrs0 k = (None, k') ->
  exists bri,
    byName (DefaultBridgeName (conf d)) (links k') = Some bri
    /\ Up (Attrs bri) = true
    /\ byName dn (links k') = Some (setMaster (Index (Attrs bri)) device)
    /\ Forall (fun a => carries (Index (Attrs bri)) a k' = true) addrs0
    /\ (forall x, x ∈ Netlink.addrs k' -> x.1 = Index (Attrs device) ->
          x ∈ Netlink.addrs k /\ Forall (fun a => IPNet_ x.2 <> IPNet_ a) addrs0)
    /\ Forall (fun r => routed (newRoute bri r) k' = true) (routesOf (Index (Attrs device)) k).
Proof.
  intros Hf Hdev Hapart. unfold migrate.
  destruct (getOrCreateBridge_faultless (DefaultBridgeName (conf d))
              (HardwareAddr (Attrs device)) k Hf)
    as (b & k1 & E1 & Hf1 & Ha1 & Hr1 & Hb1 & Hold & Hnew).
  rewrite (bind_run _ _ _ _ _ E1).
  set (B := Index (Attrs b)). set (D := Index (Attrs device)).
  assert (HBD : B <> D).
  { destruct Hnew as [Hb | Hlt]; [now apply Hapart|].
    apply byName_In in Hdev. rewrite Forall_forall in Hlt. specialize (Hlt _ Hdev).
    subst B D. lia. }
  apply Hold in Hdev.
  (* the bridge is brought up *)
  assert (E2 : LinkSetUp b k1
               = (None, set_links (onIndex B setUp (links k1)) (logged (CLinkSetUp B) k1))).
  { unfold LinkSetUp. rewrite invoke__run by apply Hf1. simp. fold B.
    destruct (byIndex_is_Some B (links k1) b) as [x ->]; [now apply byName_In in Hb1 | reflexivity |].
    reflexivity. }
  rewrite (bind_run _ _ _ _ _ E2). set (k2 := set_links _ _).
  assert (Hf2 : faultless k2) by exact Hf1.
  assert (Hb2 : byName (DefaultBridgeName (conf d)) (links k2) = Some (setUp b)).
  { subst k2. simp. rewrite byName_up, Hb1. cbn. unfold upIf, B. now rewrite hasIndex_refl. }
  assert (Hd2 : byName dn (links k2) = Some device).
  { subst k2. simp. rewrite byName_up, Hdev. cbn. unfold upIf, hasIndex.
    rewrite bool_decide_eq_false_2 by (fold D; congruence). reflexivity. }
  (* the snapshot of the routes *)
  assert (E3 : RouteList device k2 = (Ok (routesOf D k), logged (CRouteList D) k2)).
  { unfold RouteList. rewrite invoke_run by apply Hf2. unfold routesOf. simp.
    subst k2. simp. now rewrite Hr1. }
  rewrite (bind_run _ _ _ _ _ E3). set (k3 := logged _ k2).
  assert (Hf3 : faultless k3) by exact Hf1.
  unfold moveToBridge. rewrite !bind_eq.
  destruct (addrLoop d device b (seq 0 (length addrs0)) _ _ k3) as [[[r fr4] ds4] k4] eqn:E4.
  cbn [fst snd]. destruct r as [e|].
  { cbn [ret fst snd]. rewrite bind_eq. cbn [ret fst snd]. discriminate. }
  apply (addrLoop_moved d device b HBD addrs0) in E4
    as (Hf4 & Hl4 & _ & Hon & Hleft); [| exact Hf3 | reflexivity | reflexivity | cbn; lia].
  rewrite drop_0, firstn_all in Hon. setoid_rewrite drop_0 in Hleft.
  setoid_rewrite firstn_all in Hleft.
  (* the device becomes a port of the bridge *)
  assert (E5 : LinkSetMaster device (DefaultBridgeName (conf d)) k4
               = (None, set_links (onIndex D (setMaster B) (links k4))
                          (logged (CLinkSetMaster D (DefaultBridgeName (conf d))) k4))).
  { unfold LinkSetMaster. rewrite invoke__run by apply Hf4. simp. rewrite Hl4. fold D.
    change (links k3) with (links k2). rewrite Hb2.
    destruct (byIndex_is_Some D (links k2) device) as [x ->];
      [now apply byName_In in Hd2 | reflexivity |].
    reflexivity. }
  rewrite (bind_run _ _ _ _ _ E5). set (k5 := set_links _ _).
  assert (Hf5 : faultless k5) by exact Hf4.
  rewrite bind_eq.
  destruct (routeLoop_added b (routesOf D k) (set_err None fr4) k5 Hf5)
    as (fr6 & k6 & E6 & Hf6 & Hl6 & Ha6 & _ & Hrt).
  rewrite E6. cbn [fst snd ret]. rewrite bind_eq.
  apply VlanSpec.routeLoop_ok in E6 as (_ & He6 & _).
  rewrite VlanSpec.runDefers_quiet by (apply He6; reflexivity).
  cbn [fst snd ret]. intros H. inversion H; subst k'. clear H.
  exists (setUp b). unfold carries. rewrite Hl6, Ha6. subst k5. simp. rewrite Hl4.
  change (links k3) with (links k2).
  repeat split.
  - rewrite byName_onIndex by reflexivity. rewrite Hb2. cbn. unfold hasIndex.
    rewrite bool_decide_eq_false_2 by (cbn; fold B; congruence). reflexivity.
  - rewrite byName_onIndex by reflexivity. rewrite Hd2. cbn. unfold D. now rewrite hasIndex_refl.
  - exact Hon.
  - destruct (Hleft x) as [Hx _]; [assumption | assumption |].
    change (x ∈ Netlink.addrs k1) in Hx. now rewrite Ha1 in Hx.
  - destruct (Hleft x) as [_ Hx]; assumption.
  - exact Hrt.
Qed.

(** X15.  Bridge mode on a kernel that lets every call through, the device
    carries addresses and the interface named like the default bridge, if
    there is one, is not the device: after an [Init] that succeeded the
    default bridge is there and up, the device is its port, the bridge
    carries an address of the network of every address of the device that
    is no loopback address, and none of these is left on the device.  For
    each route the device had, the routing table has a route with the
    destination, table and priority of the route [Init] adds for it on the
    bridge: that route, or the one that made the kernel answer "file
    exists". *)
Theorem Init_migration_outcome lv d k device d' k' :
  faultless k ->
  MacVlanMode d || IPVlanMode d || PureMode d = false ->
  DisableDefaultBridge (conf d) <> Some true ->
  byName (Device (conf d)) (links k) = Some device ->
  (forall b, byName (DefaultBridgeName (conf d)) (links k) = Some b ->
             Index (Attrs b) <> Index (Attrs device)) ->
  FilterLoopbackAddr (addrsOf (Index (Attrs device)) k) <> [] ->
  Init lv d k = ((None, d'), k') ->
  exists bri,
    byName (DefaultBridgeName (conf d)) (links k') = Some bri
    /\ Up (Attrs bri) = true
    /\ byName (Device (conf d)) (links k') = Some (setMaster (Index (Attrs bri)) device)
    /\ Forall (fun a => carries (Index (Attrs bri)) a k' = true)
         (FilterLoopbackAddr (addrsOf (Index (Attrs device)) k))
    /\ FilterLoopbackAddr (addrsOf (Index (Attrs device)) k') = []
    /\ Forall (fun r => routed (newRoute bri r) k' = true)
         (routesOf (Index (Attrs device)) k).
Proof.
  intros Hf Hm Hd Hdev Hapart Hsome. unfold Init.
  rewrite bind_eq, VlanSpec.LinkByName_run by apply Hf. rewrite Hdev. simp.
  set (d1 := if bool_decide (Type_ device = "vlan") then _ else _).
  assert (Hc : conf d1 = conf d)
    by (subst d1; destruct (bool_decide (Type_ device = "vlan")); reflexivity).
  unfold MacVlanMode, IPVlanMode, PureMode in *. rewrite !Hc.
  apply orb_false_iff in Hm as [Hm Hp]. rewrite Hm, Hp.
  rewrite bool_decide_eq_false_2 by exact Hd.
  rewrite bind_eq. unfold AddrList. rewrite invoke_run by apply Hf. simp.
  change (addrsOf (Index (Attrs device)) (logged _ (logged _ k)))
    with (addrsOf (Index (Attrs device)) k).
  set (A := FilterLoopbackAddr (addrsOf (Index (Attrs device)) k)) in *.
  rewrite bool_decide_eq_false_2 by (destruct A; [congruence | discriminate]).
  rewrite bind_eq.
  destruct (migrate lv d1 device A _) as [e k3] eqn:E. cbn [fst snd ret].
  intros H. inversion H; subst e k3 d'. clear H.
  apply (migrate_outcome lv d1 device (Device (conf d))) in E; [| exact Hf | exact Hdev |].
  2:{ rewrite Hc. exact Hapart. }
  rewrite Hc in E. destruct E as (bri & Hb & Hup & Hdv & Hon & Hleft & Hrt).
  exists bri. repeat (split; [assumption|]). split; [|exact Hrt].
  destruct (FilterLoopbackAddr (addrsOf (Index (Attrs device)) k')) as [|a rest] eqn:Hrest;
    [reflexivity | exfalso].
  assert (Ha : a ∈ FilterLoopbackAddr (addrsOf (Index (Attrs device)) k'))
    by (rewrite Hrest; apply elem_of_cons; now left).
  unfold FilterLoopbackAddr in Ha. apply list_elem_of_filter in Ha as [Hnl Ha].
  apply addrsOf_elem in Ha. destruct (Hleft _ Ha eq_refl) as [Hold Hne].
  cbn [fst snd logged Netlink.addrs] in Hold, Hne.
  assert (HA : a ∈ A).
  { subst A. unfold FilterLoopbackAddr. apply list_elem_of_filter. split; [exact Hnl|].
    now apply addrsOf_elem. }
  rewrite Forall_forall in Hne. now apply (Hne a HA).
Qed.

Lemma Init_migration_outcome_witness :
  let d := Scenario.driver "eth1" "" in
  let k := Scenario.twoAddrs Scenario.noFault in
  let k' := (Init PerLoop d k).2 in
  exists bri,
    byName (DefaultBridgeName (conf d)) (links k') = Some bri
    /\ Up (Attrs bri) = true
    /\ byName (Device (conf d)) (links k')
       = Some (setMaster (Index (Attrs bri)) Scenario.eth1)
    /\ Forall (fun a => carries (Index (Attrs bri)) a k' = true)
         (FilterLoopbackAddr (addrsOf (Index (Attrs Scenario.eth1)) k))
    /\ FilterLoopbackAddr (addrsOf (Index (Attrs Scenario.eth1)) k') = []
    /\ Forall (fun r => routed (newRoute bri r) k' = true)
         (routesOf (Index (Attrs Scenario.eth1)) k).
Proof.
  intros d k k'.
  apply (Init_migration_outcome PerLoop d k Scenario.eth1 (Init PerLoop d k).1.2 k').
  - intros n. reflexivity.
  - reflexivity.
  - discriminate.
  - reflexivity.
  - intros b Hb. vm_compute in Hb. discriminate.
  - vm_compute. discriminate.
  - vm_compute. reflexivity.
Defined.

(** ** The deferred closures of Init *)

(** The bridge is there and the two addresses are moved; enslaving the
    device, the fifth call, fails.  Both addresses were deleted, and the
    closures make two calls that add an address to the device, then add
    the route back. *)
Lemma rollback_calls_witness :
  let d := Scenario.driver "eth1" "" in
  let k := Cases.bridgeReady (Scenario.failAt 4 (SyscallErrno EPERM)) in
  let addrs := [Scenario.a5; Scenario.a6] in
  let run := moveToBridge d Scenario.eth1 Cases.docker [Scenario.viaGw] addrs k in
  let fr := run.1.1.2 in
  let ds := run.1.2 in
  exists m km rest,
    (m <= length addrs)%nat
    /\ Deleted Scenario.eth1 Cases.docker addrs 0 m k km
    /\ log run.2 = log k ++ flat_map (moveCalls Scenario.eth1 Cases.docker) (take m addrs)
                          ++ rest
    /\ Forall (fun c => addrAdding c = false) rest
    /\ log (runDefers PerLoop fr ds run.2).2 =
         log run.2
         ++ map (fun j => CAddrAdd (Index (Attrs Scenario.eth1)) (undone PerLoop fr addrs j))
              (rev (seq 0 m))
         ++ map CRouteAdd [Scenario.viaGw].
Proof.
  intros d k addrs run fr ds.
  apply (VlanSpec.rollback_calls d Scenario.eth1 Cases.docker PerLoop [Scenario.viaGw]
           addrs k
           (Errorf "Failed to add device eth1 to bridge device docker: operation not permitted")
           fr ds run.2).
  vm_compute. reflexivity.
Defined.

End VlanFacts.

(* ===================================================================== *)
(** * Further properties of the dispatcher *)
(* ===================================================================== *)

Module DispatcherFacts.
Import Galaxy Stated KernelFacts Effects.

Section Dispatcher.
Variable ParsePorts : string -> list Port * option error.
Variable json_Marshal : Result -> string * option error.
Variable fmt_ports : list Port -> string.
Variable fmt_IPConfig : IPConfig -> string.

Local Abbreviation requestFunc := (requestFunc ParsePorts json_Marshal fmt_ports fmt_IPConfig).
Local Abbreviation setupPortMapping := (setupPortMapping ParsePorts fmt_ports fmt_IPConfig).
Local Abbreviation cleanupPortMapping := (cleanupPortMapping ParsePorts fmt_ports).

Lemma call__run c sem w :
  call_ c sem w
  = match wfault w (length (wlog w)) with
    | Some e => (Some e, wlogged c w)
    | None => (errOf (sem (wlogged c w)).1, (sem (wlogged c w)).2)
    end.
Proof.
  unfold call_, call. rewrite bind_eq. destruct (wfault w _); [reflexivity|].
  destruct (sem _); reflexivity.
Qed.

(** An ADD, by what the delegate returns. *)
Lemma requestFunc_add g req w :
  Command req = COMMAND_ADD ->
  exists c1 c2 req',
    portWork c1 = false /\ portWork c2 = false
    /\ Ports req' = Ports req /\ ContainerID req' = ContainerID req
    /\ requestFunc g req w =
       match delegate w (S (length (wlog w))) with
       | (_, Some e) => (("", Some e), wlogged c2 (wlogged c1 w))
       | (None, None) => (("", None), wlogged c2 (wlogged c1 w))
       | (Some result, None) =>
           let r := setupPortMapping (Ports req) (ContainerID req) result
                      (wlogged c2 (wlogged c1 w)) in
           (((json_Marshal result).1, r.1), r.2)
       end.
Proof.
  intros Hc. unfold Galaxy.requestFunc.
  rewrite bool_decide_eq_true_2 by exact Hc. rewrite bind_eq.
  destruct (GalaxySpec.cmdAdd_run g req w) as (c1 & c2 & req' & -> & H1 & H2 & Hp & Hid).
  exists c1, c2, req'. repeat (split; [assumption|]). cbn [fst snd].
  destruct (delegate w (S (length (wlog w)))) as [[r|] [e|]]; cbn [ret]; try reflexivity.
  destruct (json_Marshal r) as [data me]. rewrite bind_eq, Hp, Hid. reflexivity.
Qed.

Lemma newCalls_2 c1 c2 w : newCalls w (wlogged c2 (wlogged c1 w)) = [c1; c2].
Proof. unfold newCalls. cbn. now rewrite <- app_assoc, drop_app_length. Qed.

(** What [setupPortMapping] does after the spec has parsed. *)
Lemma setupPortMapping_run portStr containerID result ports w :
  ParsePorts portStr = (ports, None) ->
  setupPortMapping portStr containerID result w
  = match wfault w (length (wlog w)) with
    | Some e => (Some (Errorf ("failed to save ports " +:+ Error e)),
                 wlogged (XSavePort containerID portStr) w)
    | None =>
        let w1 := set_store (<[containerID := portStr]> (store w))
                    (wlogged (XSavePort containerID portStr) w) in
        match IP4 result with
        | None => (Some (Errorf "CNI plugin reported no IPv4 address"), w1)
        | Some c =>
            match To4 (IP_ (IP c)) with
            | None => (Some (Errorf ("CNI plugin reported an invalid IPv4 address: "
                                       +:+ fmt_IPConfig c +:+ ".")), w1)
            | Some ip4 =>
                let ps := map (set_PodIP (IP_String ip4)) ports in
                if bool_decide (length ps <> 0%nat) then
                  match wfault w (S (length (wlog w))) with
                  | Some e => (Some (Errorf ("failed to setup port mapping "
                                               +:+ fmt_ports ps +:+ ": " +:+ Error e)),
                               wlogged (XSetupPortMapping "cni0" ps) w1)
                  | None => (None, set_installed (installed w ++ ps)
                                     (wlogged (XSetupPortMapping "cni0" ps) w1))
                  end
                else (None, w1)
            end
        end
    end.
Proof.
  intros Hp. unfold Galaxy.setupPortMapping. rewrite Hp.
  unfold SavePort, SetupPortMapping. rewrite bind_eq, call__run.
  destruct (wfault w (length (wlog w))); cbn [fst snd ret errOf]; [reflexivity|].
  destruct (IP4 result) as [c|]; [|reflexivity].
  destruct (To4 _) as [ip4|]; [|reflexivity]. cbv zeta.
  destruct (bool_decide _); [|reflexivity].
  rewrite bind_eq, call__run. cbn [wfault wlog set_store wlogged].
  rewrite length_app. cbn [length]. replace (length (wlog w) + 1)%nat with (S (length (wlog w))) by lia.
  destruct (wfault w (S (length (wlog w)))); reflexivity.
Qed.

(** A DEL, by what the delegate's teardown returns. *)
Lemma requestFunc_del g req w :
  Command req = COMMAND_DEL ->
  exists c,
    portWork c = false
    /\ requestFunc g req w =
       match wfault w (length (wlog w)) with
       | Some e => (("", Some e), wlogged c w)
       | None => let r := cleanupPortMapping (ContainerID req) (wlogged c w) in
                 (("", r.1), r.2)
       end.
Proof.
  intros Hc. unfold Galaxy.requestFunc.
  rewrite bool_decide_eq_false_2 by (rewrite Hc; discriminate).
  rewrite bool_decide_eq_true_2 by exact Hc.
  rewrite bind_eq. unfold cmdDel, flannel_CmdDel, remote_CmdDel.
  destruct (bool_decide (flagMaster g = "")); rewrite bind_eq, call__run;
    eexists; (split; [|destruct (wfault w (length (wlog w))); cbn [fst snd ret errOf];
                        [reflexivity | rewrite bind_eq; reflexivity]]); reflexivity.
Qed.

(** X17.  An ADD whose delegate fails returns the delegate's error as it
    is, with no data, even when the delegate handed out a result next to
    the error, and whether disabling IPv6 went well or not; it makes two
    calls, none of them port-mapping work, and leaves the store and the
    installed mappings alone. *)
Theorem add_delegate_error g req w r e :
  Command req = COMMAND_ADD ->
  delegate w (S (length (wlog w))) = (r, Some e) ->
  let out := requestFunc g req w in
  out.1 = ("", Some e)
  /\ store out.2 = store w /\ installed out.2 = installed w
  /\ length (newCalls w out.2) = 2%nat
  /\ Forall (fun c => portWork c = false) (newCalls w out.2).
Proof.
  intros Hc Hd out. subst out.
  destruct (requestFunc_add g req w Hc) as (c1 & c2 & req' & H1 & H2 & _ & _ & ->).
  rewrite Hd. destruct r; cbn [fst snd]; rewrite newCalls_2;
    repeat split; repeat constructor; assumption.
Qed.

(** X18.  An ADD whose port spec does not parse returns the parser's error
    as it is, next to the marshalled result; nothing is saved and nothing
    is installed, no call follows the delegate's. *)
Theorem add_bad_port_spec g req w result ports e :
  Command req = COMMAND_ADD ->
  delegate w (S (length (wlog w))) = (Some result, None) ->
  ParsePorts (Ports req) = (ports, Some e) ->
  let out := requestFunc g req w in
  out.1 = ((json_Marshal result).1, Some e)
  /\ store out.2 = store w /\ installed out.2 = installed w
  /\ length (newCalls w out.2) = 2%nat
  /\ Forall (fun c => portWork c = false) (newCalls w out.2).
Proof.
  intros Hc Hd Hp out. subst out.
  destruct (requestFunc_add g req w Hc) as (c1 & c2 & req' & H1 & H2 & _ & _ & ->).
  rewrite Hd. cbv zeta. unfold Galaxy.setupPortMapping. rewrite Hp. cbn [ret fst snd].
  rewrite newCalls_2. repeat split; repeat constructor; assumption.
Qed.

(** X19.  Without a usable IPv4 address in the delegate's result an ADD
    fails and installs nothing: the port-mapping handler is not called. *)
Theorem add_needs_ipv4 g req w result :
  Command req = COMMAND_ADD ->
  delegate w (S (length (wlog w))) = (Some result, None) ->
  usableIPv4 result = false ->
  let out := requestFunc g req w in
  is_Some out.1.2
  /\ installed out.2 = installed w
  /\ Forall (fun c => installing c = false) (newCalls w out.2).
Proof.
  intros Hc Hd Hu out. subst out.
  destruct (requestFunc_add g req w Hc) as (c1 & c2 & req' & H1 & H2 & _ & _ & ->).
  rewrite Hd. cbv zeta.
  assert (Hi : forall c, portWork c = false -> installing c = false)
    by (intros []; cbn; congruence).
  destruct (ParsePorts (Ports req)) as [ports [e|]] eqn:Hp.
  - unfold Galaxy.setupPortMapping. rewrite Hp. cbn [ret fst snd]. rewrite newCalls_2.
    repeat split; eauto.
  - rewrite (setupPortMapping_run _ _ _ _ _ Hp). rewrite !GalaxySpec.length_wlogged. cbn [wfault wlogged].
    unfold usableIPv4 in Hu.
    assert (Hlog : forall c3 s, newCalls w (set_store s (wlogged c3 (wlogged c2 (wlogged c1 w))))
                           = [c1; c2; c3]).
    { intros. unfold newCalls. cbn. now rewrite <- !app_assoc, drop_app_length. }
    destruct (wfault w (S (S (length (wlog w))))); cbn [fst snd].
    + split; [eauto|]. split; [reflexivity|].
      unfold newCalls. cbn. rewrite <- !app_assoc, drop_app_length. repeat constructor; auto.
    + destruct (IP4 result) as [c|]; cbv zeta.
      * destruct (To4 (IP_ (IP c))) as [ip4|].
        { apply bool_decide_eq_false in Hu. exfalso. apply Hu. eauto. }
        cbn [fst snd]. rewrite Hlog. repeat split; eauto. repeat constructor; auto.
      * cbn [fst snd]. rewrite Hlog. repeat split; eauto. repeat constructor; auto.
Qed.

(** X20.  An ADD that goes through returns the marshalled result; the
    spec is saved under the container ID and then, when it has ports, the
    handler is called once, on the bridge cni0, with the parsed mappings
    in their order.  With an empty list of ports the handler is not
    called. *)
Theorem add_installs g req w result c ip4 ports :
  Command req = COMMAND_ADD ->
  delegate w (S (length (wlog w))) = (Some result, None) ->
  IP4 result = Some c -> To4 (IP_ (IP c)) = Some ip4 ->
  ParsePorts (Ports req) = (ports, None) ->
  wfault w (S (S (length (wlog w)))) = None ->
  wfault w (S (S (S (length (wlog w))))) = None ->
  let out := requestFunc g req w in
  out.1 = ((json_Marshal result).1, None)
  /\ store out.2 = <[ContainerID req := Ports req]> (store w)
  /\ exists c1 c2,
       portWork c1 = false /\ portWork c2 = false
       /\ match ports with
          | [] => newCalls w out.2 = [c1; c2; XSavePort (ContainerID req) (Ports req)]
                  /\ installed out.2 = installed w
          | _ :: _ =>
              exists ps,
                newCalls w out.2 = [c1; c2; XSavePort (ContainerID req) (Ports req);
                                    XSetupPortMapping "cni0" ps]
                /\ installed out.2 = installed w ++ ps
                /\ map mapping ps = map mapping ports
          end.
Proof.
  intros Hc Hd H4 Hip Hp Hf1 Hf2 out. subst out.
  destruct (requestFunc_add g req w Hc) as (c1 & c2 & req' & H1 & H2 & _ & _ & ->).
  rewrite Hd. cbv zeta.
  rewrite (setupPortMapping_run _ _ _ _ _ Hp). rewrite !GalaxySpec.length_wlogged.
  cbn [wfault wlogged]. rewrite Hf1, H4, Hip, Hf2. cbv zeta. rewrite length_map.
  destruct ports as [|p ports].
  - cbn [length]. rewrite bool_decide_eq_false_2 by tauto. cbn [fst snd store set_store].
    repeat split. exists c1, c2. repeat split; try assumption.
    unfold newCalls. cbn. now rewrite <- !app_assoc, drop_app_length.
  - rewrite bool_decide_eq_true_2 by (cbn; lia).
    cbn [fst snd store set_store set_installed wlogged installed].
    repeat split. exists c1, c2. repeat split; try assumption.
    eexists. repeat split.
    + unfold newCalls. cbn [wlog set_installed wlogged set_store].
      rewrite <- !app_assoc, drop_app_length. reflexivity.
    + rewrite map_map. apply map_ext. reflexivity.
Qed.

(** X21.  The error of [json.Marshal] never reaches the caller: the error
    a request returns and the world it leaves are the same for any two
    marshallers. *)
Theorem add_marshal_error_dropped (json_Marshal' : Result -> string * option error) g req w :
  (requestFunc g req w).1.2
  = (Galaxy.requestFunc ParsePorts json_Marshal' fmt_ports fmt_IPConfig g req w).1.2
  /\ (requestFunc g req w).2
     = (Galaxy.requestFunc ParsePorts json_Marshal' fmt_ports fmt_IPConfig g req w).2.
Proof.
  unfold Galaxy.requestFunc.
  destruct (bool_decide (Command req = COMMAND_ADD)); [|split; reflexivity].
  rewrite !bind_eq.
  destruct (cmdAdd g req w) as [[[r e] req'] w1]. cbn [fst snd].
  destruct e; [split; reflexivity|]. destruct r as [r|]; [|split; reflexivity].
  destruct (json_Marshal r), (json_Marshal' r). rewrite !bind_eq. split; reflexivity.
Qed.

(** X22.  A DEL whose delegate teardown fails returns that error and does
    not look at the port store: the entry of the container stays, and the
    mappings stay installed. *)
Theorem del_teardown_failure g req w e :
  Command req = COMMAND_DEL ->
  wfault w (length (wlog w)) = Some e ->
  let out := requestFunc g req w in
  out.1 = ("", Some e)
  /\ store out.2 = store w /\ installed out.2 = installed w
  /\ length (newCalls w out.2) = 1%nat
  /\ Forall (fun c => portWork c = false) (newCalls w out.2).
Proof.
  intros Hc Hf out. subst out.
  destruct (requestFunc_del g req w Hc) as (c & H1 & ->). rewrite Hf. cbn [fst snd].
  unfold newCalls. cbn. rewrite drop_app_length. repeat split. repeat constructor. exact H1.
Qed.


(** X24.  A DEL that finds the entry of the container: the entry is taken
    out of the store, and the handler is asked once to clean the ports of
    the stored spec, as the parser reads them, on cni0; with a spec that
    has no port the handler is not called. *)
Theorem del_cleans_saved_ports g req w spec ports :
  Command req = COMMAND_DEL ->
  store w !! ContainerID req = Some spec ->
  ParsePorts spec = (ports, None) ->
  wfault w (length (wlog w)) = None ->
  wfault w (S (length (wlog w))) = None ->
  wfault w (S (S (length (wlog w)))) = None ->
  let out := requestFunc g req w in
  out.1 = ("", None)
  /\ store out.2 = delete (ContainerID req) (store w)
  /\ exists c,
       portWork c = false
       /\ newCalls w out.2
          = [c; XConsumePort (ContainerID req)]
            ++ (if bool_decide (ports = []) then [] else [XCleanPortMapping "cni0" ports]).
Proof.
  intros Hc Hs Hp Hf0 Hf1 Hf2 out. subst out.
  destruct (requestFunc_del g req w Hc) as (c & H1 & ->). rewrite Hf0. cbv zeta.
  unfold Galaxy.cleanupPortMapping, ConsumePort, call. rewrite !bind_eq.
  rewrite GalaxySpec.length_wlogged. cbn [wfault wlogged store]. rewrite Hf1, Hs.
  cbn [fst snd ret]. rewrite Hp.
  destruct ports as [|p ports].
  - cbn [length]. rewrite bool_decide_eq_false_2 by tauto. cbn [fst snd ret store set_store].
    repeat split. exists c. split; [exact H1|].
    unfold newCalls. cbn. now rewrite <- !app_assoc, drop_app_length.
  - rewrite bool_decide_eq_true_2 by (cbn; lia).
    unfold CleanPortMapping. rewrite bind_eq, call__run.
    cbn [wfault wlog set_store wlogged]. rewrite !length_app. cbn [length].
    replace (length (wlog w) + 1 + 1)%nat with (S (S (length (wlog w)))) by lia.
    rewrite Hf2. cbn [fst snd ret errOf store set_store set_installed wlogged].
    repeat split. exists c. split; [exact H1|].
    unfold newCalls. cbn. now rewrite <- !app_assoc, drop_app_length.
Qed.

End Dispatcher.

Local Abbreviation run := (requestFunc Scenario.parse Scenario.marshal Scenario.showPorts
                             Scenario.showIPConfig Scenario.galaxy).

Lemma add_delegate_error_witness :
  let w := Scenario.world ∅ (Some Scenario.podIP, Some (errorString "no subnet lease")) in
  let out := run (Scenario.request "ADD" "8080:80/tcp") w in
  out.1 = ("", Some (errorString "no subnet lease"))
  /\ store out.2 = store w /\ installed out.2 = installed w
  /\ length (newCalls w out.2) = 2%nat
  /\ Forall (fun c => portWork c = false) (newCalls w out.2).
Proof.
  intros w.
  apply (add_delegate_error Scenario.parse Scenario.marshal Scenario.showPorts
           Scenario.showIPConfig Scenario.galaxy (Scenario.request "ADD" "8080:80/tcp") w
           (Some Scenario.podIP) (errorString "no subnet lease")).
  - reflexivity.
  - reflexivity.
Defined.

Lemma add_bad_port_spec_witness :
  let w := Scenario.world ∅ (Some Scenario.podIP, None) in
  let out := run (Scenario.request "ADD" "80:http") w in
  out.1 = ((Scenario.marshal Scenario.podIP).1, Some (errorString "invalid port spec"))
  /\ store out.2 = store w /\ installed out.2 = installed w
  /\ length (newCalls w out.2) = 2%nat
  /\ Forall (fun c => portWork c = false) (newCalls w out.2).
Proof.
  intros w.
  apply (add_bad_port_spec Scenario.parse Scenario.marshal Scenario.showPorts
           Scenario.showIPConfig Scenario.galaxy (Scenario.request "ADD" "80:http") w
           Scenario.podIP [] (errorString "invalid port spec")).
  - reflexivity.
  - reflexivity.
  - reflexivity.
Defined.

Lemma add_needs_ipv4_witness :
  let w := Scenario.world ∅ (Some Scenario.noIPv4, None) in
  let out := run (Scenario.request "ADD" "8080:80/tcp") w in
  is_Some out.1.2
  /\ installed out.2 = installed w
  /\ Forall (fun c => installing c = false) (newCalls w out.2).
Proof.
  intros w.
  apply (add_needs_ipv4 Scenario.parse Scenario.marshal Scenario.showPorts
           Scenario.showIPConfig Scenario.galaxy (Scenario.request "ADD" "8080:80/tcp") w
           Scenario.noIPv4).
  - reflexivity.
  - reflexivity.
  - reflexivity.
Defined.

Lemma add_installs_witness :
  let w := Scenario.world ∅ (Some Scenario.podIP, None) in
  let req := Scenario.request "ADD" "8080:80/tcp" in
  let out := run req w in
  out.1 = ((Scenario.marshal Scenario.podIP).1, None)
  /\ store out.2 = <[ContainerID req := Ports req]> (store w)
  /\ exists c1 c2,
       portWork c1 = false /\ portWork c2 = false
       /\ match [Scenario.port8080] with
          | [] => newCalls w out.2 = [c1; c2; XSavePort (ContainerID req) (Ports req)]
                  /\ installed out.2 = installed w
          | _ :: _ =>
              exists ps,
                newCalls w out.2 = [c1; c2; XSavePort (ContainerID req) (Ports req);
                                    XSetupPortMapping "cni0" ps]
                /\ installed out.2 = installed w ++ ps
                /\ map mapping ps = map mapping [Scenario.port8080]
          end.
Proof.
  intros w req.
  apply (add_installs Scenario.parse Scenario.marshal Scenario.showPorts
           Scenario.showIPConfig Scenario.galaxy req w Scenario.podIP
           {| IP := {| IP_ := [10; 1; 2; 3]; Ones := 24 |}; Gateway := [10; 1; 2; 1] |}
           [10; 1; 2; 3] [Scenario.port8080]).
  - reflexivity.
  - reflexivity.
  - reflexivity.
  - reflexivity.
  - reflexivity.
  - reflexivity.
  - reflexivity.
Defined.

Lemma del_teardown_failure_witness :
  let w := Cases.worldWith Cases.savedC1 (Scenario.failAt 0 (errorString "teardown failed")) in
  let out := run (Scenario.request "DEL" "") w in
  out.1 = ("", Some (errorString "teardown failed"))
  /\ store out.2 = store w /\ installed out.2 = installed w
  /\ length (newCalls w out.2) = 1%nat
  /\ Forall (fun c => portWork c = false) (newCalls w out.2).
Proof.
  intros w.
  apply (del_teardown_failure Scenario.parse Scenario.marshal Scenario.showPorts
           Scenario.showIPConfig Scenario.galaxy (Scenario.request "DEL" "") w
           (errorString "teardown failed")).
  - reflexivity.
  - reflexivity.
Defined.


Lemma del_cleans_saved_ports_witness :
  let w := Cases.worldWith Cases.savedC1 Scenario.noFault in
  let req := Scenario.request "DEL" "" in
  let out := run req w in
  out.1 = ("", None)
  /\ store out.2 = delete (ContainerID req) (store w)
  /\ exists c,
       portWork c = false
       /\ newCalls w out.2
          = [c; XConsumePort (ContainerID req)]
            ++ (if bool_decide ([Scenario.port8080] = []) then []
                else [XCleanPortMapping "cni0" [Scenario.port8080]]).
Proof.
  intros w req.
  apply (del_cleans_saved_ports Scenario.parse Scenario.marshal Scenario.showPorts
           Scenario.showIPConfig Scenario.galaxy req w "8080:80/tcp" [Scenario.port8080]).
  - reflexivity.
  - reflexivity.
  - reflexivity.
  - reflexivity.
  - reflexivity.
  - reflexivity.
Defined.

End DispatcherFacts.

(* ===================================================================== *)
(** * Properties of the HTTP side *)
(* ===================================================================== *)

Module ServerFacts.
Import Galaxy Server Stated KernelFacts Effects.

Section Handler.
Variable ParsePorts : string -> list Port * option error.
Variable json_Marshal : Result -> string * option error.
Variable fmt_ports : list Port -> string.
Variable fmt_IPConfig : IPConfig -> string.

Local Abbreviation requestFunc := (requestFunc ParsePorts json_Marshal fmt_ports fmt_IPConfig).
Local Abbreviation cni := (cni ParsePorts json_Marshal fmt_ports fmt_IPConfig).

(** X25.  The handler answers 200 or 400: 200, with the JSON content type
    and the data as body, exactly when the request was read and the
    dispatcher returned no error; 400 otherwise, with the error text and a
    line feed as a plain-text body. *)
Theorem cni_status g parsed w :
  let resp := (cni g parsed w).1 in
  let failure := match parsed with
                 | Err e => Some e
                 | Ok req => (requestFunc g req w).1.2
                 end in
  match failure with
  | None => Status resp = 200
            /\ Header resp !! "Content-Type" = Some "application/json"
            /\ (exists req, parsed = Ok req /\ Body resp = (requestFunc g req w).1.1)
  | Some e => Status resp = 400
              /\ Header resp !! "Content-Type" = Some "text/plain; charset=utf-8"
              /\ Body resp = Error e +:+ LF
  end.
Proof.
  unfold Server.cni. destruct parsed as [req|e]; cbn [ret fst].
  - rewrite bind_eq. destruct (Galaxy.requestFunc _ _ _ _ g req w) as [[data [e|]] w'] eqn:E; cbn [fst snd ret].
    + split; [reflexivity|]. split; reflexivity.
    + split; [reflexivity|]. split; [reflexivity|]. exists req. rewrite E. split; reflexivity.
  - split; [reflexivity|]. split; reflexivity.
Qed.

(** X26.  A command that is neither ADD nor DEL is answered with 400 and
    the text "unkown command ..." (spelled as in the source) and a line
    feed, and nothing is called. *)
Theorem cni_unknown_command g req w :
  Command req <> COMMAND_ADD -> Command req <> COMMAND_DEL ->
  cni g (Ok req) w
  = ({| Status := 400;
        Header := <["X-Content-Type-Options" := "nosniff"]>
                    (<["Content-Type" := "text/plain; charset=utf-8"]> ∅);
        Body := "unkown command " +:+ Command req +:+ LF |}, w).
Proof.
  intros Ha Hd. unfold Server.cni, Galaxy.requestFunc.
  rewrite bind_eq. rewrite !bool_decide_eq_false_2 by assumption. cbn [ret fst snd].
  reflexivity.
Qed.

(** X27.  An ADD whose delegate returns neither a result nor an error is
    answered with 200, the JSON content type and an empty body. *)
Theorem cni_add_without_result g req w :
  Command req = COMMAND_ADD ->
  delegate w (S (length (wlog w))) = (None, None) ->
  (cni g (Ok req) w).1
  = {| Status := 200; Header := <["Content-Type" := "application/json"]> ∅; Body := "" |}.
Proof.
  intros Hc Hd. unfold Server.cni. rewrite bind_eq.
  destruct (DispatcherFacts.requestFunc_add ParsePorts json_Marshal fmt_ports fmt_IPConfig g req w Hc)
    as (c1 & c2 & req' & _ & _ & _ & _ & ->).
  rewrite Hd. reflexivity.
Qed.

End Handler.

Local Abbreviation handle := (cni Scenario.parse Scenario.marshal Scenario.showPorts
                                Scenario.showIPConfig Scenario.galaxy).

Lemma cni_unknown_command_witness :
  let w := Scenario.world ∅ (None, None) in
  let req := Scenario.request "VERSION" "" in
  handle (Ok req) w
  = ({| Status := 400;
        Header := <["X-Content-Type-Options" := "nosniff"]>
                    (<["Content-Type" := "text/plain; charset=utf-8"]> ∅);
        Body := "unkown command " +:+ Command req +:+ LF |}, w).
Proof.
  intros w req.
  apply (cni_unknown_command Scenario.parse Scenario.marshal Scenario.showPorts
           Scenario.showIPConfig Scenario.galaxy req w).
  - discriminate.
  - discriminate.
Defined.

Lemma cni_add_without_result_witness :
  let w := Scenario.world ∅ (None, None) in
  (handle (Ok (Scenario.request "ADD" "8080:80/tcp")) w).1
  = {| Status := 200; Header := <["Content-Type" := "application/json"]> ∅; Body := "" |}.
Proof.
  intros w.
  apply (cni_add_without_result Scenario.parse Scenario.marshal Scenario.showPorts
           Scenario.showIPConfig Scenario.galaxy (Scenario.request "ADD" "8080:80/tcp") w).
  - reflexivity.
  - reflexivity.
Defined.

(** ** startServer *)

Lemma sys_run c sem h :
  sys c sem h
  = match hfault h (length (hlog h)) with
    | Some e => (Some e, hlogged c h)
    | None => (errOf (sem (hlogged c h)).1, (sem (hlogged c h)).2)
    end.
Proof. unfold sys. destruct (hfault h _); [reflexivity|]. destruct (sem _); reflexivity. Qed.

Ltac hsimp :=
  cbv beta iota zeta;
  cbn [ret fst snd errOf files listening handlers hlog hfault set_files set_listening
       set_handlers hlogged].

Ltac startCases :=
  unfold startServer, installHandlers, route, os_Remove, net_Listen, os_Chmod, Close,
    http_Serve;
  repeat first
    [ progress (rewrite ?bind_eq, ?sys_run, ?lookup_insert_eq, ?lookup_delete_eq; hsimp)
    | match goal with
      | |- context [match hfault ?h ?n with _ => _ end] =>
          let F := fresh "F" in destruct (hfault h n) eqn:F
      | |- context [match files ?h !! ?p with _ => _ end] =>
          let F := fresh "L" in destruct (files h !! p) eqn:F
      | |- context [if negb (os_IsNotExist ?e) then _ else _] =>
          let F := fresh "N" in destruct (os_IsNotExist e) eqn:F; cbn [negb]
      end ].

(** X28.  A start that reaches [http.Serve]: the two routes of /cni were
    registered, the socket was bound at the path and given the mode 0600
    (no other file was touched), the listener is open, and the calls were
    made in the order of [startCalls]: routes, removal of the old socket,
    listen, chmod, serve. *)
Theorem startServer_served path h o h' :
  startServer path h = (o, h') ->
  served o = true ->
  files h' = <[path := mode0600]> (files h)
  /\ listening h' = true
  /\ handlers h' = handlers h ++ cniRoutes
  /\ hlog h' = hlog h ++ startCalls path.
Proof.
  startCases; rewrite ?lookup_insert_eq, ?lookup_delete_eq; hsimp;
    intros H; inversion H; subst; hsimp; try discriminate; intros _.
  all: rewrite ?insert_insert_eq, ?insert_delete_eq.
  all: repeat split; rewrite <- ?app_assoc; reflexivity.
Qed.

Lemma startServer_served_witness :
  let h := Cases.serverHost Cases.staleSocket Scenario.noFault in
  let run := startServer Cases.socketPath h in
  files run.2 = <[Cases.socketPath := mode0600]> (files h)
  /\ listening run.2 = true
  /\ handlers run.2 = handlers h ++ cniRoutes
  /\ hlog run.2 = hlog h ++ startCalls Cases.socketPath.
Proof.
  intros h run. apply (startServer_served Cases.socketPath h Serving run.2).
  - vm_compute. reflexivity.
  - reflexivity.
Defined.

(** X29.  A start, on a host without an open listener, that returns an
    error: the routes are registered all the same, [http.Serve] is never
    called, no listener is left open, and the error names the call that
    failed and wraps the error of that call.
    Either the removal of the old socket failed with an error other than
    that the file is not there, the error is "failed to remove", the path
    and the error of the removal, and nothing was called after it.  Or the
    removal let the start go on, the listen failed, the error is "failed
    to listen on pod info socket" and the error of the listen, and nothing
    was called after it.  Or the listen succeeded, the change of mode
    failed, the error is "failed to set pod info socket mode" and the
    error of the change of mode, and the listener was closed after it. *)
Theorem startServer_returned path h e h' :
  listening h = false ->
  startServer path h = (Return e, h') ->
  handlers h' = handlers h ++ cniRoutes
  /\ listening h' = false
  /\ Forall (fun c => c <> SServe) (drop (length (hlog h)) (hlog h'))
  /\ ((exists e0, (removal path h).1 = Some e0 /\ os_IsNotExist e0 = false
                  /\ e = Errorf ("failed to remove " ++ path ++ ": " ++ Error e0)
                  /\ h' = (removal path h).2)
      \/ (exists e0, passed (removal path h).1 = true
                     /\ (listen path h).1 = Some e0
                     /\ e = Errorf ("failed to listen on pod info socket: " ++ Error e0)
                     /\ h' = (listen path h).2)
      \/ (exists e0, passed (removal path h).1 = true
                     /\ (listen path h).1 = None
                     /\ (chmod path h).1 = Some e0
                     /\ e = Errorf ("failed to set pod info socket mode: " ++ Error e0)
                     /\ h' = (Close (chmod path h).2).2)).
Proof.
  intros Hl H.
  assert (Hframe : handlers h' = handlers h ++ cniRoutes
                   /\ listening h' = false
                   /\ Forall (fun c => c <> SServe) (drop (length (hlog h)) (hlog h'))).
  { revert H.
    startCases; rewrite ?lookup_insert_eq, ?lookup_delete_eq; hsimp;
      intros H; inversion H; subst; hsimp.
    all: rewrite <- ?app_assoc, ?drop_app_length.
    all: repeat split; try assumption; try reflexivity.
    all: repeat constructor; discriminate. }
  destruct Hframe as (Hh & Hli & Hs). split; [exact Hh|]. split; [exact Hli|].
  split; [exact Hs|]. clear Hh Hli Hs Hl.
  unfold startServer in H. rewrite bind_eq in H.
  change (installHandlers h).2 with (afterRoutes h) in H.
  rewrite bind_eq in H.
  change (os_Remove path (afterRoutes h)) with (removal path h) in H.
  assert (Hrest : passed (removal path h).1 = true ->
            (e0 <- net_Listen "unix" path ;;
             match e0 with
             | Some e1 => ret (Return (Errorf ("failed to listen on pod info socket: " ++ Error e1)))
             | None =>
                 e1 <- os_Chmod path mode0600 ;;
                 match e1 with
                 | Some e2 =>
                     _ <- Close ;;
                     ret (Return (Errorf ("failed to set pod info socket mode: " ++ Error e2)))
                 | None => http_Serve
                 end
             end) (removal path h).2 = (Return e, h') ->
            (exists e0, passed (removal path h).1 = true
                     /\ (listen path h).1 = Some e0
                     /\ e = Errorf ("failed to listen on pod info socket: " ++ Error e0)
                     /\ h' = (listen path h).2)
            \/ (exists e0, passed (removal path h).1 = true
                     /\ (listen path h).1 = None
                     /\ (chmod path h).1 = Some e0
                     /\ e = Errorf ("failed to set pod info socket mode: " ++ Error e0)
                     /\ h' = (Close (chmod path h).2).2)).
  { intros Hp. rewrite bind_eq.
    change (net_Listen "unix" path (removal path h).2) with (listen path h).
    destruct (listen path h).1 as [e4|] eqn:E4.
    - cbn [ret]. intros H1. inversion H1; subst. left. exists e4. auto.
    - rewrite bind_eq.
      change (os_Chmod path mode0600 (listen path h).2) with (chmod path h).
      destruct (chmod path h).1 as [e5|] eqn:E5.
      + rewrite bind_eq. cbn [ret]. intros H1. inversion H1; subst.
        right. exists e5. auto.
      + unfold http_Serve. destruct (hfault _ _); intros H1; inversion H1. }
  destruct (removal path h).1 as [e3|] eqn:E3.
  - destruct (os_IsNotExist e3) eqn:N; cbn [negb] in H.
    + right. apply Hrest; [exact N | exact H].
    + cbn [ret] in H. inversion H; subst. left. exists e3. auto.
  - right. apply Hrest; [reflexivity | exact H].
Qed.

(** The mode of the socket cannot be set: the listener is closed again. *)
Lemma startServer_returned_witness :
  let h := Cases.serverHost ∅ (Scenario.failAt 4 (SyscallErrno EPERM)) in
  let run := startServer Cases.socketPath h in
  let e := Errorf "failed to set pod info socket mode: operation not permitted" in
  handlers run.2 = handlers h ++ cniRoutes
  /\ listening run.2 = false
  /\ Forall (fun c => c <> SServe) (drop (length (hlog h)) (hlog run.2))
  /\ ((exists e0, (removal Cases.socketPath h).1 = Some e0 /\ os_IsNotExist e0 = false
                  /\ e = Errorf ("failed to remove " ++ Cases.socketPath ++ ": " ++ Error e0)
                  /\ run.2 = (removal Cases.socketPath h).2)
      \/ (exists e0, passed (removal Cases.socketPath h).1 = true
                     /\ (listen Cases.socketPath h).1 = Some e0
                     /\ e = Errorf ("failed to listen on pod info socket: " ++ Error e0)
                     /\ run.2 = (listen Cases.socketPath h).2)
      \/ (exists e0, passed (removal Cases.socketPath h).1 = true
                     /\ (listen Cases.socketPath h).1 = None
                     /\ (chmod Cases.socketPath h).1 = Some e0
                     /\ e = Errorf ("failed to set pod info socket mode: " ++ Error e0)
                     /\ run.2 = (Close (chmod Cases.socketPath h).2).2)).
Proof.
  intros h run e.
  apply (startServer_returned Cases.socketPath h e run.2).
  - reflexivity.
  - vm_compute. reflexivity.
Defined.

(** X30.  On a host that lets every call through the start reaches
    [http.Serve], whether an old socket file is in the way or not. *)
Theorem startServer_stale_socket path h :
  (forall n, hfault h n = None) ->
  (startServer path h).1 = Serving.
Proof.
  intros Hf. startCases; rewrite ?lookup_insert_eq, ?lookup_delete_eq; hsimp;
    try reflexivity.
  all: rewrite Hf in *; discriminate.
Qed.

Lemma startServer_stale_socket_witness :
  (startServer Cases.socketPath (Cases.serverHost Cases.staleSocket Scenario.noFault)).1
  = Serving.
Proof.
  apply (startServer_stale_socket Cases.socketPath
           (Cases.serverHost Cases.staleSocket Scenario.noFault)).
  intros n. reflexivity.
Defined.

End ServerFacts.
